(** * ADGM compliance engine: a shallow embedding and its verified properties

    The development follows the Python sources
    [src/config.py], [src/document_classifier.py], [src/red_flag_detector.py]
    and [src/document_processor.py].

    Conventions of the embedding.
    - Python [str] is [string]; texts are taken over the ASCII repertoire, where
      [str.lower], [str.title], [str.strip] and the regular expression class
      [\w] act exactly as written below.
    - Python [int] is [Z]; Python [float] is the kernel's binary64 [float].
    - A [dict] that is iterated (the rule tables) is the list of its items in
      insertion order.
    - A file on disk is either a readable document or the failure raised when it
      is opened.
    - The retrieval/LLM collaborator is an arbitrary state machine: every call of
      [get_compliance_guidance] returns a text or nothing, whatever it likes,
      and may change the collaborator's own state. *)

From Stdlib Require Import String Ascii List ZArith Bool Lia Permutation Sorted.
From Stdlib Require Import Floats.
From Stdlib Require DecimalString.
Import ListNotations.

Open Scope string_scope.
Open Scope list_scope.
Open Scope Z_scope.

(* Decimal float literals denote the nearest binary64 value, as in Python. *)
Set Warnings "-inexact-float".

(* ------------------------------------------------------------------------- *)
(** ** Python string operations *)

Module PyStr.

Definition code (c : ascii) : nat := nat_of_ascii c.

Definition between (lo hi : nat) (c : ascii) : bool :=
  (Nat.leb lo (code c) && Nat.leb (code c) hi)%bool.

Definition is_upper (c : ascii) : bool := between 65 90 c.
Definition is_lower (c : ascii) : bool := between 97 122 c.
Definition is_digit (c : ascii) : bool := between 48 57 c.
Definition is_alpha (c : ascii) : bool := (is_upper c || is_lower c)%bool.

(** [str.isspace] on one character: tab, line feed, vertical tab, form feed,
    carriage return, the four separators 0x1c-0x1f and the space. *)
Definition is_space (c : ascii) : bool :=
  (between 9 13 c || between 28 31 c || Nat.eqb (code c) 32)%bool.

(** The class [\w] of the [re] module. *)
Definition is_word (c : ascii) : bool :=
  (is_alpha c || is_digit c || Nat.eqb (code c) 95)%bool.

Definition lower_char (c : ascii) : ascii :=
  if is_upper c then ascii_of_nat (code c + 32) else c.

Definition upper_char (c : ascii) : ascii :=
  if is_lower c then ascii_of_nat (code c - 32) else c.

(** [s.lower()] *)
Fixpoint lower (s : string) : string :=
  match s with
  | EmptyString => EmptyString
  | String c s' => String (lower_char c) (lower s')
  end.

(** [s.title()]: a cased character that follows an uncased one is upper-cased,
    every other cased character is lower-cased. *)
Fixpoint title_from (previous_is_cased : bool) (s : string) : string :=
  match s with
  | EmptyString => EmptyString
  | String c s' =>
      String (if previous_is_cased then lower_char c else upper_char c)
             (title_from (is_alpha c) s')
  end.

Definition title (s : string) : string := title_from false s.

(** [sub in s] *)
Fixpoint contains (sub s : string) : bool :=
  (String.prefix sub s ||
   match s with
   | EmptyString => false
   | String _ s' => contains sub s'
   end)%bool.

(** [s.replace(old, new)] for a one-character [old]. *)
Fixpoint replace (old : ascii) (new : string) (s : string) : string :=
  match s with
  | EmptyString => EmptyString
  | String c s' =>
      if Ascii.eqb c old then new ++ replace old new s'
      else String c (replace old new s')
  end.

(** [sep.join(parts)] *)
Fixpoint join (sep : string) (parts : list string) : string :=
  match parts with
  | [] => EmptyString
  | [p] => p
  | p :: rest => p ++ sep ++ join sep rest
  end.

(** [s[:n]] for [n >= 0] *)
Fixpoint slice_to (n : nat) (s : string) : string :=
  match n, s with
  | O, _ => EmptyString
  | _, EmptyString => EmptyString
  | S n', String c s' => String c (slice_to n' s')
  end.

(** [s[n:]] for [n >= 0] *)
Fixpoint slice_from (n : nat) (s : string) : string :=
  match n, s with
  | O, _ => s
  | _, EmptyString => EmptyString
  | S n', String _ s' => slice_from n' s'
  end.

(** The truth value of [s.strip()]: some character is not white space. *)
Fixpoint strip_nonempty (s : string) : bool :=
  match s with
  | EmptyString => false
  | String c s' => (negb (is_space c) || strip_nonempty s')%bool
  end.

(** [c * n] for a one-character string *)
Fixpoint repeat (c : ascii) (n : nat) : string :=
  match n with
  | O => EmptyString
  | S n' => String c (repeat c n')
  end.

(** [len(s)] *)
Definition len (s : string) : Z := Z.of_nat (String.length s).

(** [str(n)], as an f-string prints an [int]. *)
Definition of_int (n : Z) : string :=
  DecimalString.NilZero.string_of_int (Z.to_int n).

(** The last character of [s] when [prev] is the character before [s]. *)
Fixpoint last_char (prev : option ascii) (s : string) : option ascii :=
  match s with
  | EmptyString => prev
  | String c s' => last_char (Some c) s'
  end.

Definition word_opt (c : option ascii) : bool :=
  match c with
  | Some c => is_word c
  | None => false
  end.

Definition head_char (s : string) : option ascii :=
  match s with
  | EmptyString => None
  | String c _ => Some c
  end.

(** [\b]: exactly one of the two neighbouring characters is a word character
    (the ends of the text count as non-word). *)
Definition boundary (before after : option ascii) : bool :=
  xorb (word_opt before) (word_opt after).

(** One attempt of the expression [\b kw \b] at the head of [s], the character
    before [s] being [prev]. *)
Definition word_match (kw : string) (prev : option ascii) (s : string) : bool :=
  (String.prefix kw s
   && boundary prev (head_char s)
   && boundary (last_char prev kw) (head_char (slice_from (String.length kw) s)))%bool.

(** [len(re.findall(r'\b' + re.escape(kw) + r'\b', s))] for a non-empty [kw]:
    matches are searched left to right and do not overlap. [skip] is the number
    of characters still covered by the last match. *)
Fixpoint count_from (kw : string) (prev : option ascii) (skip : nat) (s : string) : Z :=
  match s with
  | EmptyString => 0
  | String c s' =>
      match skip with
      | S k => count_from kw (Some c) k s'
      | O =>
          if word_match kw prev s
          then 1 + count_from kw (Some c) (String.length kw - 1) s'
          else count_from kw (Some c) 0 s'
      end
  end.

Definition count_words (kw s : string) : Z := count_from kw None 0 s.

End PyStr.

(* ------------------------------------------------------------------------- *)
(** ** Python numbers that a report field may hold *)

Module PyNum.

Inductive number : Type :=
| PyInt (n : Z)
| PyFloat (x : float).

Definition float_of_int (n : Z) : float := PrimFloat.of_uint63 (Uint63.of_Z n).

(** [a / b] on two small non-negative [int]s, [b] non-zero: the quotient
    rounded once to binary64. *)
Definition true_div (a b : Z) : float :=
  (float_of_int a / float_of_int b)%float.

(** Round [n / d] to the nearest integer, ties to the even one ([d > 0]). *)
Definition round_half_even (n d : Z) : Z :=
  let q := n / d in
  let r := n mod d in
  if 2 * r <? d then q
  else if d <? 2 * r then q + 1
  else if Z.even q then q else q + 1.

(** [round(x, 1)] on a float: the exact binary value of [x] is rounded to one
    decimal, ties to the even digit, and the decimal is read back as the
    nearest binary64. Zeros, infinities and NaN are returned unchanged, and so
    is a value without fractional bits. Tenths are exact below 2^49, which
    covers every percentage. *)
Definition round1_float (x : float) : float :=
  match Prim2SF x with
  | S754_finite s m e =>
      if 0 <=? e then x
      else
        let tenths := round_half_even (10 * Z.pos m) (2 ^ (- e)) in
        let r := (float_of_int tenths / 10)%float in
        if s then (- r)%float else r
  | _ => x
  end.

(** [round(v, 1)]: an [int] is returned as it is. *)
Definition round1 (v : number) : number :=
  match v with
  | PyInt n => PyInt n
  | PyFloat x => PyFloat (round1_float x)
  end.

End PyNum.

(* ------------------------------------------------------------------------- *)
(** ** config.py: the rule tables *)

Module Config.

(** [DOCUMENT_TYPE_MAPPINGS], in the order it is written. *)
Definition DOCUMENT_TYPE_MAPPINGS : list (string * list string) :=
  [ ("memorandum_of_association",
      ["memorandum of association"; "memorandum_of_association"; "moa"; "memorandum"]);
    ("articles_of_association",
      ["articles of association"; "articles_of_association"; "aoa"; "articles"]);
    ("board_resolution",
      ["board resolution"; "board_resolution"; "resolution"; "board"; "directors resolution"]);
    ("shareholder_resolution",
      ["shareholder resolution"; "shareholders resolution"; "member resolution"]);
    ("incorporation_form",
      ["incorporation"; "application form"; "registration form"; "incorporation_form"]);
    ("ubo_declaration",
      ["ubo"; "ubo_form"; "ultimate beneficial owner"; "beneficial owner"; "declaration"]);
    ("register_members",
      ["register of members"; "members register"; "register of directors"; "directors register"]);
    ("employment_contract",
      ["employment contract"; "employment agreement"; "contract of employment"]);
    ("data_protection_policy",
      ["data protection"; "privacy policy"; "data policy"]);
    ("annual_accounts",
      ["annual accounts"; "financial statements"; "accounts"]);
    ("company_checklist",
      ["checklist"; "setup checklist"; "incorporation checklist"]) ].

(** One entry of [PROCESS_CHECKLISTS]; a key that is not written is [None]. *)
Record Checklist : Type := mkChecklist {
  required_documents : option (list string);
  optional_documents : option (list string)
}.

Definition PROCESS_CHECKLISTS : list (string * Checklist) :=
  [ ("Company Incorporation",
      mkChecklist
        (Some ["Memorandum of Association"; "Articles of Association";
               "Incorporation Application Form"; "UBO Declaration Form";
               "Register of Members and Directors"])
        (Some ["Board Resolution for Incorporation"; "Shareholder Resolution"]));
    ("Private Company Limited",
      mkChecklist
        (Some ["Memorandum of Association"; "Articles of Association";
               "Application Form"; "Register of Members"; "Register of Directors";
               "UBO Declaration"])
        None);
    ("Employment Setup",
      mkChecklist (Some ["Employment Contract"; "Data Protection Policy"]) None);
    ("Annual Compliance",
      mkChecklist (Some ["Annual Accounts"; "Annual Return"]) None) ].

(** One entry of [RED_FLAGS]. *)
Record FlagConfig : Type := mkFlagConfig {
  patterns : list string;
  correct : string;
  severity : string;
  description : string
}.

Definition RED_FLAGS : list (string * FlagConfig) :=
  [ ("jurisdiction",
      mkFlagConfig
        ["uae federal court"; "dubai court"; "sharjah court"; "federal court"]
        "ADGM Courts" "High"
        "Jurisdiction must be ADGM Courts, not UAE federal or other emirate courts");
    ("governing_law",
      mkFlagConfig
        ["uae law"; "dubai law"; "federal law"]
        "ADGM law" "High"
        "Governing law must reference ADGM law and regulations");
    ("registration_authority",
      mkFlagConfig
        ["department of economic development"; "ded"; "chamber of commerce"]
        "ADGM Registration Authority" "High"
        "Registration authority must be ADGM Registration Authority");
    ("signature_requirements",
      mkFlagConfig
        ["without signature"; "unsigned"; "no signature block"]
        "Proper signature blocks required" "Medium"
        "All documents must have proper signature blocks for authorized signatories") ].

End Config.

(* ------------------------------------------------------------------------- *)
(** ** Association lists standing for dictionaries *)

Module Dict.

(** [d.get(k)] *)
Fixpoint get {V : Type} (d : list (string * V)) (k : string) : option V :=
  match d with
  | [] => None
  | (k', v) :: rest => if String.eqb k k' then Some v else get rest k
  end.

(** [max(d, key=...)] over the items of a non-empty dictionary, the key
    function read off the value: the first item that attains the maximum. *)
Fixpoint max_from {V : Type} (score : V -> Z) (best : string * V)
         (rest : list (string * V)) : string * V :=
  match rest with
  | [] => best
  | x :: rest' =>
      if score (snd best) <? score (snd x)
      then max_from score x rest'
      else max_from score best rest'
  end.

Definition max_by {V : Type} (score : V -> Z) (d : list (string * V))
  : option (string * V) :=
  match d with
  | [] => None
  | x :: rest => Some (max_from score x rest)
  end.

End Dict.

(* ------------------------------------------------------------------------- *)
(** ** The document object of the python-docx library *)

Module Docx.

Inductive WD_COLOR_INDEX : Type := RED | YELLOW | BRIGHT_GREEN.

(** A run of text with the character formatting the program sets. *)
Record Run : Type := mkRun {
  run_text : string;
  bold : option bool;
  italic : option bool;
  font_size : option Z;
  font_color_rgb : option (Z * Z * Z);
  highlight_color : option WD_COLOR_INDEX
}.

Definition plain_run (t : string) : Run := mkRun t None None None None None.

(** A paragraph is the sequence of its runs; a table is its rows of cell
    texts. The children of the document body are paragraphs, tables and the
    section properties ([w:sectPr]) that close the body. *)
Definition Paragraph : Type := list Run.
Definition Table : Type := list (list string).

Inductive Block : Type :=
| BPara (p : Paragraph)
| BTable (t : Table)
| BSectPr.

Definition Document : Type := list Block.

(** [paragraph.text] *)
Definition text (p : Paragraph) : string :=
  String.concat "" (map run_text p).

(** [paragraph.text = t]: the runs are replaced by one run. *)
Definition set_text (t : string) : Paragraph := [plain_run t].

(** [doc.paragraphs] *)
Fixpoint paragraphs (doc : Document) : list Paragraph :=
  match doc with
  | [] => []
  | BPara p :: rest => p :: paragraphs rest
  | _ :: rest => paragraphs rest
  end.

(** [doc.tables] *)
Fixpoint tables (doc : Document) : list Table :=
  match doc with
  | [] => []
  | BTable t :: rest => t :: tables rest
  | _ :: rest => tables rest
  end.

(** Position among the children of the body of paragraph number [i]. *)
Fixpoint body_index (doc : Document) (i : nat) : option nat :=
  match doc with
  | [] => None
  | BPara _ :: rest =>
      match i with
      | O => Some O
      | S i' => option_map S (body_index rest i')
      end
  | _ :: rest => option_map S (body_index rest i)
  end.

(** [list[i]] with Python's negative indices; [None] is [IndexError]. *)
Definition py_index (len : nat) (i : Z) : option nat :=
  if (0 <=? i) && (i <? Z.of_nat len) then Some (Z.to_nat i)
  else if (i <? 0) && (0 <=? Z.of_nat len + i) then Some (Z.to_nat (Z.of_nat len + i))
  else None.

Fixpoint insert_at {A : Type} (n : nat) (x : A) (l : list A) : list A :=
  match n, l with
  | O, _ => x :: l
  | S n', y :: l' => y :: insert_at n' x l'
  | S _, [] => [x]
  end.

Fixpoint remove_at {A : Type} (n : nat) (l : list A) : list A :=
  match n, l with
  | _, [] => []
  | O, _ :: l' => l'
  | S n', y :: l' => y :: remove_at n' l'
  end.

Fixpoint update_at {A : Type} (n : nat) (f : A -> A) (l : list A) : list A :=
  match n, l with
  | _, [] => []
  | O, y :: l' => f y :: l'
  | S n', y :: l' => y :: update_at n' f l'
  end.

(** [body.insert(index, element)] of lxml for an element that is not yet in
    the tree: before the child at [index], at the end when there is none. *)
Definition insert_new (doc : Document) (index : Z) (b : Block) : Document :=
  match py_index (List.length doc) index with
  | Some i => insert_at i b doc
  | None => doc ++ [b]
  end.

(** [body.insert(index, element)] of lxml for the child at position [j]: the
    child found at [index] is looked up first, then the element is unlinked
    and put before it; it goes to the end when there is no child at [index]
    and stays where it is when [index] finds the element itself. *)
Definition insert_child (doc : Document) (index : Z) (j : nat) : Document :=
  match nth_error doc j with
  | None => doc
  | Some b =>
      match py_index (List.length doc) index with
      | None => remove_at j doc ++ [b]
      | Some i =>
          if Nat.eqb i j then doc
          else insert_at (if Nat.ltb j i then Nat.pred i else i) b (remove_at j doc)
      end
  end.

Fixpoint find_sectPr (doc : Document) : option nat :=
  match doc with
  | [] => None
  | BSectPr :: _ => Some O
  | _ :: rest => option_map S (find_sectPr rest)
  end.

(** [doc.add_paragraph()]: a new empty paragraph before the section
    properties, at the end of the body when there are none. The result is
    the new body and the position of the new paragraph in it. *)
Definition add_paragraph (doc : Document) : Document * nat :=
  match find_sectPr doc with
  | Some k => (insert_at k (BPara []) doc, k)
  | None => (doc ++ [BPara []], List.length doc)
  end.

(** Change the paragraph at body position [j]. *)
Definition update_paragraph (j : nat) (f : Paragraph -> Paragraph) (doc : Document)
  : Document :=
  update_at j (fun b => match b with BPara p => BPara (f p) | _ => b end) doc.

(** Change the first run of a paragraph ([paragraph.runs[0]]). *)
Definition update_first_run (f : Run -> Run) (p : Paragraph) : Paragraph :=
  match p with
  | [] => []
  | r :: rest => f r :: rest
  end.

(** What opening a path gives: the document, or the error that was raised. *)
Inductive File : Type :=
| Readable (doc : Document)
| Unreadable (error : string).

End Docx.

(* ------------------------------------------------------------------------- *)
(** ** document_classifier.py: [ADGMDocumentClassifier] *)

Module Classifier.

Import PyStr.

(** The report of [generate_checklist_report]; a key that the returned
    dictionary does not have is [None]. *)
Record ChecklistReport : Type := mkReport {
  process : string;
  status : string;
  uploaded_documents : Z;
  required_documents : option Z;
  found_documents : option (list string);
  missing_documents : list string;
  completeness_percentage : PyNum.number
}.

(** [extract_text_from_docx]: paragraph texts, then the cell texts of every
    table, joined by spaces and lower-cased; the empty text when the file
    cannot be opened. *)
Definition extract_text_from_docx (file : Docx.File) : string :=
  match file with
  | Docx.Unreadable _ => ""
  | Docx.Readable doc =>
      let text_content :=
        map Docx.text (Docx.paragraphs doc)
        ++ concat (map (fun table => concat table) (Docx.tables doc)) in
      lower (join " " text_content)
  end.

(** The inner loop of the filename phase: the longest keyword (spaces not
    counted) that occurs in the file name, with its length. *)
Fixpoint best_keyword (filename_lower : string) (keywords : list string)
         (score : Z) (best_match : string) : Z * string :=
  match keywords with
  | [] => (score, best_match)
  | keyword :: rest =>
      if contains keyword filename_lower then
        let keyword_score := len (replace " " "" keyword) in
        if score <? keyword_score
        then best_keyword filename_lower rest keyword_score keyword
        else best_keyword filename_lower rest score best_match
      else best_keyword filename_lower rest score best_match
  end.

(** The inner loop of the content phase: whole-word occurrences of all the
    keywords of one type. *)
Fixpoint occurrences (text_content : string) (keywords : list string) (score : Z) : Z :=
  match keywords with
  | [] => score
  | keyword :: rest =>
      occurrences text_content rest (score + count_words keyword text_content)
  end.

(** The cascade of fixed phrases that ends [classify_document_type]. *)
Definition specific_patterns (text_content : string) : string :=
  if (contains "articles of association" text_content
      || contains "company constitution" text_content)%bool
  then "articles_of_association"
  else if (contains "memorandum of association" text_content
           || contains "company objects" text_content)%bool
  then "memorandum_of_association"
  else if (contains "board of directors" text_content
           && contains "resolution" text_content)%bool
  then "board_resolution"
  else if (contains "shareholders" text_content
           && contains "resolution" text_content)%bool
  then "shareholder_resolution"
  else if (contains "ultimate beneficial owner" text_content
           || contains "ubo" text_content)%bool
  then "ubo_declaration"
  else if (contains "employment" text_content
           && (contains "contract" text_content
               || contains "agreement" text_content))%bool
  then "employment_contract"
  else "unknown".

(** [_convert_doc_type_to_readable] *)
Definition conversion_map : list (string * string) :=
  [ ("articles_of_association", "Articles of Association");
    ("memorandum_of_association", "Memorandum of Association");
    ("board_resolution", "Board Resolution");
    ("shareholder_resolution", "Shareholder Resolution");
    ("incorporation_form", "Incorporation Application Form");
    ("ubo_declaration", "UBO Declaration Form");
    ("register_members", "Register of Members and Directors");
    ("employment_contract", "Employment Contract");
    ("data_protection_policy", "Data Protection Policy");
    ("annual_accounts", "Annual Accounts") ].

Definition _convert_doc_type_to_readable (doc_type : string) : string :=
  match Dict.get conversion_map doc_type with
  | Some readable => readable
  | None => title (replace "_" " " doc_type)
  end.

(** [_documents_match] *)
Definition _documents_match (doc1 doc2 : string) : bool :=
  let doc1_lower := lower doc1 in
  let doc2_lower := lower doc2 in
  if String.eqb doc1_lower doc2_lower then true
  else if (contains "articles" doc1_lower && contains "articles" doc2_lower)%bool then true
  else if (contains "memorandum" doc1_lower && contains "memorandum" doc2_lower)%bool then true
  else if (contains "resolution" doc1_lower && contains "resolution" doc2_lower)%bool then true
  else if (contains "ubo" doc1_lower
           && (contains "ubo" doc2_lower || contains "beneficial owner" doc2_lower))%bool
  then true
  else if (contains "register" doc1_lower && contains "register" doc2_lower)%bool then true
  else if (contains "incorporation" doc1_lower
           && (contains "incorporation" doc2_lower || contains "application" doc2_lower))%bool
  then true
  else false.

(** [checklist.get("required_documents", [])] *)
Definition required_of (checklist : Config.Checklist) : list string :=
  match Config.required_documents checklist with
  | Some docs => docs
  | None => []
  end.

(** The loop of [generate_checklist_report] over the required documents: a
    required document goes to [found_docs] at the first uploaded document
    that matches it, and to [missing_docs] when none does. *)
Fixpoint sort_required (uploaded_readable required_docs missing_docs found_docs : list string)
  : list string * list string :=
  match required_docs with
  | [] => (missing_docs, found_docs)
  | required_doc :: rest =>
      if existsb (fun uploaded_doc => _documents_match uploaded_doc required_doc)
                 uploaded_readable
      then sort_required uploaded_readable rest missing_docs (found_docs ++ [required_doc])
      else sort_required uploaded_readable rest (missing_docs ++ [required_doc]) found_docs
  end.

Section Instance.

(** The two attributes that [__init__] sets. *)
Variable document_mappings : list (string * list string).
Variable process_checklists : list (string * Config.Checklist).

(** [classify_document_type] *)
Definition classify_document_type (file : Docx.File) (filename : string) : string :=
  let filename_lower := lower filename in
  let scores :=
    map (fun '(doc_type, keywords) =>
           (doc_type, best_keyword filename_lower keywords 0 ""))
        document_mappings in
  let by_filename :=
    match Dict.max_by fst scores with
    | Some (best_doc_type, (score, _)) =>
        if 0 <? score then Some best_doc_type else None
    | None => None
    end in
  match by_filename with
  | Some best_doc_type => best_doc_type
  | None =>
      let text_content := extract_text_from_docx file in
      if String.eqb text_content "" then "unknown"
      else
        let scores :=
          map (fun '(doc_type, keywords) =>
                 (doc_type, occurrences text_content keywords 0))
              document_mappings in
        match Dict.max_by (fun score => score) scores with
        | Some (best_match, score) =>
            if 0 <? score then best_match else specific_patterns text_content
        | None => specific_patterns text_content
        end
  end.

(** The score of one process in [detect_process_type]: the uploaded
    documents that match some required document. *)
Fixpoint process_score (required_docs document_types : list string) (score : Z) : Z :=
  match document_types with
  | [] => score
  | doc_type :: rest =>
      let readable_doc := _convert_doc_type_to_readable doc_type in
      if existsb (fun required_doc => _documents_match readable_doc required_doc)
                 required_docs
      then process_score required_docs rest (score + 1)
      else process_score required_docs rest score
  end.

(** [detect_process_type] *)
Definition detect_process_type (document_types : list string) : string :=
  let process_scores :=
    map (fun '(process_name, checklist) =>
           (process_name, process_score (required_of checklist) document_types 0))
        process_checklists in
  match Dict.max_by (fun score => score) process_scores with
  | Some (best_process, score) =>
      if 0 <? score then best_process else "Unknown Process"
  | None => "Unknown Process"
  end.

(** [generate_checklist_report] *)
Definition generate_checklist_report (document_types : list string)
           (process_type : string) : ChecklistReport :=
  match Dict.get process_checklists process_type with
  | None =>
      mkReport process_type "Unknown process type"
               (Z.of_nat (List.length document_types))
               None None [] (PyNum.PyInt 0)
  | Some checklist =>
      let required_docs := required_of checklist in
      let uploaded_readable := map _convert_doc_type_to_readable document_types in
      let '(missing_docs, found_docs) :=
        sort_required uploaded_readable required_docs [] [] in
      let completeness :=
        match required_docs with
        | [] => PyNum.PyInt 100
        | _ :: _ =>
            PyNum.PyFloat
              (PyNum.true_div (Z.of_nat (List.length found_docs))
                              (Z.of_nat (List.length required_docs)) * 100)%float
        end in
      mkReport process_type
               (match missing_docs with [] => "Complete" | _ :: _ => "Incomplete" end)
               (Z.of_nat (List.length document_types))
               (Some (Z.of_nat (List.length required_docs)))
               (Some found_docs)
               missing_docs
               (PyNum.round1 completeness)
  end.

End Instance.

(** The classifier as [__init__] builds it. *)
Definition classify (file : Docx.File) (filename : string) : string :=
  classify_document_type Config.DOCUMENT_TYPE_MAPPINGS file filename.

Definition detect_process (document_types : list string) : string :=
  detect_process_type Config.PROCESS_CHECKLISTS document_types.

Definition checklist_report (document_types : list string) (process_type : string)
  : ChecklistReport :=
  generate_checklist_report Config.PROCESS_CHECKLISTS document_types process_type.

End Classifier.

(* ------------------------------------------------------------------------- *)
(** ** red_flag_detector.py: [ADGMRedFlagDetector] *)

Module Detector.

Import PyStr.

(** One entry of [issues_found]. The structural checks write no
    [pattern_found] key, and the guidance may be absent. *)
Record Issue : Type := mkIssue {
  flag_type : string;
  paragraph_index : Z;
  paragraph_text : string;
  issue : string;
  pattern_found : option string;
  severity : string;
  suggestion : string;
  rag_guidance : option string;
  adgm_reference : string
}.

(** One entry of [paragraphs_data]. *)
Record ParagraphData : Type := mkParagraphData {
  index : Z;
  text : string;
  text_lower : string
}.

(** The dictionary that [analyze_document] returns; the keys that the error
    result does not have are [None]. *)
Record Analysis : Type := mkAnalysis {
  document_type : string;
  error : option string;
  issues_found : list Issue;
  compliance_score : Z;
  total_flags : option Z;
  critical_issues : option Z;
  warnings : option Z;
  compliance_status : option string
}.

(** The loop that fills [paragraphs_data]: paragraphs with some text, each
    with its position in [doc.paragraphs]. *)
Fixpoint collect_paragraphs (i : Z) (paragraphs : list Docx.Paragraph)
  : list ParagraphData :=
  match paragraphs with
  | [] => []
  | paragraph :: rest =>
      if strip_nonempty (Docx.text paragraph)
      then mkParagraphData i (Docx.text paragraph) (lower (Docx.text paragraph))
           :: collect_paragraphs (i + 1) rest
      else collect_paragraphs (i + 1) rest
  end.

(** [_get_relevant_adgm_reference] *)
Definition reference_map : list (string * string) :=
  [ ("jurisdiction", "ADGM Courts and Civil Procedures Rules");
    ("governing_law", "ADGM Companies Regulations");
    ("registration_authority", "ADGM Registration Authority Regulations");
    ("signature_requirements", "ADGM Companies Regulations - Execution of Documents") ].

Definition _get_relevant_adgm_reference (flag_type : string) : string :=
  match Dict.get reference_map flag_type with
  | Some reference => reference
  | None => "ADGM General Regulations"
  end.

(** The excerpt stored as [paragraph_text] by the pattern scan. *)
Definition excerpt (text : string) : string :=
  if 200 <? len text then slice_to 200 text ++ "..." else text.

(** [_get_compliance_status] *)
Definition _get_compliance_status (score : Z) : string :=
  if 90 <=? score then "Compliant"
  else if 70 <=? score then "Minor Issues"
  else if 50 <=? score then "Major Issues"
  else "Non-Compliant".

(** [len([i for i in issues if i["severity"] == s])] *)
Definition count_severity (s : string) (issues : list Issue) : Z :=
  Z.of_nat (List.length (filter (fun i => String.eqb (severity i) s) issues)).

(** The score that [_calculate_compliance_metrics] computes. *)
Definition score_of (issues : list Issue) : Z :=
  let critical_count := count_severity "High" issues in
  let warning_count := count_severity "Medium" issues in
  let score := 100 in
  let score := score - critical_count * 20 in
  let score := score - warning_count * 10 in
  Z.max 0 score.

(** [_calculate_compliance_metrics] *)
Definition _calculate_compliance_metrics (analysis : Analysis) : Analysis :=
  let issues := issues_found analysis in
  let score := score_of issues in
  mkAnalysis (document_type analysis) (error analysis) issues
             score
             (Some (Z.of_nat (List.length issues)))
             (Some (count_severity "High" issues))
             (Some (count_severity "Medium" issues))
             (Some (_get_compliance_status score)).

Definition signature_patterns : list string :=
  ["signature"; "signed by"; "director signature"; "authorized signatory"].

Definition articles_required_sections : list (string * string) :=
  [ ("share capital", "Share capital structure must be defined");
    ("directors", "Directors' powers and responsibilities must be specified");
    ("meetings", "Meeting procedures must be outlined");
    ("dividends", "Dividend distribution rules must be included") ].

Definition memorandum_required_elements : list (string * string) :=
  [ ("company name", "Company name must be clearly stated");
    ("registered office", "Registered office address must be specified");
    ("objects", "Company objects and powers must be defined");
    ("liability", "Member liability must be specified") ].

Definition employment_required_clauses : list (string * string) :=
  [ ("job description", "Job description and duties must be specified");
    ("salary", "Salary and compensation must be defined");
    ("working hours", "Working hours and schedule must be outlined");
    ("notice period", "Notice periods for termination must be specified");
    ("data protection", "Data protection and confidentiality clauses required") ].

(** [" ".join([p["text_lower"] for p in paragraphs_data])] *)
Definition all_text_of (paragraphs_data : list ParagraphData) : string :=
  join " " (map text_lower paragraphs_data).

Section Collaborator.

(** The enrichment collaborator [self.rag_system]: some state, and a
    [get_compliance_guidance(document_type, issue_type)] that answers with a
    text or with nothing. *)
Variable RagState : Type.
Variable get_compliance_guidance :
  string -> string -> RagState -> option string * RagState.

(** Computations that may call the collaborator. *)
Definition M (A : Type) : Type := RagState -> A * RagState.

Definition ret {A : Type} (a : A) : M A := fun s => (a, s).

Definition bind {A B : Type} (c : M A) (k : A -> M B) : M B :=
  fun s => let (a, s') := c s in k a s'.

Notation "x <- c ;; k" := (bind c (fun x => k))
  (at level 61, c at next level, right associativity).

(** The inner loop of [_detect_flag_in_paragraphs]: the patterns of one flag
    against one paragraph. *)
Fixpoint detect_patterns (paragraph_data : ParagraphData) (flag_type : string)
         (flag_config : Config.FlagConfig) (patterns : list string)
  : M (list Issue) :=
  match patterns with
  | [] => ret []
  | pattern :: rest =>
      if contains pattern (text_lower paragraph_data) then
        guidance <- get_compliance_guidance "general" flag_type ;;
        issues <- detect_patterns paragraph_data flag_type flag_config rest ;;
        ret (mkIssue flag_type
                     (index paragraph_data)
                     (excerpt (text paragraph_data))
                     (Config.description flag_config)
                     (Some pattern)
                     (Config.severity flag_config)
                     ("Replace with: " ++ Config.correct flag_config)
                     guidance
                     (_get_relevant_adgm_reference flag_type)
             :: issues)
      else detect_patterns paragraph_data flag_type flag_config rest
  end.

(** [_detect_flag_in_paragraphs] *)
Fixpoint _detect_flag_in_paragraphs (paragraphs_data : list ParagraphData)
         (flag_type : string) (flag_config : Config.FlagConfig)
  : M (list Issue) :=
  match paragraphs_data with
  | [] => ret []
  | paragraph_data :: rest =>
      here <- detect_patterns paragraph_data flag_type flag_config
                              (Config.patterns flag_config) ;;
      later <- _detect_flag_in_paragraphs rest flag_type flag_config ;;
      ret (here ++ later)
  end.

(** The loop shared by the three type-specific checks: one issue for every
    required item that the text does not contain. *)
Fixpoint missing_items (all_text : string) (required : list (string * string))
         (flag : string) (where_ : string) (what : string) (sev : string)
         (document_type : string) (reference : string) : M (list Issue) :=
  match required with
  | [] => ret []
  | (item, description) :: rest =>
      if negb (contains item all_text) then
        guidance <- get_compliance_guidance document_type item ;;
        issues <- missing_items all_text rest flag where_ what sev
                                document_type reference ;;
        ret (mkIssue flag 0 where_ (what ++ item)%string None sev description guidance
                     reference
             :: issues)
      else missing_items all_text rest flag where_ what sev document_type reference
  end.

(** [_check_articles_specific_requirements] *)
Definition _check_articles_specific_requirements
           (paragraphs_data : list ParagraphData) : M (list Issue) :=
  missing_items (all_text_of paragraphs_data) articles_required_sections
                "missing_section" "Document structure"
                "Missing required section: " "High"
                "articles_of_association"
                "ADGM Companies Regulations - Articles of Association Requirements".

(** [_check_memorandum_specific_requirements] *)
Definition _check_memorandum_specific_requirements
           (paragraphs_data : list ParagraphData) : M (list Issue) :=
  missing_items (all_text_of paragraphs_data) memorandum_required_elements
                "missing_element" "Document content"
                "Missing required element: " "High"
                "memorandum_of_association"
                "ADGM Companies Regulations - Memorandum of Association Requirements".

(** [_check_employment_contract_requirements] *)
Definition _check_employment_contract_requirements
           (paragraphs_data : list ParagraphData) : M (list Issue) :=
  missing_items (all_text_of paragraphs_data) employment_required_clauses
                "missing_clause" "Contract terms"
                "Missing required clause: " "Medium"
                "employment_contract"
                "ADGM Employment Regulations 2019".

(** The signature-block check that opens [_perform_additional_checks]. *)
Definition signature_check (paragraphs_data : list ParagraphData)
           (document_type : string) : M (list Issue) :=
  let all_text := all_text_of paragraphs_data in
  let has_signature :=
    existsb (fun pattern => contains pattern all_text) signature_patterns in
  if negb has_signature then
    guidance <- get_compliance_guidance document_type "signatures" ;;
    ret [ mkIssue "missing_signature"
                  (Z.of_nat (List.length paragraphs_data) - 1)
                  "End of document"
                  "Document appears to be missing signature blocks"
                  None
                  "Medium"
                  "Add proper signature blocks for authorized signatories"
                  guidance
                  "ADGM Companies Regulations - Execution of Documents" ]
  else ret [].

(** The dispatch on the document type that closes
    [_perform_additional_checks]. *)
Definition specific_checks (paragraphs_data : list ParagraphData)
           (document_type : string) : M (list Issue) :=
  if String.eqb document_type "articles_of_association"
  then _check_articles_specific_requirements paragraphs_data
  else if String.eqb document_type "memorandum_of_association"
  then _check_memorandum_specific_requirements paragraphs_data
  else if String.eqb document_type "employment_contract"
  then _check_employment_contract_requirements paragraphs_data
  else ret [].

(** [_perform_additional_checks] *)
Definition _perform_additional_checks (paragraphs_data : list ParagraphData)
           (document_type : string) : M (list Issue) :=
  signature <- signature_check paragraphs_data document_type ;;
  specific <- specific_checks paragraphs_data document_type ;;
  ret (signature ++ specific).

(** The attribute [self.red_flags]. *)
Variable red_flags : list (string * Config.FlagConfig).

(** The loop of [analyze_document] over the flag table. *)
Fixpoint detect_flags (paragraphs_data : list ParagraphData)
         (flags : list (string * Config.FlagConfig)) : M (list Issue) :=
  match flags with
  | [] => ret []
  | (flag_type, flag_config) :: rest =>
      issues <- _detect_flag_in_paragraphs paragraphs_data flag_type flag_config ;;
      more <- detect_flags paragraphs_data rest ;;
      ret (issues ++ more)
  end.

(** [analyze_document] *)
Definition analyze_document (file : Docx.File) (document_type : string)
  : M Analysis :=
  match file with
  | Docx.Unreadable e =>
      ret (mkAnalysis document_type (Some e) [] 0 None None None None)
  | Docx.Readable doc =>
      let paragraphs_data := collect_paragraphs 0 (Docx.paragraphs doc) in
      flagged <- detect_flags paragraphs_data red_flags ;;
      additional_issues <- _perform_additional_checks paragraphs_data document_type ;;
      ret (_calculate_compliance_metrics
             (mkAnalysis document_type None (flagged ++ additional_issues)
                         100 (Some 0) (Some 0) (Some 0) None))
  end.

End Collaborator.

(** A collaborator that never has guidance. *)
Definition no_guidance : string -> string -> unit -> option string * unit :=
  fun _ _ s => (None, s).

(** A collaborator that numbers its answers. *)
Definition counting_guidance : string -> string -> Z -> option string * Z :=
  fun document_type issue_type n =>
    (Some (document_type ++ "/" ++ issue_type ++ "#" ++ of_int n)%string, n + 1).

End Detector.

(* ------------------------------------------------------------------------- *)
(** ** document_processor.py: the reviewed copy of [ADGMDocumentProcessor] *)

Module Processor.

Import PyStr.
Import Docx.

(** The line feed of the multi-line texts. *)
Definition nl : string := String (ascii_of_nat 10) EmptyString.

(** The glyph U+1F6A8 that opens a comment, in UTF-8. *)
Definition siren : string :=
  String (ascii_of_nat 240) (String (ascii_of_nat 159)
    (String (ascii_of_nat 154) (String (ascii_of_nat 168) EmptyString))).

(** [analysis.get(key, 0)] and [analysis.get(key, 'Unknown')] *)
Definition get_int (v : option Z) : Z :=
  match v with Some n => n | None => 0 end.

Definition get_str (v : option string) (default : string) : string :=
  match v with Some s => s | None => default end.

(** [_highlight_paragraph] *)
Definition color_map : list (string * WD_COLOR_INDEX) :=
  [ ("High", RED); ("Medium", YELLOW); ("Low", BRIGHT_GREEN) ].

Definition _highlight_paragraph (severity : string) (paragraph : Paragraph)
  : Paragraph :=
  let highlight_color :=
    match Dict.get color_map severity with
    | Some c => c
    | None => YELLOW
    end in
  map (fun run =>
         mkRun (run_text run) (bold run) (italic run) (font_size run)
               (font_color_rgb run) (Some highlight_color))
      paragraph.

(** [_format_comment] *)
Definition _format_comment (issue : Detector.Issue) : string :=
  let comment :=
    (nl ++ siren ++ " COMPLIANCE ISSUE - " ++ Detector.severity issue ++ " Severity" ++ nl
     ++ nl
     ++ "Issue: " ++ Detector.issue issue ++ nl
     ++ "Found Pattern: " ++ get_str (Detector.pattern_found issue) "N/A" ++ nl
     ++ "Suggestion: " ++ Detector.suggestion issue ++ nl
     ++ "ADGM Reference: " ++ Detector.adgm_reference issue ++ nl
     ++ nl)%string in
  let comment :=
    match Detector.rag_guidance issue with
    | Some guidance =>
        if String.eqb guidance "" then comment
        else (comment ++ "Detailed Guidance:" ++ nl ++ guidance ++ nl)%string
    | None => comment
    end in
  (comment ++ repeat "-" 50 ++ nl)%string.

(** The colour of a comment, by severity. *)
Definition comment_color (severity : string) : Z * Z * Z :=
  if String.eqb severity "High" then (220, 20, 60)
  else if String.eqb severity "Medium" then (255, 140, 0)
  else (70, 130, 180).

(** [_add_comment_paragraph]: the comment is appended as a new paragraph,
    written and styled, and then moved to body position [insert_index] when
    that index is below the number of paragraphs less one. *)
Definition _add_comment_paragraph (doc : Document) (insert_index : Z)
           (comment_text : string) (severity : string) : Document :=
  let '(doc, j) := add_paragraph doc in
  let doc := update_paragraph j (fun _ => set_text comment_text) doc in
  let doc :=
    update_paragraph j
      (update_first_run (fun comment_run =>
         mkRun (run_text comment_run) (bold comment_run) (Some true)
               (Some 180000) (Some (comment_color severity))
               (highlight_color comment_run)))
      doc in
  if insert_index <? Z.of_nat (List.length (paragraphs doc)) - 1
  then insert_child doc insert_index j
  else doc.

(** The loop of [_create_reviewed_document] over the issues; [None] is an
    exception, which ends the construction. *)
Fixpoint annotate_issues (doc : Document) (issues : list Detector.Issue)
  : option Document :=
  match issues with
  | [] => Some doc
  | issue :: rest =>
      let paragraph_index := Detector.paragraph_index issue in
      if paragraph_index <? Z.of_nat (List.length (paragraphs doc)) then
        match py_index (List.length (paragraphs doc)) paragraph_index with
        | None => None
        | Some i =>
            match body_index doc i with
            | None => None
            | Some b =>
                let doc :=
                  update_paragraph b (_highlight_paragraph (Detector.severity issue)) doc in
                let comment_text := _format_comment issue in
                annotate_issues
                  (_add_comment_paragraph doc (paragraph_index + 1) comment_text
                                          (Detector.severity issue))
                  rest
            end
        end
      else annotate_issues doc rest
  end.

Section Environment.

(** [_get_current_date] at its first and at its second call, and the order
    in which Python iterates over a [set] of flag types. *)
Variable _get_current_date : nat -> string.
Variable set_order : list string -> list string.

(** [_add_review_header]; [None] when the document has no paragraph. *)
Definition _add_review_header (doc : Document) (analysis : Detector.Analysis)
  : option Document :=
  match paragraphs doc with
  | [] => None
  | _ :: _ =>
      let doc := insert_new doc 0 (BPara []) in
      let header :=
        [ mkRun "=== ADGM COMPLIANCE REVIEW ===" (Some true) None (Some 240000)
                (Some (255, 0, 0)) None ] in
      let doc := update_paragraph 0 (fun _ => header) doc in
      let '(doc, j) := add_paragraph doc in
      let summary_text :=
        (nl
         ++ "Document Type: " ++ Detector.document_type analysis ++ nl
         ++ "Compliance Score: " ++ of_int (Detector.compliance_score analysis)
         ++ "/100" ++ nl
         ++ "Total Issues Found: " ++ of_int (get_int (Detector.total_flags analysis)) ++ nl
         ++ "Critical Issues: " ++ of_int (get_int (Detector.critical_issues analysis)) ++ nl
         ++ "Warnings: " ++ of_int (get_int (Detector.warnings analysis)) ++ nl
         ++ "Status: " ++ get_str (Detector.compliance_status analysis) "Unknown" ++ nl
         ++ nl
         ++ "Review Date: " ++ _get_current_date 0%nat ++ nl
         ++ "Generated by: ADGM Compliance Assistant" ++ nl
         ++ nl)%string in
      let doc :=
        update_paragraph j
          (fun _ => [ mkRun summary_text None None (Some 200000) None None ]) doc in
      let '(doc, j) := add_paragraph doc in
      let doc := update_paragraph j (fun _ => set_text (repeat "=" 80)) doc in
      let '(doc, _) := add_paragraph doc in
      Some doc
  end.

(** The lines of the summary that count the issues of every flag type. *)
Definition category_lines (issues : list Detector.Issue) : string :=
  String.concat ""
    (map (fun flag_type =>
            let count :=
              Z.of_nat (List.length
                (filter (fun i => String.eqb (Detector.flag_type i) flag_type) issues)) in
            ("- " ++ title (replace "_" " " flag_type) ++ ": " ++ of_int count
             ++ " issue(s)" ++ nl)%string)
         (set_order (map Detector.flag_type issues))).

(** [_add_compliance_summary] *)
Definition _add_compliance_summary (doc : Document) (analysis : Detector.Analysis)
  : Document :=
  let '(doc, _) := add_paragraph doc in
  let '(doc, j) := add_paragraph doc in
  let doc := update_paragraph j (fun _ => set_text (repeat "=" 80)) doc in
  let '(doc, j) := add_paragraph doc in
  let doc :=
    update_paragraph j
      (fun _ => [ mkRun "COMPLIANCE REVIEW SUMMARY" (Some true) None (Some 220000)
                        (Some (0, 0, 139)) None ]) doc in
  let issues := Detector.issues_found analysis in
  let summary_text :=
    (nl
     ++ "Overall Compliance Score: " ++ of_int (Detector.compliance_score analysis)
     ++ "/100" ++ nl
     ++ "Compliance Status: " ++ get_str (Detector.compliance_status analysis) "Unknown" ++ nl
     ++ nl
     ++ "Issues Breakdown:" ++ nl
     ++ "- Critical Issues (High): " ++ of_int (get_int (Detector.critical_issues analysis)) ++ nl
     ++ "- Warnings (Medium): " ++ of_int (get_int (Detector.warnings analysis)) ++ nl
     ++ "- Total Issues: " ++ of_int (get_int (Detector.total_flags analysis)) ++ nl
     ++ nl)%string in
  let summary_text :=
    match issues with
    | [] => summary_text
    | _ :: _ =>
        (summary_text ++ "Issue Categories Found:" ++ nl ++ category_lines issues)%string
    end in
  let summary_text :=
    (summary_text ++ nl
     ++ "Next Steps:" ++ nl
     ++ "1. Address all critical (High severity) issues immediately" ++ nl
     ++ "2. Review and resolve warning (Medium severity) issues" ++ nl
     ++ "3. Ensure all required documents are uploaded for the process" ++ nl
     ++ "4. Re-submit for review after making corrections" ++ nl
     ++ nl
     ++ "Review completed on: " ++ _get_current_date 1%nat ++ nl)%string in
  let '(doc, j) := add_paragraph doc in
  update_paragraph j
    (fun _ => [ mkRun summary_text None None (Some 200000) None None ]) doc.

(** [_create_reviewed_document]: the name of the reviewed file and the
    document saved under it, or [None] where the source logs the error and
    returns the empty path. *)
Definition _create_reviewed_document (file : File) (filename : string)
           (analysis : Detector.Analysis) : option (string * Document) :=
  match file with
  | Unreadable _ => None
  | Readable doc =>
      match _add_review_header doc analysis with
      | None => None
      | Some doc =>
          match annotate_issues doc (Detector.issues_found analysis) with
          | None => None
          | Some doc =>
              let doc := _add_compliance_summary doc analysis in
              Some (("reviewed_" ++ filename)%string, doc)
          end
      end
  end.

End Environment.

End Processor.

(* ------------------------------------------------------------------------- *)
(** ** Notions used to state the properties *)

Module Props.

Import PyStr.
Import Detector.

(** An issue with its guidance removed. *)
Definition without_guidance (i : Issue) : Issue :=
  mkIssue (flag_type i) (paragraph_index i) (paragraph_text i) (issue i)
          (pattern_found i) (severity i) (suggestion i) None (adgm_reference i).

(** The issues of the pattern scan are those that record a pattern. *)
Definition is_pattern_issue (i : Issue) : bool :=
  match pattern_found i with
  | Some _ => true
  | None => false
  end.

(** The number of issues of one severity, counted one by one. *)
Fixpoint number_of (s : string) (issues : list Issue) : Z :=
  match issues with
  | [] => 0
  | i :: rest => (if String.eqb (severity i) s then 1 else 0) + number_of s rest
  end.

(** The issue that the pattern scan writes for [pattern] in [paragraph_data],
    guidance apart. *)
Definition pattern_issue (paragraph_data : ParagraphData) (flag_type : string)
           (flag_config : Config.FlagConfig) (pattern : string) : Issue :=
  mkIssue flag_type (index paragraph_data) (excerpt (text paragraph_data))
          (Config.description flag_config) (Some pattern)
          (Config.severity flag_config)
          ("Replace with: " ++ Config.correct flag_config)%string
          None
          (_get_relevant_adgm_reference flag_type).

(** The pattern scan of one flag without the collaborator: paragraphs in
    order, and within a paragraph the patterns that occur in it, in order. *)
Definition flag_view (paragraphs_data : list ParagraphData) (flag_type : string)
           (flag_config : Config.FlagConfig) : list Issue :=
  flat_map
    (fun paragraph_data =>
       map (pattern_issue paragraph_data flag_type flag_config)
           (filter (fun pattern => contains pattern (text_lower paragraph_data))
                   (Config.patterns flag_config)))
    paragraphs_data.

(** The whole pattern scan without the collaborator: flag after flag. *)
Definition scan_view (paragraphs_data : list ParagraphData)
           (flags : list (string * Config.FlagConfig)) : list Issue :=
  flat_map (fun '(flag_type, flag_config) =>
              flag_view paragraphs_data flag_type flag_config)
           flags.

(** Some signature keyword occurs in the joined text. *)
Definition has_signature (paragraphs_data : list ParagraphData) : bool :=
  existsb (fun pattern => contains pattern (all_text_of paragraphs_data))
          signature_patterns.

(** The signature issue, guidance apart. *)
Definition signature_issue (paragraphs_data : list ParagraphData) : Issue :=
  mkIssue "missing_signature" (Z.of_nat (List.length paragraphs_data) - 1)
          "End of document" "Document appears to be missing signature blocks"
          None "Medium" "Add proper signature blocks for authorized signatories"
          None "ADGM Companies Regulations - Execution of Documents".

Definition signature_view (paragraphs_data : list ParagraphData) : list Issue :=
  if has_signature paragraphs_data then [] else [signature_issue paragraphs_data].

(** The items that a type-specific check requires, as the source declares
    them, with the constants it writes into its issues. *)
Record Requirements : Type := mkRequirements {
  req_items : list (string * string);
  req_flag : string;
  req_where : string;
  req_what : string;
  req_severity : string;
  req_reference : string
}.

Definition requirements_of (document_type : string) : Requirements :=
  if String.eqb document_type "articles_of_association"
  then mkRequirements articles_required_sections "missing_section"
         "Document structure" "Missing required section: " "High"
         "ADGM Companies Regulations - Articles of Association Requirements"
  else if String.eqb document_type "memorandum_of_association"
  then mkRequirements memorandum_required_elements "missing_element"
         "Document content" "Missing required element: " "High"
         "ADGM Companies Regulations - Memorandum of Association Requirements"
  else if String.eqb document_type "employment_contract"
  then mkRequirements employment_required_clauses "missing_clause"
         "Contract terms" "Missing required clause: " "Medium"
         "ADGM Employment Regulations 2019"
  else mkRequirements [] "" "" "" "" "".

(** The type-specific issues, guidance apart: the declared items that the
    text lacks, in the declared order. *)
Definition specific_view (paragraphs_data : list ParagraphData)
           (document_type : string) : list Issue :=
  let r := requirements_of document_type in
  map (fun '(item, description) =>
         mkIssue (req_flag r) 0 (req_where r) (req_what r ++ item)%string None
                 (req_severity r) description None (req_reference r))
      (filter (fun '(item, _) => negb (contains item (all_text_of paragraphs_data)))
              (req_items r)).

(** The lower-cased file name contains some keyword of the table. *)
Definition filename_has_keyword (mappings : list (string * list string))
           (filename : string) : bool :=
  existsb (fun '(_, keywords) =>
             existsb (fun keyword => contains keyword (lower filename)) keywords)
          mappings.

(** A required label is satisfied by some uploaded document type. *)
Definition satisfied (document_types : list string) (required_doc : string) : bool :=
  existsb (fun uploaded_doc => Classifier._documents_match uploaded_doc required_doc)
          (map Classifier._convert_doc_type_to_readable document_types).

(** A document whose body is the given paragraphs, each one run, closed by the
    section properties. *)
Definition document_of (texts : list string) : Docx.Document :=
  map (fun t => Docx.BPara [Docx.plain_run t]) texts ++ [Docx.BSectPr].

(** The texts of the paragraphs of a document, in order. *)
Definition texts_of (doc : Docx.Document) : list string :=
  map Docx.text (Docx.paragraphs doc).

(** The highlight of every paragraph of a document (that of its first run). *)
Definition highlights_of (doc : Docx.Document) : list (option Docx.WD_COLOR_INDEX) :=
  map (fun p => match p with
                | r :: _ => Docx.highlight_color r
                | [] => None
                end)
      (Docx.paragraphs doc).

(** The paragraph that [_add_comment_paragraph] writes. *)
Definition comment_paragraph (comment_text severity : string) : Docx.Paragraph :=
  [Docx.mkRun comment_text None (Some true) (Some 180000)
              (Some (Processor.comment_color severity)) None].

End Props.

(* ------------------------------------------------------------------------- *)
(** ** More Python text operations *)

Module PyText.

(** [s.lstrip()] *)
Fixpoint lstrip (s : string) : string :=
match s with
| EmptyString => EmptyString
| String c s' => if PyStr.is_space c then lstrip s' else s
end.

(** [s.rstrip()] *)
Fixpoint rstrip (s : string) : string :=
match s with
| EmptyString => EmptyString
| String c s' =>
    match rstrip s' with
    | EmptyString => if PyStr.is_space c then EmptyString else String c EmptyString
    | r => String c r
    end
end.

(** [s.strip()] *)
Definition strip (s : string) : string := rstrip (lstrip s).

(** [os.path.join(a, b)] on a POSIX system. *)
Definition path_join (a b : string) : string :=
if String.prefix "/" b then b
else if String.eqb a "" then b
else if String.eqb (PyStr.slice_from (String.length a - 1) a) "/" then (a ++ b)%string
else (a ++ "/" ++ b)%string.

End PyText.

(* ------------------------------------------------------------------------- *)
(** ** rag_system.py: the two clause validators of [ADGMRAGSystem] *)

Module Rag.

Import PyStr.

(** The dictionary that a validator returns. *)
Record Validation : Type := mkValidation {
  issues : list string;
  suggestions : list string;
  compliant : bool
}.

(** The loop of both validators over the incorrect phrases: every phrase that
    occurs in the text adds one issue and one suggestion. *)
Fixpoint check_incorrect (text_lower what suggestion : string)
         (incorrect_phrases : list string) (issues suggestions : list string)
  : list string * list string :=
match incorrect_phrases with
| [] => (issues, suggestions)
| incorrect :: rest =>
    if contains incorrect text_lower
    then check_incorrect text_lower what suggestion rest
                         (issues ++ [(what ++ incorrect)%string])
                         (suggestions ++ [suggestion])
    else check_incorrect text_lower what suggestion rest issues suggestions
end.

Definition incorrect_jurisdictions : list string :=
  ["uae federal court"; "dubai court"; "sharjah court"; "abu dhabi court";
   "federal court"; "local court"].

Definition adgm_jurisdiction_patterns : list string :=
  ["adgm court"; "abu dhabi global market court"].

(** [validate_jurisdiction_clause] *)
Definition validate_jurisdiction_clause (text : string) : Validation :=
let text_lower := lower text in
let '(issues, suggestions) :=
  check_incorrect text_lower "References incorrect jurisdiction: "
                  "Update to specify ADGM Courts as the exclusive jurisdiction"
                  incorrect_jurisdictions [] [] in
let has_adgm_jurisdiction :=
  existsb (fun pattern => contains pattern text_lower) adgm_jurisdiction_patterns in
let '(issues, suggestions) :=
  if (negb has_adgm_jurisdiction
      && (contains "jurisdiction" text_lower || contains "court" text_lower))%bool
  then (issues ++ ["Missing ADGM Courts jurisdiction specification"],
        suggestions
        ++ ["Add clause: 'The ADGM Courts shall have exclusive jurisdiction'"])
  else (issues, suggestions) in
mkValidation issues suggestions (Nat.eqb (List.length issues) 0).

Definition incorrect_laws : list string :=
  ["uae law"; "dubai law"; "federal law"; "sharjah law"].

Definition adgm_law_patterns : list string :=
  ["adgm law"; "abu dhabi global market law"; "laws of adgm"].

(** [validate_governing_law] *)
Definition validate_governing_law (text : string) : Validation :=
let text_lower := lower text in
let '(issues, suggestions) :=
  check_incorrect text_lower "References incorrect governing law: "
                  "Update to specify ADGM law as governing law"
                  incorrect_laws [] [] in
let has_adgm_law :=
  existsb (fun pattern => contains pattern text_lower) adgm_law_patterns in
let '(issues, suggestions) :=
  if (negb has_adgm_law
      && (contains "governing law" text_lower || contains "governed by" text_lower))%bool
  then (issues ++ ["Missing ADGM law as governing law"],
        suggestions
        ++ ["Add clause: 'governed by the laws of Abu Dhabi Global Market'"])
  else (issues, suggestions) in
mkValidation issues suggestions (Nat.eqb (List.length issues) 0).

End Rag.

(* ------------------------------------------------------------------------- *)
(** ** document_processor.py: [process_documents] and what it calls *)

(** The batch is modelled with an output directory that can be written:
    [os.makedirs], [doc.save] and the writing of compliance_summary.json
    succeed, so that the files written are part of the result. What can fail
    is what the source guards: opening an uploaded file, the header of a
    document without a paragraph, and the enhanced analysis. *)

Module Batch.

Import PyStr.

(** One uploaded file: what is found at its path, and its name. *)
Record FileInfo : Type := mkFileInfo {
  path : Docx.File;
  name : string
}.

(** [_extract_document_text]: the stripped texts of the paragraphs and of the
    table cells that are not blank, one per line; empty when the file cannot
    be opened. *)
Definition _extract_document_text (file : Docx.File) : string :=
match file with
| Docx.Unreadable _ => ""
| Docx.Readable doc =>
    let text_content :=
      map PyText.strip
          (filter strip_nonempty (map Docx.text (Docx.paragraphs doc)))
      ++ map PyText.strip
             (filter strip_nonempty
                     (concat (map (fun table => concat table) (Docx.tables doc)))) in
    join Processor.nl text_content
end.

(** What [_calculate_overall_compliance] returns. *)
Inductive Overall : Type :=
| NoDocuments
| OverallOf (average_score : float) (status : string) (total_issues : Z)
            (documents_reviewed : Z).

Section World.

(** Both collaborators act on the world outside the engine: the guidance
    lookup of the detector, and the enhanced analysis, whose failure ([None])
    the processor replaces by a dictionary of its own. *)
Variable World : Type.
Variable get_compliance_guidance :
  string -> string -> World -> option string * World.
Variable Enhanced : Type.
Variable generate_enhanced_analysis :
  string -> string -> list Detector.Issue -> World -> option Enhanced * World.

(** [_get_current_date] at call [k] for document number [n], and the order in
    which Python iterates over a [set] of flag types. *)
Variable _get_current_date : nat -> nat -> string.
Variable set_order : list string -> list string.

(** The analysis dictionary once [enhanced_analysis] is written into it;
    [None] stands for the dictionary written when the analysis raised. *)
Record AnalysisRecord : Type := mkAnalysisRecord {
  detector_analysis : Detector.Analysis;
  enhanced_analysis : option Enhanced
}.

(** One entry of [results["documents"]]. *)
Record DocResult : Type := mkDocResult {
  original_filename : string;
  document_type : string;
  reviewed_document_path : string;
  analysis : AnalysisRecord;
  compliance_score : Z;
  issues_count : Z
}.

(** [results["summary"]] *)
Record Summary : Type := mkSummary {
  total_documents : Z;
  process_type : string;
  document_types_found : list string;
  total_issues : Z;
  critical_issues : Z;
  warnings : Z
}.

(** One entry of the issue list of [compliance_summary.json]. *)
Record JsonIssue : Type := mkJsonIssue {
  json_document : string;
  json_document_type : string;
  json_issue : string;
  json_severity : string;
  json_suggestion : string;
  json_adgm_reference : string
}.

(** The content of [compliance_summary.json]. *)
Record JsonSummary : Type := mkJsonSummary {
  json_process : string;
  documents_uploaded : Z;
  required_documents : Z;
  missing_documents : list string;
  completeness_percentage : PyNum.number;
  overall_compliance_score : PyNum.number;
  overall_status : string;
  issues_found : list JsonIssue
}.

(** What [process_documents] returns, with the files it has written. *)
Record Results : Type := mkResults {
  summary : Summary;
  documents : list DocResult;
  process_analysis : Classifier.ChecklistReport;
  overall_compliance : Overall;
  written_documents : list (string * Docx.Document);
  written_summary : string * JsonSummary
}.

(** [_calculate_overall_compliance] *)
Definition _calculate_overall_compliance (documents : list DocResult) : Overall :=
match documents with
| [] => NoDocuments
| _ :: _ =>
    let total_score := fold_right Z.add 0 (map compliance_score documents) in
    let avg_score := PyNum.true_div total_score (Z.of_nat (List.length documents)) in
    let total_issues := fold_right Z.add 0 (map issues_count documents) in
    let status :=
      if PrimFloat.leb 90 avg_score then "Compliant"
      else if PrimFloat.leb 70 avg_score then "Minor Issues"
      else if PrimFloat.leb 50 avg_score then "Major Issues"
      else "Non-Compliant" in
    OverallOf (PyNum.round1_float avg_score) status total_issues
              (Z.of_nat (List.length documents))
end.

(** The issues of one document as [_save_summary_json] writes them. *)
Definition simplified_issues (doc : DocResult) : list JsonIssue :=
map (fun issue =>
       mkJsonIssue (original_filename doc) (document_type doc)
                   (Detector.issue issue) (Detector.severity issue)
                   (Detector.suggestion issue) (Detector.adgm_reference issue))
    (Detector.issues_found (detector_analysis (analysis doc))).

(** [_save_summary_json]: the path and the content of the summary file. *)
Definition _save_summary_json (summary : Summary) (documents : list DocResult)
           (process_analysis : Classifier.ChecklistReport)
           (overall_compliance : Overall) (output_dir : string)
  : string * JsonSummary :=
(PyText.path_join output_dir "compliance_summary.json",
 mkJsonSummary
   (Classifier.process process_analysis)
   (total_documents summary)
   (match Classifier.required_documents process_analysis with
    | Some n => n
    | None => 0
    end)
   (Classifier.missing_documents process_analysis)
   (Classifier.completeness_percentage process_analysis)
   (match overall_compliance with
    | OverallOf average_score _ _ _ => PyNum.PyFloat average_score
    | NoDocuments => PyNum.PyInt 0
    end)
   (match overall_compliance with
    | OverallOf _ status _ _ => status
    | NoDocuments => "No documents"
    end)
   (concat (map simplified_issues documents))).

Notation "x <- c ;; k" := (Detector.bind World c (fun x => k))
  (at level 61, c at next level, right associativity).

(** The loop of [process_documents] over the uploaded files, [n] being the
    number of the first of them: the records of the documents, and the
    reviewed copies that were saved. *)
Fixpoint process_files (output_dir : string) (n : nat) (uploaded_files : list FileInfo)
  : Detector.M World (list DocResult * list (string * Docx.Document)) :=
match uploaded_files with
| [] => Detector.ret World ([], [])
| file_info :: rest =>
    let file_path := path file_info in
    let filename := name file_info in
    let doc_type := Classifier.classify file_path filename in
    analysis <- Detector.analyze_document World get_compliance_guidance
                  Config.RED_FLAGS file_path doc_type ;;
    enhanced <- generate_enhanced_analysis
                  (_extract_document_text file_path) doc_type
                  (Detector.issues_found analysis) ;;
    let reviewed :=
      Processor._create_reviewed_document (_get_current_date n) set_order
                                          file_path filename analysis in
    let reviewed_doc_path :=
      match reviewed with
      | Some (output_filename, _) => PyText.path_join output_dir output_filename
      | None => ""
      end in
    let doc_result :=
      mkDocResult filename doc_type reviewed_doc_path
                  (mkAnalysisRecord analysis enhanced)
                  (Detector.compliance_score analysis)
                  (Z.of_nat (List.length (Detector.issues_found analysis))) in
    later <- process_files output_dir (S n) rest ;;
    Detector.ret World
      (doc_result :: fst later,
       match reviewed with
       | Some (output_filename, doc) =>
           (PyText.path_join output_dir output_filename, doc) :: snd later
       | None => snd later
       end)
end.

(** [process_documents] *)
Definition process_documents (uploaded_files : list FileInfo) (output_dir : string)
  : Detector.M World Results :=
processed <- process_files output_dir 0 uploaded_files ;;
let documents := fst processed in
let document_types := map document_type documents in
let all_issues :=
  concat (map (fun doc => Detector.issues_found (detector_analysis (analysis doc)))
              documents) in
let process_type := Classifier.detect_process document_types in
let checklist_report := Classifier.checklist_report document_types process_type in
let summary :=
  mkSummary (Z.of_nat (List.length uploaded_files)) process_type document_types
            (Z.of_nat (List.length all_issues))
            (Detector.count_severity "High" all_issues)
            (Detector.count_severity "Medium" all_issues) in
let overall := _calculate_overall_compliance documents in
Detector.ret World
  (mkResults summary documents checklist_report overall (snd processed)
             (_save_summary_json summary documents checklist_report overall output_dir)).

End World.

End Batch.

(* ------------------------------------------------------------------------- *)
(** ** Further notions used to state properties *)

Module Notions.

(** [l1] is [l2] with some elements left out, the order kept. *)
Inductive subsequence {A : Type} : list A -> list A -> Prop :=
| subsequence_nil : forall l, subsequence [] l
| subsequence_keep : forall x l1 l2,
    subsequence l1 l2 -> subsequence (x :: l1) (x :: l2)
| subsequence_skip : forall x l1 l2,
    subsequence l1 l2 -> subsequence l1 (x :: l2).

(** The type-specific checks exist for these three document types. *)
Definition has_specific_checks (document_type : string) : bool :=
  (String.eqb document_type "articles_of_association"
   || String.eqb document_type "memorandum_of_association"
   || String.eqb document_type "employment_contract")%bool.

(** The fixed results of the cascade that closes [classify_document_type]. *)
Definition cascade_types : list string :=
  ["articles_of_association"; "memorandum_of_association"; "board_resolution";
   "shareholder_resolution"; "ubo_declaration"; "employment_contract"].

(** The score that [detect_process_type] gives to one checklist. *)
Definition score_of_process (document_types : list string)
           (checklist : Config.Checklist) : Z :=
  Classifier.process_score (Classifier.required_of checklist) document_types 0.

(** Some flag pattern occurs in some paragraph that has text. *)
Definition has_flagged_pattern (flags : list (string * Config.FlagConfig))
           (paragraphs_data : list Detector.ParagraphData) : bool :=
  existsb (fun '(_, flag_config) =>
             existsb (fun paragraph_data =>
                        existsb (fun pattern =>
                                   PyStr.contains pattern
                                     (Detector.text_lower paragraph_data))
                                (Config.patterns flag_config))
                     paragraphs_data)
          flags.

(** [out] has every paragraph text of [doc] in the same order, the same
    tables, and [n] paragraphs more. *)
Definition grown_by (n : nat) (doc out : Docx.Document) : Prop :=
  subsequence (Props.texts_of doc) (Props.texts_of out)
  /\ Docx.tables out = Docx.tables doc
  /\ List.length (Docx.paragraphs out)
     = (List.length (Docx.paragraphs doc) + n)%nat.

(** The issues that the detector finds in a file under the configured flag
    table, guidance apart. *)
Definition issues_view (file : Docx.File) (doc_type : string)
  : list Detector.Issue :=
  match file with
  | Docx.Unreadable _ => []
  | Docx.Readable doc =>
      let paragraphs_data := Detector.collect_paragraphs 0 (Docx.paragraphs doc) in
      Props.scan_view paragraphs_data Config.RED_FLAGS
      ++ Props.signature_view paragraphs_data
      ++ Props.specific_view paragraphs_data doc_type
  end.

(** The file opens and its document has a paragraph. *)
Definition has_paragraph (file : Docx.File) : bool :=
  match file with
  | Docx.Readable doc =>
      match Docx.paragraphs doc with
      | [] => false
      | _ :: _ => true
      end
  | Docx.Unreadable _ => false
  end.

(** Where the reviewed copy of an uploaded file is saved; empty when there is
    none. *)
Definition reviewed_path (output_dir : string) (file_info : Batch.FileInfo)
  : string :=
  if has_paragraph (Batch.path file_info)
  then PyText.path_join output_dir ("reviewed_" ++ Batch.name file_info)
  else ""%string.


(** The issues that a record of the batch carries. *)
Definition issues_of {Enhanced : Type} (d : Batch.DocResult Enhanced)
  : list Detector.Issue :=
  Detector.issues_found
    (Batch.detector_analysis Enhanced (Batch.analysis Enhanced d)).

(** The record [d] is the one of the uploaded file [file_info]. *)
Definition record_of {Enhanced : Type} (output_dir : string)
           (file_info : Batch.FileInfo) (d : Batch.DocResult Enhanced) : Prop :=
  Batch.original_filename Enhanced d = Batch.name file_info
  /\ Batch.document_type Enhanced d
     = Classifier.classify (Batch.path file_info) (Batch.name file_info)
  /\ map Props.without_guidance (issues_of d)
     = issues_view (Batch.path file_info) (Batch.document_type Enhanced d)
  /\ Batch.compliance_score Enhanced d
     = match Batch.path file_info with
       | Docx.Readable _ => Detector.score_of (issues_of d)
       | Docx.Unreadable _ => 0
       end
  /\ Batch.issues_count Enhanced d = Z.of_nat (List.length (issues_of d))
  /\ Batch.reviewed_document_path Enhanced d = reviewed_path output_dir file_info.

(** The saved file [written] is the reviewed copy of one of the uploaded
    files: it has the name of the copy of that file and keeps the text and
    the tables of its document. *)
Definition copy_of_upload (output_dir : string) (uploaded_files : list Batch.FileInfo)
           (written : string * Docx.Document) : Prop :=
  exists file_info doc,
    In file_info uploaded_files
    /\ Batch.path file_info = Docx.Readable doc
    /\ fst written
       = PyText.path_join output_dir ("reviewed_" ++ Batch.name file_info)
    /\ subsequence (Props.texts_of doc) (Props.texts_of (snd written))
    /\ Docx.tables (snd written) = Docx.tables doc.

End Notions.

Import PyStr.
Import Detector.
Import Props.

(* ------------------------------------------------------------------------- *)
(** ** The embedding at work *)

Example lower_title :
  lower "UBO Declaration_Form" = "ubo declaration_form"
  /\ title (replace "_" " " "company_checklist") = "Company Checklist".
Proof. split; reflexivity. Qed.

Example whole_words :
  count_words "articles" "articles of the articles, articlesx articles" = 3
  /\ contains "signed by" "duly signed by the director" = true.
Proof. split; reflexivity. Qed.

Example classify_by_name :
  Classifier.classify (Docx.Unreadable "missing") "Board_Resolution_v2.docx"
  = "board_resolution".
Proof. vm_compute. reflexivity. Qed.

Example classify_by_content :
  Classifier.classify
    (Docx.Readable [Docx.BPara [Docx.plain_run "Register of Members"];
                    Docx.BTable [["Members register"; "entry"]];
                    Docx.BSectPr])
    "scan_001.docx"
  = "register_members".
Proof. vm_compute. reflexivity. Qed.

Example process_of_an_upload :
  Classifier.detect_process ["employment_contract"] = "Employment Setup"
  /\ Classifier.detect_process [] = "Unknown Process"
  /\ Classifier.completeness_percentage
       (Classifier.checklist_report ["employment_contract"] "Employment Setup")
     = PyNum.PyFloat 50%float
  /\ Classifier.completeness_percentage
       (Classifier.checklist_report ["articles_of_association"]
                                    "Private Company Limited")
     = PyNum.PyFloat 16.7%float.
Proof. repeat split; vm_compute; reflexivity. Qed.

Example round_to_one_decimal :
  PyNum.round1_float 0.25%float = 0.2%float
  /\ PyNum.round1_float 0.35%float = 0.3%float
  /\ PyNum.round1_float 28.75%float = 28.8%float
  /\ PyNum.round1_float 16.666666666666664%float = 16.7%float.
Proof. repeat split; vm_compute; reflexivity. Qed.

Example articles_with_two_flags :
  map (fun i => (flag_type i, severity i, paragraph_index i))
      (issues_found
         (fst (analyze_document Z counting_guidance Config.RED_FLAGS
                 (Docx.Readable
                    (document_of ["These articles are governed by UAE federal law";
                                  "Disputes go to the Dubai Court"]))
                 "articles_of_association" 0)))
  = [ ("jurisdiction", "High", 1); ("governing_law", "High", 0);
      ("missing_signature", "Medium", 1);
      ("missing_section", "High", 0); ("missing_section", "High", 0);
      ("missing_section", "High", 0); ("missing_section", "High", 0) ]
  /\ compliance_score
       (fst (analyze_document Z counting_guidance Config.RED_FLAGS
               (Docx.Readable
                  (document_of ["These articles are governed by UAE federal law";
                                "Disputes go to the Dubai Court"]))
               "articles_of_association" 0))
     = 0.
Proof. split; vm_compute; reflexivity. Qed.

(* ------------------------------------------------------------------------- *)
(** ** Strings *)

Lemma length_app_string (a b : string) :
  String.length (a ++ b) = (String.length a + String.length b)%nat.
Proof.
  induction a as [|c a IH]; simpl; [reflexivity | now rewrite IH].
Qed.

Lemma length_slice_to (n : nat) (s : string) :
  (String.length (slice_to n s) <= n)%nat.
Proof.
  revert s; induction n as [|n IH]; intros [|c s]; simpl; try lia.
  specialize (IH s); lia.
Qed.

Lemma length_excerpt (t : string) : (String.length (excerpt t) <= 203)%nat.
Proof.
  unfold excerpt, len.
  destruct (200 <? Z.of_nat (String.length t)) eqn:E.
  - rewrite length_app_string.
    pose proof (length_slice_to 200 t) as H.
    change (String.length "...") with 3%nat. lia.
  - apply Z.ltb_ge in E; lia.
Qed.

(* ------------------------------------------------------------------------- *)
(** ** The compliance scorer *)

Lemma count_severity_number_of (s : string) (issues : list Issue) :
  count_severity s issues = number_of s issues.
Proof.
  unfold count_severity.
  induction issues as [|i rest IH]; simpl; [reflexivity|].
  destruct (String.eqb (severity i) s); simpl List.length.
  - rewrite Nat2Z.inj_succ, IH; lia.
  - rewrite IH; lia.
Qed.

Lemma number_of_nonneg (s : string) (issues : list Issue) : 0 <= number_of s issues.
Proof.
  induction issues as [|i rest IH]; simpl; [lia|].
  destruct (String.eqb (severity i) s); lia.
Qed.

Lemma number_of_app (s : string) (l1 l2 : list Issue) :
  number_of s (l1 ++ l2) = number_of s l1 + number_of s l2.
Proof.
  induction l1 as [|i rest IH]; simpl; [reflexivity | rewrite IH; lia].
Qed.

Lemma score_of_formula (issues : list Issue) :
  score_of issues =
  Z.max 0 (100 - 20 * number_of "High" issues - 10 * number_of "Medium" issues).
Proof.
  unfold score_of. rewrite !count_severity_number_of. f_equal; lia.
Qed.

Lemma score_of_range (issues : list Issue) : 0 <= score_of issues <= 100.
Proof.
  rewrite score_of_formula.
  pose proof (number_of_nonneg "High" issues).
  pose proof (number_of_nonneg "Medium" issues).
  lia.
Qed.

Lemma status_bands (score : Z) :
  (_get_compliance_status score = "Compliant" <-> 90 <= score)
  /\ (_get_compliance_status score = "Minor Issues" <-> 70 <= score < 90)
  /\ (_get_compliance_status score = "Major Issues" <-> 50 <= score < 70)
  /\ (_get_compliance_status score = "Non-Compliant" <-> score < 50).
Proof.
  unfold _get_compliance_status.
  destruct (90 <=? score) eqn:E1; [apply Z.leb_le in E1 | apply Z.leb_gt in E1].
  { repeat split; intros; try discriminate; try reflexivity; lia. }
  destruct (70 <=? score) eqn:E2; [apply Z.leb_le in E2 | apply Z.leb_gt in E2].
  { repeat split; intros; try discriminate; try reflexivity; lia. }
  destruct (50 <=? score) eqn:E3; [apply Z.leb_le in E3 | apply Z.leb_gt in E3].
  { repeat split; intros; try discriminate; try reflexivity; lia. }
  repeat split; intros; try discriminate; try reflexivity; lia.
Qed.

Lemma number_of_without_low (s : string) (issues : list Issue) :
  s <> "Low" ->
  number_of s (filter (fun i => negb (String.eqb (severity i) "Low")) issues)
  = number_of s issues.
Proof.
  intros Hne. induction issues as [|i rest IH]; simpl; [reflexivity|].
  destruct (String.eqb (severity i) "Low") eqn:E; simpl.
  - apply String.eqb_eq in E. rewrite E.
    destruct (String.eqb "Low" s) eqn:E'; [apply String.eqb_eq in E'; congruence|].
    rewrite IH; lia.
  - rewrite IH; reflexivity.
Qed.

Lemma score_of_without_low (issues : list Issue) :
  score_of (filter (fun i => negb (String.eqb (severity i) "Low")) issues)
  = score_of issues.
Proof.
  rewrite !score_of_formula.
  rewrite (number_of_without_low "High"), (number_of_without_low "Medium")
    by discriminate.
  reflexivity.
Qed.

Lemma score_of_insert_low (low : Issue) (before after : list Issue) :
  severity low = "Low" ->
  score_of (before ++ low :: after) = score_of (before ++ after).
Proof.
  intros Hlow. rewrite !score_of_formula, !number_of_app. simpl.
  rewrite Hlow. reflexivity.
Qed.

(** C2. The scorer returns max(0, 100 - 20*High - 10*Medium); issues of any
    other severity, Low among them, deduct nothing; the status is Compliant from
    90, Minor Issues from 70 to 89, Major Issues from 50 to 69 and Non-Compliant
    below 50. All of it is integer arithmetic on the list of issues. *)
Theorem C2_score_formula_and_status_bands :
  forall (analysis : Analysis),
    compliance_score (_calculate_compliance_metrics analysis)
    = Z.max 0 (100 - 20 * number_of "High" (issues_found analysis)
                   - 10 * number_of "Medium" (issues_found analysis))
    /\ compliance_score (_calculate_compliance_metrics analysis)
       = score_of (filter (fun i => negb (String.eqb (severity i) "Low"))
                          (issues_found analysis))
    /\ (forall low before after,
          severity low = "Low" ->
          score_of (before ++ low :: after) = score_of (before ++ after))
    /\ (compliance_status (_calculate_compliance_metrics analysis) = Some "Compliant"
        <-> 90 <= compliance_score (_calculate_compliance_metrics analysis))
    /\ (compliance_status (_calculate_compliance_metrics analysis) = Some "Minor Issues"
        <-> 70 <= compliance_score (_calculate_compliance_metrics analysis) < 90)
    /\ (compliance_status (_calculate_compliance_metrics analysis) = Some "Major Issues"
        <-> 50 <= compliance_score (_calculate_compliance_metrics analysis) < 70)
    /\ (compliance_status (_calculate_compliance_metrics analysis) = Some "Non-Compliant"
        <-> compliance_score (_calculate_compliance_metrics analysis) < 50)
    /\ issues_found (_calculate_compliance_metrics analysis) = issues_found analysis.
Proof.
  intros analysis.
  change (compliance_score (_calculate_compliance_metrics analysis))
    with (score_of (issues_found analysis)).
  change (compliance_status (_calculate_compliance_metrics analysis))
    with (Some (_get_compliance_status (score_of (issues_found analysis)))).
  destruct (status_bands (score_of (issues_found analysis))) as (B1 & B2 & B3 & B4).
  split; [apply score_of_formula|].
  split; [symmetry; apply score_of_without_low|].
  split; [intros; now apply score_of_insert_low|].
  split; [split; [intros H; injection H as H; now apply B1
                 | intros H; f_equal; now apply B1]|].
  split; [split; [intros H; injection H as H; now apply B2
                 | intros H; f_equal; now apply B2]|].
  split; [split; [intros H; injection H as H; now apply B3
                 | intros H; f_equal; now apply B3]|].
  split; [split; [intros H; injection H as H; now apply B4
                 | intros H; f_equal; now apply B4]|].
  reflexivity.
Qed.

(** One more issue never raises the score. *)
Lemma score_of_monotone (issues : list Issue) (extra : Issue) :
  score_of (issues ++ [extra]) <= score_of issues.
Proof.
  rewrite !score_of_formula, !number_of_app. cbn [number_of].
  destruct (String.eqb (severity extra) "High");
    destruct (String.eqb (severity extra) "Medium"); lia.
Qed.

(* ------------------------------------------------------------------------- *)
(** ** The detector, seen without its collaborator *)

Lemma collect_paragraphs_from (paragraphs : list Docx.Paragraph) :
  forall i, Forall (fun pd => i <= index pd) (collect_paragraphs i paragraphs).
Proof.
  induction paragraphs as [|p rest IH]; intros i; cbn [collect_paragraphs].
  - constructor.
  - assert (H : Forall (fun pd => i <= index pd) (collect_paragraphs (i + 1) rest)).
    { eapply Forall_impl; [|apply IH]. intros pd; simpl; lia. }
    destruct (strip_nonempty (Docx.text p)); [constructor; [simpl; lia | exact H] | exact H].
Qed.

Lemma collect_paragraphs_sorted (paragraphs : list Docx.Paragraph) :
  forall i, StronglySorted Z.lt (map index (collect_paragraphs i paragraphs)).
Proof.
  induction paragraphs as [|p rest IH]; intros i; cbn [collect_paragraphs].
  - constructor.
  - destruct (strip_nonempty (Docx.text p)); [|apply IH].
    cbn [map]. constructor; [apply IH|].
    apply Forall_map. eapply Forall_impl; [|apply (collect_paragraphs_from rest (i + 1))].
    intros pd; simpl; lia.
Qed.

Lemma collect_paragraphs_length (paragraphs : list Docx.Paragraph) :
  forall i, (List.length (collect_paragraphs i paragraphs) <= List.length paragraphs)%nat.
Proof.
  induction paragraphs as [|p rest IH]; intros i; cbn [collect_paragraphs];
    [simpl; lia|].
  specialize (IH (i + 1)).
  destruct (strip_nonempty (Docx.text p)); simpl; lia.
Qed.

Section DetectorFacts.

Variable RagState : Type.
Variable guide : string -> string -> RagState -> option string * RagState.

Lemma detect_patterns_view pd ft cfg :
  forall patterns s,
    map without_guidance (fst (detect_patterns RagState guide pd ft cfg patterns s))
    = map (pattern_issue pd ft cfg)
          (filter (fun pattern => contains pattern (text_lower pd)) patterns).
Proof.
  induction patterns as [|p rest IH]; intros s; cbn [detect_patterns filter].
  - reflexivity.
  - destruct (contains p (text_lower pd)); [|apply IH].
    unfold bind, ret. destruct (guide "general" ft s) as [gd s1].
    specialize (IH s1).
    destruct (detect_patterns RagState guide pd ft cfg rest s1) as [issues s2].
    cbn [fst map] in *. now rewrite IH.
Qed.

Lemma detect_flag_view ft cfg :
  forall pds s,
    map without_guidance
        (fst (_detect_flag_in_paragraphs RagState guide pds ft cfg s))
    = flag_view pds ft cfg.
Proof.
  induction pds as [|pd rest IH]; intros s; cbn [_detect_flag_in_paragraphs].
  - reflexivity.
  - unfold bind, ret.
    pose proof (detect_patterns_view pd ft cfg (Config.patterns cfg) s) as H.
    destruct (detect_patterns RagState guide pd ft cfg (Config.patterns cfg) s)
      as [here s1].
    specialize (IH s1).
    destruct (_detect_flag_in_paragraphs RagState guide rest ft cfg s1)
      as [later s2].
    cbn [fst] in *. unfold flag_view in *. cbn [flat_map].
    now rewrite map_app, H, IH.
Qed.

Lemma detect_flags_view pds :
  forall flags s,
    map without_guidance (fst (detect_flags RagState guide pds flags s))
    = scan_view pds flags.
Proof.
  induction flags as [|[ft cfg] rest IH]; intros s; cbn [detect_flags].
  - reflexivity.
  - unfold bind, ret.
    pose proof (detect_flag_view ft cfg pds s) as H.
    destruct (_detect_flag_in_paragraphs RagState guide pds ft cfg s) as [issues s1].
    specialize (IH s1).
    destruct (detect_flags RagState guide pds rest s1) as [more s2].
    cbn [fst] in *. unfold scan_view in *. cbn [flat_map].
    now rewrite map_app, H, IH.
Qed.

Lemma missing_items_view all_text flag where_ what sev document_type reference :
  forall required s,
    map without_guidance
        (fst (missing_items RagState guide all_text required flag where_ what sev
                            document_type reference s))
    = map (fun '(item, description) =>
             mkIssue flag 0 where_ (what ++ item)%string None sev description None
                     reference)
          (filter (fun '(item, _) => negb (contains item all_text)) required).
Proof.
  induction required as [|[item description] rest IH]; intros s;
    cbn [missing_items filter].
  - reflexivity.
  - destruct (negb (contains item all_text)); [|apply IH].
    unfold bind, ret. destruct (guide document_type item s) as [gd s1].
    specialize (IH s1).
    destruct (missing_items RagState guide all_text rest flag where_ what sev
                            document_type reference s1) as [issues s2].
    cbn [fst map] in *. now rewrite IH.
Qed.

Lemma specific_checks_view pds document_type s :
  map without_guidance (fst (specific_checks RagState guide pds document_type s))
  = specific_view pds document_type.
Proof.
  unfold specific_checks, specific_view, requirements_of.
  destruct (String.eqb document_type "articles_of_association");
    [apply missing_items_view|].
  destruct (String.eqb document_type "memorandum_of_association");
    [apply missing_items_view|].
  destruct (String.eqb document_type "employment_contract");
    [apply missing_items_view|].
  reflexivity.
Qed.

Lemma signature_check_view pds document_type s :
  map without_guidance (fst (signature_check RagState guide pds document_type s))
  = signature_view pds.
Proof.
  unfold signature_check, signature_view, has_signature.
  destruct (existsb (fun pattern => contains pattern (all_text_of pds))
                    signature_patterns); cbn [negb].
  - reflexivity.
  - unfold bind, ret. destruct (guide document_type "signatures" s) as [gd s1].
    reflexivity.
Qed.

(** The issue list of a readable document is the pattern scan, then the
    signature check, then the type-specific checks. *)
Lemma analyze_document_split red_flags doc document_type s :
  exists scan signature specific,
    issues_found
      (fst (analyze_document RagState guide red_flags (Docx.Readable doc)
                             document_type s))
    = scan ++ signature ++ specific
    /\ map without_guidance scan
       = scan_view (collect_paragraphs 0 (Docx.paragraphs doc)) red_flags
    /\ map without_guidance signature
       = signature_view (collect_paragraphs 0 (Docx.paragraphs doc))
    /\ map without_guidance specific
       = specific_view (collect_paragraphs 0 (Docx.paragraphs doc)) document_type.
Proof.
  unfold analyze_document, _perform_additional_checks, bind, ret.
  set (pds := collect_paragraphs 0 (Docx.paragraphs doc)).
  pose proof (detect_flags_view pds red_flags s) as H1.
  destruct (detect_flags RagState guide pds red_flags s) as [scan s1].
  pose proof (signature_check_view pds document_type s1) as H2.
  destruct (signature_check RagState guide pds document_type s1) as [sig s2].
  pose proof (specific_checks_view pds document_type s2) as H3.
  destruct (specific_checks RagState guide pds document_type s2) as [spec s3].
  exists scan, sig, spec. cbn [fst] in *. auto.
Qed.

Lemma analyze_document_view red_flags doc document_type s :
  map without_guidance
      (issues_found
         (fst (analyze_document RagState guide red_flags (Docx.Readable doc)
                                document_type s)))
  = scan_view (collect_paragraphs 0 (Docx.paragraphs doc)) red_flags
    ++ signature_view (collect_paragraphs 0 (Docx.paragraphs doc))
    ++ specific_view (collect_paragraphs 0 (Docx.paragraphs doc)) document_type.
Proof.
  destruct (analyze_document_split red_flags doc document_type s)
    as (scan & sig & spec & E & H1 & H2 & H3).
  now rewrite E, !map_app, H1, H2, H3.
Qed.

Lemma analyze_document_score red_flags file document_type s :
  compliance_score
    (fst (analyze_document RagState guide red_flags file document_type s))
  = match file with
    | Docx.Readable _ =>
        score_of (issues_found
                    (fst (analyze_document RagState guide red_flags file
                                           document_type s)))
    | Docx.Unreadable _ => 0
    end.
Proof.
  destruct file as [doc|e]; [|reflexivity].
  unfold analyze_document, bind, ret.
  destruct (detect_flags RagState guide _ red_flags s) as [scan s1].
  destruct (_perform_additional_checks RagState guide _ document_type s1)
    as [more s2].
  reflexivity.
Qed.

Lemma analyze_document_status red_flags doc document_type s :
  compliance_status
    (fst (analyze_document RagState guide red_flags (Docx.Readable doc)
                           document_type s))
  = Some (_get_compliance_status
            (compliance_score
               (fst (analyze_document RagState guide red_flags (Docx.Readable doc)
                                      document_type s)))).
Proof.
  unfold analyze_document, bind, ret.
  destruct (detect_flags RagState guide _ red_flags s) as [scan s1].
  destruct (_perform_additional_checks RagState guide _ document_type s1)
    as [more s2].
  reflexivity.
Qed.

End DetectorFacts.

Lemma number_of_without_guidance (s : string) (issues : list Issue) :
  number_of s (map without_guidance issues) = number_of s issues.
Proof.
  induction issues as [|i rest IH]; cbn [map number_of]; [reflexivity|].
  now rewrite IH.
Qed.

Lemma score_of_without_guidance (issues : list Issue) :
  score_of (map without_guidance issues) = score_of issues.
Proof.
  now rewrite !score_of_formula, !number_of_without_guidance.
Qed.

(** C5. The compliance score of every document lies between 0 and 100, and
    appending one more issue of any severity to a list of issues never raises
    the score that the scorer computes from it. *)
Theorem C5_score_in_range_and_monotone :
  forall (RagState : Type)
         (guide : string -> string -> RagState -> option string * RagState)
         (red_flags : list (string * Config.FlagConfig))
         (file : Docx.File) (doc_type : string) (s : RagState)
         (analysis : Analysis) (extra : Issue),
    0 <= compliance_score
           (fst (analyze_document RagState guide red_flags file doc_type s))
      <= 100
    /\ 0 <= compliance_score (_calculate_compliance_metrics analysis) <= 100
    /\ compliance_score
         (_calculate_compliance_metrics
            (mkAnalysis (document_type analysis) (error analysis)
                        (issues_found analysis ++ [extra])
                        (compliance_score analysis) (total_flags analysis)
                        (critical_issues analysis) (warnings analysis)
                        (compliance_status analysis)))
       <= compliance_score (_calculate_compliance_metrics analysis).
Proof.
  intros. split; [|split].
  - rewrite analyze_document_score. destruct file; [apply score_of_range | lia].
  - apply score_of_range.
  - apply score_of_monotone.
Qed.

(** C9. Two runs of the detector on the same document and document type, with
    any two collaborators in any two states, give the same compliance score and
    the same compliance status, and issue lists that differ in nothing but the
    guidance field. *)
Theorem C9_guidance_never_alters_score :
  forall (RagState1 RagState2 : Type)
         (guide1 : string -> string -> RagState1 -> option string * RagState1)
         (guide2 : string -> string -> RagState2 -> option string * RagState2)
         (s1 : RagState1) (s2 : RagState2)
         (red_flags : list (string * Config.FlagConfig))
         (file : Docx.File) (doc_type : string),
    compliance_score
      (fst (analyze_document RagState1 guide1 red_flags file doc_type s1))
    = compliance_score
        (fst (analyze_document RagState2 guide2 red_flags file doc_type s2))
    /\ compliance_status
         (fst (analyze_document RagState1 guide1 red_flags file doc_type s1))
       = compliance_status
           (fst (analyze_document RagState2 guide2 red_flags file doc_type s2))
    /\ map without_guidance
           (issues_found
              (fst (analyze_document RagState1 guide1 red_flags file doc_type s1)))
       = map without_guidance
             (issues_found
                (fst (analyze_document RagState2 guide2 red_flags file doc_type s2))).
Proof.
  intros. destruct file as [doc|e]; [|repeat split].
  assert (V : map without_guidance
                  (issues_found
                     (fst (analyze_document RagState1 guide1 red_flags
                                            (Docx.Readable doc) doc_type s1)))
              = map without_guidance
                    (issues_found
                       (fst (analyze_document RagState2 guide2 red_flags
                                              (Docx.Readable doc) doc_type s2))))
    by now rewrite !analyze_document_view.
  assert (S : compliance_score
                (fst (analyze_document RagState1 guide1 red_flags
                                       (Docx.Readable doc) doc_type s1))
              = compliance_score
                  (fst (analyze_document RagState2 guide2 red_flags
                                         (Docx.Readable doc) doc_type s2))).
  { rewrite !analyze_document_score.
    rewrite <- (score_of_without_guidance (issues_found (fst (analyze_document
              RagState1 guide1 red_flags (Docx.Readable doc) doc_type s1)))).
    rewrite <- (score_of_without_guidance (issues_found (fst (analyze_document
              RagState2 guide2 red_flags (Docx.Readable doc) doc_type s2)))).
    now rewrite V. }
  split; [exact S|]. split; [|exact V].
  now rewrite !analyze_document_status, S.
Qed.

(* ------------------------------------------------------------------------- *)
(** ** The excerpt of a flagged paragraph *)

Lemma requirements_where_length (doc_type : string) :
  (String.length (req_where (requirements_of doc_type)) <= 203)%nat.
Proof.
  unfold requirements_of.
  destruct (String.eqb doc_type "articles_of_association"); [simpl; lia|].
  destruct (String.eqb doc_type "memorandum_of_association"); [simpl; lia|].
  destruct (String.eqb doc_type "employment_contract"); simpl; lia.
Qed.

Lemma view_excerpts pds red_flags doc_type :
  Forall (fun i => (String.length (paragraph_text i) <= 203)%nat)
         (scan_view pds red_flags ++ signature_view pds
          ++ specific_view pds doc_type).
Proof.
  rewrite !Forall_app. repeat split.
  - apply Forall_forall. intros i Hi. unfold scan_view in Hi.
    apply in_flat_map in Hi. destruct Hi as ([ft cfg] & _ & Hi).
    unfold flag_view in Hi. apply in_flat_map in Hi. destruct Hi as (pd & _ & Hi).
    apply in_map_iff in Hi. destruct Hi as (pattern & <- & _).
    apply length_excerpt.
  - unfold signature_view. destruct (has_signature pds); constructor;
      [simpl; lia | constructor].
  - apply Forall_forall. intros i Hi. unfold specific_view in Hi.
    apply in_map_iff in Hi. destruct Hi as ([item description] & <- & _).
    apply requirements_where_length.
Qed.

(** C7 (as the code has it). The excerpt stored with an issue is the text of the
    flagged paragraph when that has at most 200 characters, and otherwise its
    first 200 characters followed by three dots; the structural issues carry
    short fixed texts. So every stored excerpt has at most 203 characters. *)
Theorem C7_excerpt_at_most_203_characters :
  forall (RagState : Type)
         (guide : string -> string -> RagState -> option string * RagState)
         (red_flags : list (string * Config.FlagConfig))
         (file : Docx.File) (doc_type : string) (s : RagState),
    Forall (fun i => (String.length (paragraph_text i) <= 203)%nat)
           (issues_found
              (fst (analyze_document RagState guide red_flags file doc_type s)))
    /\ (forall t, (String.length t <= 200)%nat -> excerpt t = t)
    /\ (forall t, (200 < String.length t)%nat ->
                  excerpt t = (slice_to 200 t ++ "...")%string
                  /\ String.length (excerpt t) = 203%nat).
Proof.
  intros. split; [|split].
  - destruct file as [doc|e]; [|constructor].
    pose proof (view_excerpts (collect_paragraphs 0 (Docx.paragraphs doc))
                              red_flags doc_type) as V.
    rewrite <- (analyze_document_view RagState guide red_flags doc doc_type s) in V.
    rewrite Forall_map in V. exact V.
  - intros t Ht. unfold excerpt, len.
    destruct (200 <? Z.of_nat (String.length t)) eqn:E; [|reflexivity].
    apply Z.ltb_lt in E. lia.
  - intros t Ht. unfold excerpt, len.
    destruct (200 <? Z.of_nat (String.length t)) eqn:E;
      [|apply Z.ltb_ge in E; lia].
    split; [reflexivity|].
    rewrite length_app_string. change (String.length "...") with 3%nat.
    assert (K : forall n u, (n <= String.length u)%nat ->
                            String.length (slice_to n u) = n).
    { induction n as [|n IH]; intros [|c u] Hu; simpl in *; try lia.
      rewrite IH; lia. }
    rewrite K; lia.
Qed.

(** C7 as stated fails: a paragraph of 201 characters that contains a flagged
    pattern is stored as an excerpt of 203 characters. *)
Lemma C7_excerpt_longer_than_200 :
  ~ Forall (fun i => (String.length (paragraph_text i) <= 200)%nat)
           (issues_found
              (fst (analyze_document unit no_guidance Config.RED_FLAGS
                      (Docx.Readable
                         (document_of [("uae law" ++ repeat "x" 194)%string;
                                       "signature"]))
                      "board_resolution" tt))).
Proof.
  intros H.
  assert (E : map (fun i => String.length (paragraph_text i))
                  (issues_found
                     (fst (analyze_document unit no_guidance Config.RED_FLAGS
                             (Docx.Readable
                                (document_of [("uae law" ++ repeat "x" 194)%string;
                                              "signature"]))
                             "board_resolution" tt)))
              = [203%nat]) by (vm_compute; reflexivity).
  apply (Forall_map (fun i => String.length (paragraph_text i))
                    (fun n => (n <= 200)%nat)) in H.
  rewrite E in H. inversion H as [|? ? Hle _]; subst. lia.
Qed.

(* ------------------------------------------------------------------------- *)
(** ** The order of the issues *)

Lemma StronglySorted_app {A : Type} (R : A -> A -> Prop) (l1 l2 : list A) :
  StronglySorted R l1 -> StronglySorted R l2 ->
  (forall x y, In x l1 -> In y l2 -> R x y) ->
  StronglySorted R (l1 ++ l2).
Proof.
  induction l1 as [|a l1 IH]; intros H1 H2 H; [exact H2|].
  inversion H1 as [|? ? Hs Hf]; subst. cbn [app]. constructor.
  - apply IH; [exact Hs | exact H2 | intros x y Hx Hy; apply H; [now right | exact Hy]].
  - apply Forall_app. split; [exact Hf|].
    apply Forall_forall. intros y Hy. apply H; [now left | exact Hy].
Qed.

Lemma StronglySorted_constant (c : Z) (n : nat) :
  StronglySorted Z.le (List.repeat c n).
Proof.
  induction n as [|n IH]; cbn [List.repeat]; constructor; [exact IH|].
  apply Forall_forall. intros y Hy. apply repeat_spec in Hy. lia.
Qed.

Lemma flag_view_indices pds ft cfg :
  map paragraph_index (flag_view pds ft cfg)
  = flat_map (fun pd =>
                List.repeat (index pd)
                  (List.length (filter (fun pattern => contains pattern (text_lower pd))
                                       (Config.patterns cfg))))
             pds.
Proof.
  unfold flag_view. induction pds as [|pd rest IH]; cbn [flat_map]; [reflexivity|].
  rewrite map_app, IH. f_equal.
  induction (filter (fun pattern => contains pattern (text_lower pd))
                    (Config.patterns cfg)) as [|p ps IHp]; cbn; [reflexivity|].
  now rewrite IHp.
Qed.

Lemma flag_view_sorted pds ft cfg :
  StronglySorted Z.lt (map index pds) ->
  StronglySorted Z.le (map paragraph_index (flag_view pds ft cfg)).
Proof.
  rewrite flag_view_indices.
  induction pds as [|pd rest IH]; intros H; cbn [flat_map]; [constructor|].
  cbn [map] in H. inversion H as [|? ? Hs Hf]; subst.
  apply StronglySorted_app; [apply StronglySorted_constant | now apply IH |].
  intros x y Hx Hy. apply repeat_spec in Hx. subst x.
  apply in_flat_map in Hy. destruct Hy as (pd' & Hin & Hy).
  apply repeat_spec in Hy. subst y.
  rewrite Forall_forall in Hf.
  specialize (Hf (index pd') (in_map index rest pd' Hin)). lia.
Qed.

Lemma flag_view_kind pds ft cfg :
  Forall (fun i => flag_type i = ft /\ is_pattern_issue i = true)
         (flag_view pds ft cfg).
Proof.
  apply Forall_forall. intros i Hi. unfold flag_view in Hi.
  apply in_flat_map in Hi. destruct Hi as (pd & _ & Hi).
  apply in_map_iff in Hi. destruct Hi as (pattern & <- & _). split; reflexivity.
Qed.

Lemma group_of_view (group : list Issue) pds ft cfg :
  StronglySorted Z.lt (map index pds) ->
  map without_guidance group = flag_view pds ft cfg ->
  Forall (fun i => flag_type i = ft /\ is_pattern_issue i = true) group
  /\ StronglySorted Z.le (map paragraph_index group).
Proof.
  intros Hs E. split.
  - pose proof (flag_view_kind pds ft cfg) as K. rewrite <- E in K.
    rewrite Forall_map in K. exact K.
  - pose proof (flag_view_sorted pds ft cfg Hs) as K. rewrite <- E in K.
    rewrite map_map in K. exact K.
Qed.

Section DetectorOrder.

Variable RagState : Type.
Variable guide : string -> string -> RagState -> option string * RagState.

Lemma detect_flags_groups pds :
  forall flags s,
  exists groups,
    fst (detect_flags RagState guide pds flags s) = concat groups
    /\ Forall2 (fun flag group =>
                  map without_guidance group = flag_view pds (fst flag) (snd flag))
               flags groups.
Proof.
  induction flags as [|[ft cfg] rest IH]; intros s; cbn [detect_flags].
  - exists []. split; [reflexivity | constructor].
  - unfold bind, ret.
    pose proof (detect_flag_view RagState guide ft cfg pds s) as H.
    destruct (_detect_flag_in_paragraphs RagState guide pds ft cfg s) as [issues s1].
    destruct (IH s1) as (groups & E & F).
    destruct (detect_flags RagState guide pds rest s1) as [more s2].
    cbn [fst] in *. exists (issues :: groups). split.
    + cbn [concat]. now rewrite E.
    + constructor; [exact H | exact F].
Qed.

Lemma analyze_document_groups red_flags doc doc_type s :
  exists groups signature specific,
    issues_found
      (fst (analyze_document RagState guide red_flags (Docx.Readable doc)
                             doc_type s))
    = concat groups ++ signature ++ specific
    /\ Forall2 (fun flag group =>
                  map without_guidance group
                  = flag_view (collect_paragraphs 0 (Docx.paragraphs doc))
                              (fst flag) (snd flag))
               red_flags groups
    /\ map without_guidance signature
       = signature_view (collect_paragraphs 0 (Docx.paragraphs doc))
    /\ map without_guidance specific
       = specific_view (collect_paragraphs 0 (Docx.paragraphs doc)) doc_type.
Proof.
  unfold analyze_document, _perform_additional_checks, bind, ret.
  set (pds := collect_paragraphs 0 (Docx.paragraphs doc)).
  destruct (detect_flags_groups pds red_flags s) as (groups & E & F).
  destruct (detect_flags RagState guide pds red_flags s) as [scan s1].
  pose proof (signature_check_view RagState guide pds doc_type s1) as H2.
  destruct (signature_check RagState guide pds doc_type s1) as [sig s2].
  pose proof (specific_checks_view RagState guide pds doc_type s2) as H3.
  destruct (specific_checks RagState guide pds doc_type s2) as [spec s3].
  exists groups, sig, spec. cbn [fst] in *. subst scan. auto.
Qed.

End DetectorOrder.

(** C4 (as the code has it). The issue list of a document is: first the issues
    of the pattern scan, one group for every entry of the flag table in the
    order of the table, each group in paragraph order (and, within a paragraph,
    in the order of the patterns of that flag); then the signature issue when
    it is emitted; then the type-specific issues in their declared order. *)
Theorem C4_issues_ordered_by_flag_then_paragraph :
  forall (RagState : Type)
         (guide : string -> string -> RagState -> option string * RagState)
         (red_flags : list (string * Config.FlagConfig))
         (doc : Docx.Document) (doc_type : string) (s : RagState),
  exists groups signature specific,
    issues_found
      (fst (analyze_document RagState guide red_flags (Docx.Readable doc) doc_type s))
    = concat groups ++ signature ++ specific
    /\ Forall2 (fun flag group =>
                  Forall (fun i => flag_type i = fst flag /\ is_pattern_issue i = true)
                         group
                  /\ StronglySorted Z.le (map paragraph_index group)
                  /\ map without_guidance group
                     = flag_view (collect_paragraphs 0 (Docx.paragraphs doc))
                                 (fst flag) (snd flag))
               red_flags groups
    /\ map without_guidance signature
       = (if has_signature (collect_paragraphs 0 (Docx.paragraphs doc)) then []
          else [signature_issue (collect_paragraphs 0 (Docx.paragraphs doc))])
    /\ map without_guidance specific
       = specific_view (collect_paragraphs 0 (Docx.paragraphs doc)) doc_type.
Proof.
  intros.
  destruct (analyze_document_groups RagState guide red_flags doc doc_type s)
    as (groups & sig & spec & E & F & H2 & H3).
  exists groups, sig, spec. repeat split; try assumption.
  clear E. induction F as [|flag group flags groups Hg F IH]; constructor.
  - destruct (group_of_view group _ (fst flag) (snd flag)
                (collect_paragraphs_sorted (Docx.paragraphs doc) 0) Hg) as (K1 & K2).
    repeat split; assumption.
  - exact IH.
Qed.

(** C4 as stated fails: with the governing-law phrase in the first paragraph
    and the jurisdiction phrase in the second, the jurisdiction issue of the
    second paragraph comes before the governing-law issue of the first, so the
    pattern-scan issues are not in paragraph order. *)
Lemma C4_pattern_issues_not_in_paragraph_order :
  ~ StronglySorted Z.le
      (map paragraph_index
           (filter is_pattern_issue
              (issues_found
                 (fst (analyze_document unit no_guidance Config.RED_FLAGS
                         (Docx.Readable
                            (document_of ["Governed by UAE law";
                                          "in the Dubai Court";
                                          "signature"]))
                         "board_resolution" tt))))).
Proof.
  assert (E : map paragraph_index
                  (filter is_pattern_issue
                     (issues_found
                        (fst (analyze_document unit no_guidance Config.RED_FLAGS
                                (Docx.Readable
                                   (document_of ["Governed by UAE law";
                                                 "in the Dubai Court";
                                                 "signature"]))
                                "board_resolution" tt))))
              = [1; 0]) by (vm_compute; reflexivity).
  rewrite E. intros H. inversion H as [|? ? _ Hf]; subst.
  inversion Hf as [|? ? Hle _]; subst. lia.
Qed.

(* ------------------------------------------------------------------------- *)
(** ** The signature check *)

(** The signature issue is emitted exactly when no signature keyword occurs in
    the joined text; it is one issue of Medium severity. *)
Lemma signature_check_emits_one_medium_issue
      (RagState : Type)
      (guide : string -> string -> RagState -> option string * RagState)
      (pds : list ParagraphData) (doc_type : string) (s : RagState) :
  (has_signature pds = true ->
   fst (signature_check RagState guide pds doc_type s) = [])
  /\ (has_signature pds = false ->
      exists i,
        fst (signature_check RagState guide pds doc_type s) = [i]
        /\ flag_type i = "missing_signature"
        /\ severity i = "Medium"
        /\ paragraph_index i = Z.of_nat (List.length pds) - 1).
Proof.
  pose proof (signature_check_view RagState guide pds doc_type s) as V.
  unfold signature_view in V. split; intros H; rewrite H in V.
  - destruct (fst (signature_check RagState guide pds doc_type s));
      [reflexivity | discriminate].
  - destruct (fst (signature_check RagState guide pds doc_type s)) as [|i [|j rest]];
      try discriminate.
    exists i. injection V as Hflag Hindex _ _ _ Hseverity _ _.
    repeat split; assumption.
Qed.

(** C6 at a document with an empty paragraph: the paragraphs are "Intro", an
    empty one and "Body", no signature keyword occurs, the last paragraph has
    index 2, and the signature issue is anchored at index 1. *)
Theorem C6_signature_issue_not_at_last_paragraph :
  map (fun i => (flag_type i, severity i, paragraph_index i))
      (issues_found
         (fst (analyze_document unit no_guidance Config.RED_FLAGS
                 (Docx.Readable (document_of ["Intro"; ""; "Body"]))
                 "board_resolution" tt)))
  = [("missing_signature", "Medium", 1)]
  /\ Z.of_nat (List.length (Docx.paragraphs (document_of ["Intro"; ""; "Body"]))) - 1
     = 2
  /\ has_signature
       (collect_paragraphs 0 (Docx.paragraphs (document_of ["Intro"; ""; "Body"])))
     = false.
Proof.
  repeat split; vm_compute; reflexivity.
Qed.

(* ------------------------------------------------------------------------- *)
(** ** The classifier *)

Lemma best_keyword_no_match (filename_lower : string) (keywords : list string) :
  forall score best_match,
    existsb (fun keyword => contains keyword filename_lower) keywords = false ->
    Classifier.best_keyword filename_lower keywords score best_match
    = (score, best_match).
Proof.
  induction keywords as [|keyword rest IH]; intros score best_match H;
    cbn [Classifier.best_keyword existsb] in *; [reflexivity|].
  apply orb_false_iff in H. destruct H as (H1 & H2).
  rewrite H1. now apply IH.
Qed.

Lemma max_from_all_zero {V : Type} (score : V -> Z) (rest : list (string * V)) :
  forall best,
    score (snd best) = 0 ->
    Forall (fun x => score (snd x) = 0) rest ->
    score (snd (Dict.max_from score best rest)) = 0.
Proof.
  induction rest as [|x rest IH]; intros best Hb Hr; cbn [Dict.max_from];
    [exact Hb|].
  inversion Hr as [|? ? Hx Hrest]; subst.
  destruct (score (snd best) <? score (snd x)); now apply IH.
Qed.

Lemma filename_scores_all_zero (mappings : list (string * list string))
      (filename : string) :
  filename_has_keyword mappings filename = false ->
  Forall (fun x : string * (Z * string) => fst (snd x) = 0)
         (map (fun '(doc_type, keywords) =>
                 (doc_type, Classifier.best_keyword (lower filename) keywords 0 ""))
              mappings).
Proof.
  unfold filename_has_keyword.
  induction mappings as [|[doc_type keywords] rest IH]; intros H;
    cbn [map existsb] in *; [constructor|].
  apply orb_false_iff in H. destruct H as (H1 & H2).
  constructor; [|now apply IH].
  cbn [snd]. now rewrite (best_keyword_no_match _ _ 0 "" H1).
Qed.

Lemma best_keyword_grows (filename_lower : string) (keywords : list string) :
  forall score best_match,
    score <= fst (Classifier.best_keyword filename_lower keywords score best_match).
Proof.
  induction keywords as [|keyword rest IH]; intros score best_match;
    cbn [Classifier.best_keyword]; [simpl; lia|].
  destruct (contains keyword filename_lower); [|apply IH].
  destruct (score <? len (replace " " "" keyword)) eqn:E; [|apply IH].
  apply Z.ltb_lt in E.
  specialize (IH (len (replace " " "" keyword)) keyword). lia.
Qed.

Lemma best_keyword_reaches (filename_lower keyword : string) (keywords : list string) :
  forall score best_match,
    In keyword keywords ->
    contains keyword filename_lower = true ->
    len (replace " " "" keyword)
    <= fst (Classifier.best_keyword filename_lower keywords score best_match).
Proof.
  induction keywords as [|k rest IH]; intros score best_match Hin Hc;
    [destruct Hin|].
  cbn [Classifier.best_keyword]. destruct Hin as [-> | Hin].
  - rewrite Hc.
    destruct (score <? len (replace " " "" keyword)) eqn:E.
    + apply best_keyword_grows.
    + apply Z.ltb_ge in E.
      pose proof (best_keyword_grows filename_lower rest score best_match). lia.
  - destruct (contains k filename_lower); [|now apply IH].
    destruct (score <? len (replace " " "" k)); now apply IH.
Qed.

Lemma max_from_bounds {V : Type} (score : V -> Z) (rest : list (string * V)) :
  forall best,
    score (snd best) <= score (snd (Dict.max_from score best rest))
    /\ Forall (fun x => score (snd x) <= score (snd (Dict.max_from score best rest)))
              rest.
Proof.
  induction rest as [|x rest IH]; intros best; cbn [Dict.max_from].
  - split; [lia | constructor].
  - destruct (score (snd best) <? score (snd x)) eqn:E.
    + apply Z.ltb_lt in E. destruct (IH x) as (H1 & H2).
      split; [lia|]. constructor; assumption.
    + apply Z.ltb_ge in E. destruct (IH best) as (H1 & H2).
      split; [assumption|]. constructor; [lia | assumption].
Qed.

(** When a keyword with a character other than the space occurs in the
    lower-cased file name, the file-name phase decides, and the content of the
    file plays no part. *)
Lemma classify_by_filename_ignores_content
      (mappings : list (string * list string)) (filename : string)
      (doc_type keyword : string) (keywords : list string)
      (file1 file2 : Docx.File) :
  In (doc_type, keywords) mappings ->
  In keyword keywords ->
  contains keyword (lower filename) = true ->
  0 < len (replace " " "" keyword) ->
  Classifier.classify_document_type mappings file1 filename
  = Classifier.classify_document_type mappings file2 filename.
Proof.
  intros Hty Hkw Hc Hpos. unfold Classifier.classify_document_type.
  set (scores := map (fun '(doc_type, keywords) =>
                        (doc_type,
                         Classifier.best_keyword (lower filename) keywords 0 ""))
                     mappings).
  assert (Hin : In (doc_type,
                    Classifier.best_keyword (lower filename) keywords 0 "") scores).
  { unfold scores. apply in_map_iff. exists (doc_type, keywords). split;
      [reflexivity | exact Hty]. }
  pose proof (best_keyword_reaches (lower filename) keyword keywords 0 "" Hkw Hc)
    as Hreach.
  destruct scores as [|x rest]; [destruct Hin|].
  cbn [Dict.max_by].
  destruct (max_from_bounds fst rest x) as (B1 & B2).
  assert (P : 0 < fst (snd (Dict.max_from fst x rest))).
  { destruct Hin as [-> | Hin].
    - cbn [snd] in B1. lia.
    - rewrite Forall_forall in B2. specialize (B2 _ Hin). cbn [snd] in B2. lia. }
  destruct (Dict.max_from fst x rest) as [best_doc_type [score best_match]].
  cbn [snd fst] in P. apply Z.ltb_lt in P. rewrite P. reflexivity.
Qed.

(** C8 (as the code has it). Classification is a total function. When the
    content of the document is unreadable (it cannot be opened, or it yields no
    text) and the lower-cased file name contains no keyword of the table, the
    result is [unknown]; when the file name contains a keyword, the result is
    the one that the file name gives for any content. *)
Theorem C8_unreadable_content_is_unknown_unless_named :
  forall (mappings : list (string * list string)) (file : Docx.File)
         (filename : string),
    Classifier.extract_text_from_docx file = "" ->
    (filename_has_keyword mappings filename = false ->
     Classifier.classify_document_type mappings file filename = "unknown")
    /\ (forall doc_type keywords keyword other,
          In (doc_type, keywords) mappings ->
          In keyword keywords ->
          contains keyword (lower filename) = true ->
          0 < len (replace " " "" keyword) ->
          Classifier.classify_document_type mappings file filename
          = Classifier.classify_document_type mappings other filename).
Proof.
  intros mappings file filename Htext. split.
  - intros Hname.
    unfold Classifier.classify_document_type.
    pose proof (filename_scores_all_zero mappings filename Hname) as Z0.
    destruct (map (fun '(doc_type, keywords) =>
                     (doc_type,
                      Classifier.best_keyword (lower filename) keywords 0 ""))
                  mappings) as [|x rest] eqn:E; cbn [Dict.max_by].
    + now rewrite Htext.
    + inversion Z0 as [|? ? Hx Hrest]; subst.
      pose proof (max_from_all_zero fst rest x Hx Hrest) as M.
      destruct (Dict.max_from fst x rest) as [best_doc_type [score best]].
      cbn [snd fst] in M. subst score. cbn. now rewrite Htext.
  - intros doc_type keywords keyword other.
    apply classify_by_filename_ignores_content.
Qed.

(** The theorem of C8 at a file that cannot be opened and whose name,
    [scan_001.docx], contains no keyword. *)
Lemma C8_witness :
  Classifier.classify_document_type Config.DOCUMENT_TYPE_MAPPINGS
    (Docx.Unreadable "Package not found") "scan_001.docx" = "unknown".
Proof.
  apply (proj1 (C8_unreadable_content_is_unknown_unless_named
                  Config.DOCUMENT_TYPE_MAPPINGS
                  (Docx.Unreadable "Package not found") "scan_001.docx"
                  eq_refl)).
  reflexivity.
Defined.

(** C8 as stated fails: a file that cannot be opened and is named
    [articles.docx] is classified by its name. *)
Lemma C8_unreadable_file_classified_by_name :
  Classifier.extract_text_from_docx (Docx.Unreadable "Package not found") = ""
  /\ Classifier.classify (Docx.Unreadable "Package not found") "articles.docx"
     = "articles_of_association"
  /\ Classifier.classify (Docx.Unreadable "Package not found") "articles.docx"
     <> "unknown".
Proof.
  repeat split; try (vm_compute; reflexivity).
  vm_compute. discriminate.
Qed.

(** C10. [_documents_match] relates every label to itself, and more generally
    any two labels that are equal up to case; it is not symmetric: "UBO
    Declaration Form" matches "Beneficial Owner Statement", whose lower-cased
    text contains "beneficial owner" and not "ubo", but not the other way
    round. *)
Theorem C10_documents_match_reflexive_not_symmetric :
  (forall a, Classifier._documents_match a a = true)
  /\ (forall a b, lower a = lower b -> Classifier._documents_match a b = true)
  /\ (contains "ubo" (lower "UBO Declaration Form") = true
      /\ contains "beneficial owner" (lower "Beneficial Owner Statement") = true
      /\ contains "ubo" (lower "Beneficial Owner Statement") = false
      /\ Classifier._documents_match "UBO Declaration Form"
                                     "Beneficial Owner Statement" = true
      /\ Classifier._documents_match "Beneficial Owner Statement"
                                     "UBO Declaration Form" = false)
  /\ ~ (forall a b, Classifier._documents_match a b
                    = Classifier._documents_match b a).
Proof.
  assert (R : forall a b, lower a = lower b -> Classifier._documents_match a b = true).
  { intros a b H. unfold Classifier._documents_match.
    rewrite H, String.eqb_refl. reflexivity. }
  split; [intros a; now apply R|].
  split; [exact R|].
  split; [repeat split; vm_compute; reflexivity|].
  intros H.
  specialize (H "UBO Declaration Form" "Beneficial Owner Statement").
  vm_compute in H. discriminate.
Qed.

(* ------------------------------------------------------------------------- *)
(** ** The checklist report *)

Lemma sort_required_filter (uploaded_readable : list string) :
  forall required_docs missing_docs found_docs,
    Classifier.sort_required uploaded_readable required_docs missing_docs found_docs
    = (missing_docs
       ++ filter (fun r => negb (existsb (fun u => Classifier._documents_match u r)
                                         uploaded_readable))
                 required_docs,
       found_docs
       ++ filter (fun r => existsb (fun u => Classifier._documents_match u r)
                                   uploaded_readable)
                 required_docs).
Proof.
  induction required_docs as [|r rest IH]; intros missing_docs found_docs;
    cbn [Classifier.sort_required filter].
  - now rewrite !app_nil_r.
  - destruct (existsb (fun u => Classifier._documents_match u r) uploaded_readable);
      cbn [negb]; rewrite IH, <- app_assoc; reflexivity.
Qed.

Lemma filter_split_permutation {A : Type} (f : A -> bool) (l : list A) :
  Permutation (filter f l ++ filter (fun x => negb (f x)) l) l.
Proof.
  induction l as [|a l IH]; cbn [filter]; [constructor|].
  destruct (f a); cbn [negb app].
  - now constructor.
  - etransitivity; [symmetry; apply Permutation_middle | now constructor].
Qed.

Lemma length_filter_le {A : Type} (f : A -> bool) (l : list A) :
  (List.length (filter f l) <= List.length l)%nat.
Proof.
  induction l as [|a l IH]; cbn [filter]; [lia|].
  destruct (f a); simpl; lia.
Qed.

(** On the required lists of up to six entries, which covers every configured
    process, forming [m / k] first and multiplying by 100 afterwards rounds to
    the same one-decimal percentage as [100 * m / k]. *)
Lemma percentage_agrees_up_to_six (m k : nat) :
  (1 <= k <= 6)%nat -> (m <= k)%nat ->
  PyNum.round1_float (PyNum.true_div (Z.of_nat m) (Z.of_nat k) * 100)%float
  = PyNum.round1_float (PyNum.true_div (100 * Z.of_nat m) (Z.of_nat k)).
Proof.
  intros Hk Hm.
  assert (Ck : (k = 1 \/ k = 2 \/ k = 3 \/ k = 4 \/ k = 5 \/ k = 6)%nat) by lia.
  assert (Cm : (m = 0 \/ m = 1 \/ m = 2 \/ m = 3 \/ m = 4 \/ m = 5 \/ m = 6)%nat)
    by lia.
  destruct Ck as [-> | [-> | [-> | [-> | [-> | ->]]]]];
    destruct Cm as [-> | [-> | [-> | [-> | [-> | [-> | ->]]]]]];
    first [ lia | vm_compute; reflexivity ].
Qed.

(** With 80 required documents of which 23 are found the two orders differ:
    [(23/80)*100] is 28.749999999999996 in binary64 and rounds to 28.7, while
    [100*23/80] is 28.75 and rounds to 28.8. No configured process has that
    many required documents. *)
Remark percentage_order_matters_at_23_of_80 :
  PyNum.round1_float (PyNum.true_div 23 80 * 100)%float = 28.7%float
  /\ PyNum.round1_float (PyNum.true_div (100 * 23) 80) = 28.8%float.
Proof. split; vm_compute; reflexivity. Qed.

Lemma configured_required_lengths (process_type : string)
      (checklist : Config.Checklist) :
  In (process_type, checklist) Config.PROCESS_CHECKLISTS ->
  (1 <= List.length (Classifier.required_of checklist) <= 6)%nat.
Proof.
  intros H. cbn [Config.PROCESS_CHECKLISTS In] in H.
  repeat (destruct H as [H|H]; [injection H as _ <-; simpl; lia|]).
  destruct H.
Qed.

(** C3. For a process of the table, the report sends every required label
    either to the found documents (when some uploaded document matches it) or to
    the missing ones (when none does), each list keeping the order of the
    required list: the two lists are disjoint and together they are the
    required list. When the required list is empty the completeness is 100;
    for every configured process it is round(100*m/k, 1), m found out of k
    required. *)
Theorem C3_checklist_partition_and_completeness :
  forall (process_checklists : list (string * Config.Checklist))
         (document_types : list string) (process_type : string)
         (checklist : Config.Checklist),
    Dict.get process_checklists process_type = Some checklist ->
    exists found missing,
      Classifier.found_documents
        (Classifier.generate_checklist_report process_checklists document_types
                                              process_type) = Some found
      /\ Classifier.missing_documents
           (Classifier.generate_checklist_report process_checklists document_types
                                                 process_type) = missing
      /\ found = filter (satisfied document_types) (Classifier.required_of checklist)
      /\ missing = filter (fun r => negb (satisfied document_types r))
                          (Classifier.required_of checklist)
      /\ (forall label,
            In label (Classifier.required_of checklist) ->
            (In label found /\ ~ In label missing)
            \/ (In label missing /\ ~ In label found))
      /\ (forall label,
            In label found \/ In label missing ->
            In label (Classifier.required_of checklist))
      /\ (forall label, ~ (In label found /\ In label missing))
      /\ Permutation (found ++ missing) (Classifier.required_of checklist)
      /\ (Classifier.required_of checklist = [] ->
          Classifier.completeness_percentage
            (Classifier.generate_checklist_report process_checklists document_types
                                                  process_type)
          = PyNum.PyInt 100)
      /\ (In (process_type, checklist) Config.PROCESS_CHECKLISTS ->
          Classifier.completeness_percentage
            (Classifier.generate_checklist_report process_checklists document_types
                                                  process_type)
          = PyNum.round1
              (PyNum.PyFloat
                 (PyNum.true_div
                    (100 * Z.of_nat (List.length found))
                    (Z.of_nat (List.length (Classifier.required_of checklist)))))).
Proof.
  intros process_checklists document_types process_type checklist Hget.
  unfold Classifier.generate_checklist_report. rewrite Hget.
  rewrite sort_required_filter. cbn [app].
  fold (satisfied document_types).
  set (required := Classifier.required_of checklist).
  set (found := filter (satisfied document_types) required).
  set (missing := filter (fun r => negb (satisfied document_types r)) required).
  change (filter (fun r => negb (existsb
            (fun u => Classifier._documents_match u r)
            (map Classifier._convert_doc_type_to_readable document_types))) required)
    with missing.
  change (filter (fun r => existsb
            (fun u => Classifier._documents_match u r)
            (map Classifier._convert_doc_type_to_readable document_types)) required)
    with found.
  exists found, missing.
  assert (Hf : forall label, In label found
                 <-> In label required /\ satisfied document_types label = true)
    by (intros; apply filter_In).
  assert (Hm : forall label, In label missing
                 <-> In label required /\ satisfied document_types label = false).
  { intros label. unfold missing. rewrite filter_In, negb_true_iff. reflexivity. }
  split; [reflexivity|]. split; [reflexivity|].
  split; [reflexivity|]. split; [reflexivity|].
  split.
  { intros label Hin. destruct (satisfied document_types label) eqn:E.
    - left. split; [apply Hf; tauto|]. intros H. apply Hm in H.
      destruct H as [_ H]. congruence.
    - right. split; [apply Hm; tauto|]. intros H. apply Hf in H.
      destruct H as [_ H]. congruence. }
  split.
  { intros label [H|H]; [apply Hf in H | apply Hm in H]; tauto. }
  split.
  { intros label [H1 H2]. apply Hf in H1. apply Hm in H2.
    destruct H1 as [_ H1]. destruct H2 as [_ H2]. congruence. }
  split; [apply filter_split_permutation|].
  split.
  { intros Hempty. fold required. rewrite Hempty. reflexivity. }
  intros Hconf.
  pose proof (configured_required_lengths process_type checklist Hconf) as Hk.
  fold required in Hk |- *.
  pose proof (length_filter_le (satisfied document_types) required) as Hle.
  fold found in Hle.
  destruct required as [|r rest] eqn:Er; [simpl in Hk; lia|].
  cbn [PyNum.round1 Classifier.completeness_percentage]. f_equal.
  apply percentage_agrees_up_to_six; assumption.
Qed.

(** The theorem of C3 at the process Company Incorporation with the articles
    and the UBO declaration uploaded: two labels found, three missing, 40 per
    cent. *)
Lemma C3_witness :
  exists found missing,
    Classifier.found_documents
      (Classifier.checklist_report ["articles_of_association"; "ubo_declaration"]
                                   "Company Incorporation") = Some found
    /\ Classifier.missing_documents
         (Classifier.checklist_report ["articles_of_association"; "ubo_declaration"]
                                      "Company Incorporation") = missing
    /\ found = ["Articles of Association"; "UBO Declaration Form"]
    /\ missing = ["Memorandum of Association"; "Incorporation Application Form";
                  "Register of Members and Directors"]
    /\ Classifier.completeness_percentage
         (Classifier.checklist_report ["articles_of_association"; "ubo_declaration"]
                                      "Company Incorporation")
       = PyNum.PyFloat 40%float.
Proof.
  destruct (C3_checklist_partition_and_completeness
              Config.PROCESS_CHECKLISTS
              ["articles_of_association"; "ubo_declaration"]
              "Company Incorporation"
              (Config.mkChecklist
                 (Some ["Memorandum of Association"; "Articles of Association";
                        "Incorporation Application Form"; "UBO Declaration Form";
                        "Register of Members and Directors"])
                 (Some ["Board Resolution for Incorporation";
                        "Shareholder Resolution"]))
              eq_refl)
    as (found & missing & Hf & Hm & Ef & Em & _ & _ & _ & _ & _ & Hpct).
  exists found, missing.
  split; [exact Hf|]. split; [exact Hm|].
  split; [rewrite Ef; vm_compute; reflexivity|].
  split; [rewrite Em; vm_compute; reflexivity|].
  unfold Classifier.checklist_report. rewrite Hpct; [|left; reflexivity].
  rewrite Ef. vm_compute. reflexivity.
Defined.

(* ------------------------------------------------------------------------- *)
(** ** The annotated copy *)

Lemma insert_at_app {A : Type} (x : A) (l r : list A) :
  Docx.insert_at (List.length l) x (l ++ r) = l ++ x :: r.
Proof.
  induction l as [|a l IH]; cbn [List.length app Docx.insert_at].
  - destruct r; reflexivity.
  - now rewrite IH.
Qed.

Lemma update_at_app {A : Type} (f : A -> A) (l : list A) (y : A) (r : list A) :
  Docx.update_at (List.length l) f (l ++ y :: r) = l ++ f y :: r.
Proof.
  induction l as [|a l IH]; cbn [List.length app Docx.update_at];
    [reflexivity | now rewrite IH].
Qed.

Lemma remove_at_app {A : Type} (l : list A) (y : A) (r : list A) :
  Docx.remove_at (List.length l) (l ++ y :: r) = l ++ r.
Proof.
  induction l as [|a l IH]; cbn [List.length app Docx.remove_at];
    [reflexivity | now rewrite IH].
Qed.

Lemma insert_at_inside {A : Type} (x : A) (r : list A) :
  forall (k : nat) (l : list A),
    (k <= List.length l)%nat ->
    Docx.insert_at k x (l ++ r) = Docx.insert_at k x l ++ r.
Proof.
  induction k as [|k IH]; intros l Hk; [reflexivity|].
  destruct l as [|a l]; [simpl in Hk; lia|].
  cbn [app Docx.insert_at]. rewrite IH; [reflexivity | simpl in Hk; lia].
Qed.

Lemma update_at_inside {A : Type} (f : A -> A) (r : list A) :
  forall (k : nat) (l : list A),
    (k < List.length l)%nat ->
    Docx.update_at k f (l ++ r) = Docx.update_at k f l ++ r.
Proof.
  induction k as [|k IH]; intros [|a l] Hk; simpl in Hk; try lia;
    cbn [app Docx.update_at]; [reflexivity|].
  rewrite IH; [reflexivity | lia].
Qed.

Lemma insert_at_map {A B : Type} (g : A -> B) (x : A) :
  forall (k : nat) (l : list A),
    Docx.insert_at k (g x) (map g l) = map g (Docx.insert_at k x l).
Proof.
  induction k as [|k IH]; intros [|a l]; cbn [map Docx.insert_at];
    try reflexivity.
  now rewrite IH.
Qed.

Lemma update_at_paragraphs (f : Docx.Paragraph -> Docx.Paragraph) :
  forall (k : nat) (ps : list Docx.Paragraph),
    Docx.update_at k
      (fun b => match b with Docx.BPara p => Docx.BPara (f p) | _ => b end)
      (map Docx.BPara ps)
    = map Docx.BPara (Docx.update_at k f ps).
Proof.
  induction k as [|k IH]; intros [|p ps]; cbn [map Docx.update_at];
    try reflexivity.
  now rewrite IH.
Qed.

Lemma length_update_at {A : Type} (f : A -> A) :
  forall (k : nat) (l : list A), List.length (Docx.update_at k f l) = List.length l.
Proof.
  induction k as [|k IH]; intros [|a l]; cbn [Docx.update_at List.length];
    try reflexivity.
  now rewrite IH.
Qed.

Lemma nth_error_insert_at_here {A : Type} (x : A) :
  forall (k : nat) (l : list A),
    (k <= List.length l)%nat -> nth_error (Docx.insert_at k x l) k = Some x.
Proof.
  induction k as [|k IH]; intros l Hk; [reflexivity|].
  destruct l as [|a l]; [simpl in Hk; lia|].
  cbn [Docx.insert_at nth_error]. apply IH. simpl in Hk. lia.
Qed.

Lemma nth_error_insert_at_after {A : Type} (x : A) :
  forall (k : nat) (l : list A),
    (k <= List.length l)%nat ->
    nth_error (Docx.insert_at k x l) (S k) = nth_error l k.
Proof.
  induction k as [|k IH]; intros l Hk; [reflexivity|].
  destruct l as [|a l]; [simpl in Hk; lia|].
  cbn [Docx.insert_at nth_error]. apply IH. simpl in Hk. lia.
Qed.

Lemma nth_error_insert_at_before {A : Type} (x : A) :
  forall (k j : nat) (l : list A),
    (j < k)%nat -> (k <= List.length l)%nat ->
    nth_error (Docx.insert_at k x l) j = nth_error l j.
Proof.
  induction k as [|k IH]; intros j l Hj Hk; [lia|].
  destruct l as [|a l]; [simpl in Hk; lia|].
  cbn [Docx.insert_at]. destruct j as [|j]; [reflexivity|].
  cbn [nth_error]. apply IH; simpl in Hk; lia.
Qed.

Lemma nth_error_update_at_other {A : Type} (f : A -> A) :
  forall (k j : nat) (l : list A),
    j <> k -> nth_error (Docx.update_at k f l) j = nth_error l j.
Proof.
  induction k as [|k IH]; intros j [|a l] Hj; cbn [Docx.update_at];
    try reflexivity.
  - destruct j; [congruence | reflexivity].
  - destruct j; [reflexivity|]. cbn [nth_error]. apply IH. congruence.
Qed.

Lemma nth_error_update_at_here {A : Type} (f : A -> A) :
  forall (k : nat) (l : list A),
    nth_error (Docx.update_at k f l) k = option_map f (nth_error l k).
Proof.
  induction k as [|k IH]; intros [|a l]; cbn [Docx.update_at nth_error option_map];
    try reflexivity.
  apply IH.
Qed.

Lemma paragraphs_only (ps : list Docx.Paragraph) :
  Docx.paragraphs (map Docx.BPara ps ++ [Docx.BSectPr]) = ps.
Proof.
  induction ps as [|p ps IH]; cbn [map app Docx.paragraphs];
    [reflexivity | now rewrite IH].
Qed.

Lemma find_sectPr_only (ps : list Docx.Paragraph) :
  Docx.find_sectPr (map Docx.BPara ps ++ [Docx.BSectPr]) = Some (List.length ps).
Proof.
  induction ps as [|p ps IH]; cbn [map app Docx.find_sectPr List.length];
    [reflexivity | now rewrite IH].
Qed.

Lemma body_index_only (ps : list Docx.Paragraph) :
  forall i, (i < List.length ps)%nat ->
            Docx.body_index (map Docx.BPara ps ++ [Docx.BSectPr]) i = Some i.
Proof.
  induction ps as [|p ps IH]; intros i Hi; simpl in Hi; [lia|].
  cbn [map app Docx.body_index]. destruct i as [|i]; [reflexivity|].
  rewrite IH; [reflexivity | lia].
Qed.

(** Adding a paragraph to a body of paragraphs and writing it. *)
Lemma add_paragraph_only (ps : list Docx.Paragraph) (q : Docx.Paragraph) :
  Docx.update_paragraph
    (snd (Docx.add_paragraph (map Docx.BPara ps ++ [Docx.BSectPr])))
    (fun _ => q)
    (fst (Docx.add_paragraph (map Docx.BPara ps ++ [Docx.BSectPr])))
  = map Docx.BPara (ps ++ [q]) ++ [Docx.BSectPr]
  /\ Docx.add_paragraph (map Docx.BPara ps ++ [Docx.BSectPr])
     = (map Docx.BPara (ps ++ [[]]) ++ [Docx.BSectPr], List.length ps).
Proof.
  unfold Docx.add_paragraph, Docx.update_paragraph.
  rewrite find_sectPr_only. cbn [fst snd].
  rewrite <- (length_map Docx.BPara ps) at 1 2 3.
  rewrite insert_at_app, update_at_app.
  rewrite !map_app, <- !app_assoc. cbn [map app].
  split; reflexivity.
Qed.

Lemma update_paragraph_last (ps : list Docx.Paragraph) (q0 : Docx.Paragraph)
      (f : Docx.Paragraph -> Docx.Paragraph) :
  Docx.update_paragraph (List.length ps) f
    (map Docx.BPara (ps ++ [q0]) ++ [Docx.BSectPr])
  = map Docx.BPara (ps ++ [f q0]) ++ [Docx.BSectPr].
Proof.
  unfold Docx.update_paragraph.
  rewrite !map_app, <- !app_assoc. cbn [map app].
  rewrite <- (length_map Docx.BPara ps) at 1.
  now rewrite update_at_app.
Qed.

Lemma insert_new_front (doc : Docx.Document) (b c : Docx.Block) :
  Docx.insert_new (c :: doc) 0 b = b :: c :: doc.
Proof.
  unfold Docx.insert_new, Docx.py_index.
  replace (0 <? Z.of_nat (List.length (c :: doc))) with true
    by (symmetry; apply Z.ltb_lt; simpl List.length; lia).
  reflexivity.
Qed.

Section AnnotatedCopy.

Variable _get_current_date : nat -> string.
Variable set_order : list string -> list string.

Lemma add_review_header_only (ps : list Docx.Paragraph) (analysis : Analysis) :
  ps <> [] ->
  exists header summary separator,
    Processor._add_review_header _get_current_date
      (map Docx.BPara ps ++ [Docx.BSectPr]) analysis
    = Some (map Docx.BPara (header :: ps ++ [summary; separator; []])
            ++ [Docx.BSectPr])
    /\ Docx.text header = "=== ADGM COMPLIANCE REVIEW ===".
Proof.
  intros Hne. unfold Processor._add_review_header.
  rewrite paragraphs_only.
  destruct ps as [|p ps]; [congruence|].
  cbn [map app]. rewrite insert_new_front.
  match goal with
  | |- context [Docx.update_paragraph 0 ?f (Docx.BPara [] :: ?r)] =>
      change (Docx.update_paragraph 0 f (Docx.BPara [] :: r))
        with (map Docx.BPara (f [] :: p :: ps) ++ [Docx.BSectPr])
  end.
  cbv beta.
  rewrite (proj2 (add_paragraph_only _ [])). cbv beta iota.
  rewrite update_paragraph_last.
  rewrite (proj2 (add_paragraph_only _ [])). cbv beta iota.
  rewrite update_paragraph_last.
  rewrite (proj2 (add_paragraph_only _ [])). cbv beta iota.
  eexists _, _, _. split.
  - rewrite <- !app_assoc. reflexivity.
  - reflexivity.
Qed.

Lemma add_comment_paragraph_only (qs : list Docx.Paragraph) (k : nat)
      (comment_text severity : string) :
  (k < List.length qs)%nat ->
  Processor._add_comment_paragraph (map Docx.BPara qs ++ [Docx.BSectPr])
                                   (Z.of_nat k) comment_text severity
  = map Docx.BPara (Docx.insert_at k (comment_paragraph comment_text severity) qs)
    ++ [Docx.BSectPr].
Proof.
  intros Hk. unfold Processor._add_comment_paragraph.
  rewrite (proj2 (add_paragraph_only _ [])). cbv beta iota.
  rewrite !update_paragraph_last. cbv beta.
  change (Docx.update_first_run _ (Docx.set_text comment_text))
    with (comment_paragraph comment_text severity).
  set (c := comment_paragraph comment_text severity).
  rewrite paragraphs_only, length_app. cbn [List.length].
  replace (Z.of_nat k <? Z.of_nat (List.length qs + 1) - 1) with true
    by (symmetry; apply Z.ltb_lt; lia).
  unfold Docx.insert_child.
  assert (N : nth_error (map Docx.BPara (qs ++ [c]) ++ [Docx.BSectPr])
                        (List.length qs) = Some (Docx.BPara c)).
  { rewrite map_app, <- app_assoc. cbn [map app].
    rewrite nth_error_app2; rewrite length_map; [|lia].
    now rewrite Nat.sub_diag. }
  rewrite N.
  assert (P : Docx.py_index
                (List.length (map Docx.BPara (qs ++ [c]) ++ [Docx.BSectPr]))
                (Z.of_nat k) = Some k).
  { unfold Docx.py_index. rewrite length_app, length_map, length_app.
    cbn [List.length].
    replace (0 <=? Z.of_nat k) with true by (symmetry; apply Z.leb_le; lia).
    replace (Z.of_nat k <? Z.of_nat (List.length qs + 1 + 1)) with true
      by (symmetry; apply Z.ltb_lt; lia).
    cbn [andb]. now rewrite Nat2Z.id. }
  rewrite P.
  replace (Nat.eqb k (List.length qs)) with false
    by (symmetry; apply Nat.eqb_neq; lia).
  replace (Nat.ltb (List.length qs) k) with false
    by (symmetry; apply Nat.ltb_ge; lia).
  rewrite map_app, <- app_assoc. cbn [map app].
  rewrite <- (length_map Docx.BPara qs) at 1.
  rewrite remove_at_app.
  rewrite insert_at_inside by (rewrite length_map; lia).
  now rewrite insert_at_map.
Qed.

Lemma annotate_single_issue (qs : list Docx.Paragraph) (i0 : Issue) (k : nat) :
  paragraph_index i0 = Z.of_nat k ->
  (k + 1 < List.length qs)%nat ->
  Processor.annotate_issues (map Docx.BPara qs ++ [Docx.BSectPr]) [i0]
  = Some (map Docx.BPara
              (Docx.insert_at (k + 1)
                 (comment_paragraph (Processor._format_comment i0) (severity i0))
                 (Docx.update_at k (Processor._highlight_paragraph (severity i0)) qs))
          ++ [Docx.BSectPr]).
Proof.
  intros Hi Hk. cbn [Processor.annotate_issues].
  rewrite paragraphs_only, Hi.
  replace (Z.of_nat k <? Z.of_nat (List.length qs)) with true
    by (symmetry; apply Z.ltb_lt; lia).
  unfold Docx.py_index.
  replace (0 <=? Z.of_nat k) with true by (symmetry; apply Z.leb_le; lia).
  replace (Z.of_nat k <? Z.of_nat (List.length qs)) with true
    by (symmetry; apply Z.ltb_lt; lia).
  cbn [andb]. rewrite Nat2Z.id.
  rewrite body_index_only by lia.
  unfold Docx.update_paragraph.
  rewrite update_at_inside by (rewrite length_map; lia).
  rewrite update_at_paragraphs.
  replace (Z.of_nat k + 1) with (Z.of_nat (k + 1)) by lia.
  rewrite add_comment_paragraph_only by (rewrite length_update_at; lia).
  reflexivity.
Qed.

Lemma add_compliance_summary_only (qs : list Docx.Paragraph) (analysis : Analysis) :
  exists separator title summary,
    Processor._add_compliance_summary _get_current_date set_order
      (map Docx.BPara qs ++ [Docx.BSectPr]) analysis
    = map Docx.BPara (qs ++ [[]; separator; title; summary]) ++ [Docx.BSectPr].
Proof.
  unfold Processor._add_compliance_summary.
  rewrite (proj2 (add_paragraph_only _ [])). cbv beta iota.
  rewrite (proj2 (add_paragraph_only _ [])). cbv beta iota.
  rewrite update_paragraph_last.
  rewrite (proj2 (add_paragraph_only _ [])). cbv beta iota.
  rewrite update_paragraph_last.
  rewrite (proj2 (add_paragraph_only _ [])). cbv beta iota.
  rewrite update_paragraph_last.
  eexists _, _, _. rewrite <- !app_assoc. reflexivity.
Qed.

(** What the builder does with the first issue of a document without tables,
    for every valid paragraph index [k]: the paragraph at position [k] of the
    copy (the header when [k = 0], the original paragraph [k - 1] otherwise) is
    highlighted, the comment is paragraph [k + 1], and the flagged original
    paragraph [k] comes after the comment, as paragraph [k + 2], untouched. *)
Lemma reviewed_copy_of_one_issue
      (ps : list Docx.Paragraph) (analysis : Analysis) (i0 : Issue) (k : nat)
      (filename : string) :
  issues_found analysis = [i0] ->
  paragraph_index i0 = Z.of_nat k ->
  (k < List.length ps)%nat ->
  exists out header,
    Processor._create_reviewed_document _get_current_date set_order
      (Docx.Readable (map Docx.BPara ps ++ [Docx.BSectPr])) filename analysis
    = Some (("reviewed_" ++ filename)%string, out)
    /\ Docx.text header = "=== ADGM COMPLIANCE REVIEW ==="
    /\ nth_error (Docx.paragraphs out) k
       = option_map (Processor._highlight_paragraph (severity i0))
                    (nth_error (header :: ps) k)
    /\ nth_error (Docx.paragraphs out) (k + 1)
       = Some (comment_paragraph (Processor._format_comment i0) (severity i0))
    /\ nth_error (Docx.paragraphs out) (k + 2) = nth_error ps k.
Proof.
  intros Hissues Hindex Hk.
  assert (Hne : ps <> []) by (destruct ps; [simpl in Hk; lia | discriminate]).
  unfold Processor._create_reviewed_document.
  destruct (add_review_header_only ps analysis Hne)
    as (header & summary & separator & -> & Hheader).
  rewrite Hissues.
  set (qs := header :: ps ++ [summary; separator; []]).
  assert (Lq : List.length qs = (List.length ps + 4)%nat).
  { unfold qs. cbn [List.length]. rewrite length_app. cbn [List.length]. lia. }
  rewrite (annotate_single_issue qs i0 k Hindex) by lia.
  set (c := comment_paragraph (Processor._format_comment i0) (severity i0)).
  set (highlighted :=
         Docx.update_at k (Processor._highlight_paragraph (severity i0)) qs).
  assert (Lh : List.length highlighted = (List.length ps + 4)%nat)
    by (unfold highlighted; now rewrite length_update_at).
  destruct (add_compliance_summary_only
              (Docx.insert_at (k + 1) c highlighted) analysis)
    as (sep2 & title2 & summary2 & ->).
  eexists _, header. split; [reflexivity|]. split; [exact Hheader|].
  rewrite paragraphs_only.
  assert (Li : (k + 2 < List.length (Docx.insert_at (k + 1) c highlighted))%nat).
  { assert (G : forall (A : Type) (x : A) (n : nat) (l : list A),
                  (n <= List.length l)%nat ->
                  List.length (Docx.insert_at n x l) = S (List.length l)).
    { induction n as [|n IH]; intros l Hl; [reflexivity|].
      destruct l as [|a l]; [simpl in Hl; lia|].
      cbn [Docx.insert_at List.length]. rewrite IH; [reflexivity | simpl in Hl; lia]. }
    rewrite G; lia. }
  rewrite !nth_error_app1 by lia.
  split; [|split].
  - rewrite nth_error_insert_at_before by lia.
    unfold highlighted. rewrite nth_error_update_at_here. f_equal.
    unfold qs. change (header :: ps ++ [summary; separator; []])
      with ((header :: ps) ++ [summary; separator; []]).
    apply nth_error_app1. simpl. lia.
  - apply nth_error_insert_at_here. lia.
  - replace (k + 2)%nat with (S (k + 1)) by lia.
    rewrite nth_error_insert_at_after by lia.
    unfold highlighted. rewrite nth_error_update_at_other by lia.
    unfold qs. replace (k + 1)%nat with (S k) by lia. cbn [nth_error].
    apply nth_error_app1. exact Hk.
Qed.

End AnnotatedCopy.

(** C1 at a document of three paragraphs, "Preamble", "in the Dubai Court" and
    "signature": the detector flags paragraph 1 ("in the Dubai Court"). In the
    reviewed copy the header is paragraph 0, "Preamble" is paragraph 1 and is
    the one highlighted, the comment is paragraph 2, and the flagged text
    follows the comment as paragraph 3, without highlight. *)
Theorem C1_comment_lands_before_the_flagged_paragraph :
  forall (_get_current_date : nat -> string)
         (set_order : list string -> list string),
    map (fun i => (flag_type i, paragraph_index i, paragraph_text i))
        (issues_found
           (fst (analyze_document unit no_guidance Config.RED_FLAGS
                   (Docx.Readable
                      (document_of ["Preamble"; "in the Dubai Court"; "signature"]))
                   "board_resolution" tt)))
    = [("jurisdiction", 1, "in the Dubai Court")]
    /\ option_map
         (fun saved =>
            (fst saved,
             firstn 5 (texts_of (snd saved)),
             firstn 5 (highlights_of (snd saved))))
         (Processor._create_reviewed_document _get_current_date set_order
            (Docx.Readable
               (document_of ["Preamble"; "in the Dubai Court"; "signature"]))
            "a.docx"
            (fst (analyze_document unit no_guidance Config.RED_FLAGS
                    (Docx.Readable
                       (document_of ["Preamble"; "in the Dubai Court"; "signature"]))
                    "board_resolution" tt)))
       = Some ("reviewed_a.docx",
               [ "=== ADGM COMPLIANCE REVIEW ===";
                 "Preamble";
                 Processor._format_comment
                   (mkIssue "jurisdiction" 1 "in the Dubai Court"
                      "Jurisdiction must be ADGM Courts, not UAE federal or other emirate courts"
                      (Some "dubai court") "High" "Replace with: ADGM Courts" None
                      "ADGM Courts and Civil Procedures Rules");
                 "in the Dubai Court";
                 "signature" ],
               [ None; Some Docx.RED; None; None; None ]).
Proof.
  intros. split; vm_compute; reflexivity.
Qed.

(* ------------------------------------------------------------------------- *)
(** ** Further properties: the choice of a maximum *)

Import Notions.

Lemma max_from_in {V : Type} (score : V -> Z) (rest : list (string * V)) :
  forall best, In (Dict.max_from score best rest) (best :: rest).
Proof.
  induction rest as [|x rest IH]; intros best; cbn [Dict.max_from]; [now left|].
  destruct (score (snd best) <? score (snd x)).
  - right. apply IH.
  - destruct (IH best) as [H|H]; [now left | right; now right].
Qed.

(** The item chosen by [max] is the first of those with the greatest score. *)
Lemma max_from_first {V : Type} (score : V -> Z) (rest : list (string * V)) :
  forall best,
  exists before after,
    best :: rest = before ++ Dict.max_from score best rest :: after
    /\ Forall (fun x => score (snd x)
                        < score (snd (Dict.max_from score best rest))) before
    /\ Forall (fun x => score (snd x)
                        <= score (snd (Dict.max_from score best rest))) after.
Proof.
  induction rest as [|x rest IH]; intros best; cbn [Dict.max_from].
  - exists [], []. repeat split; constructor.
  - destruct (score (snd best) <? score (snd x)) eqn:E.
    + apply Z.ltb_lt in E.
      destruct (IH x) as (before & after & Heq & Hb & Ha).
      destruct (max_from_bounds score rest x) as (Hx & _).
      exists (best :: before), after. repeat split.
      * cbn [app]. now rewrite <- Heq.
      * constructor; [lia | exact Hb].
      * exact Ha.
    + apply Z.ltb_ge in E.
      destruct (IH best) as (before & after & Heq & Hb & Ha).
      destruct before as [|b before].
      * cbn [app] in Heq. injection Heq as Hw Hrest.
        exists [], (x :: after). repeat split.
        -- cbn [app]. rewrite <- Hw. do 2 f_equal. exact Hrest.
        -- constructor.
        -- constructor; [rewrite <- Hw; exact E | exact Ha].
      * cbn [app] in Heq. injection Heq as Hw Hrest. subst b.
        exists (best :: x :: before), after. repeat split.
        -- cbn [app]. do 2 f_equal. exact Hrest.
        -- inversion Hb as [|? ? Hbest Hbefore]; subst.
           constructor; [exact Hbest|]. constructor; [lia | exact Hbefore].
        -- exact Ha.
Qed.

Lemma get_of_distinct_keys {V : Type} (d : list (string * V)) (k : string) (v : V) :
  NoDup (map fst d) -> In (k, v) d -> Dict.get d k = Some v.
Proof.
  induction d as [|[k' v'] d IH]; intros Hnd Hin; [destruct Hin|].
  cbn [map fst] in Hnd. inversion Hnd as [|? ? Hnotin Hnd']; subst.
  cbn [Dict.get]. destruct Hin as [Heq | Hin].
  - injection Heq as -> ->. now rewrite String.eqb_refl.
  - destruct (String.eqb k k') eqn:E; [|now apply IH].
    apply String.eqb_eq in E. subst k'.
    exfalso. apply Hnotin. apply (in_map fst) in Hin. exact Hin.
Qed.

(* ------------------------------------------------------------------------- *)
(** ** Further properties: process detection *)

Lemma process_score_bounds (required_docs : list string) :
  forall document_types score,
    score <= Classifier.process_score required_docs document_types score
          <= score + Z.of_nat (List.length document_types).
Proof.
  induction document_types as [|d rest IH]; intros score;
    cbn [Classifier.process_score List.length]; [lia|].
  destruct (existsb _ required_docs).
  - specialize (IH (score + 1)). lia.
  - specialize (IH score). lia.
Qed.

Lemma process_score_positive (required_docs : list string) :
  forall document_types score,
    score < Classifier.process_score required_docs document_types score ->
    exists doc_type required_doc,
      In doc_type document_types
      /\ In required_doc required_docs
      /\ Classifier._documents_match
           (Classifier._convert_doc_type_to_readable doc_type) required_doc = true.
Proof.
  induction document_types as [|d rest IH]; intros score H;
    cbn [Classifier.process_score] in H; [lia|].
  destruct (existsb (fun required_doc =>
              Classifier._documents_match
                (Classifier._convert_doc_type_to_readable d) required_doc)
              required_docs) eqn:E.
  - apply existsb_exists in E. destruct E as (r & Hr & Hm).
    exists d, r. repeat split; [now left | exact Hr | exact Hm].
  - destruct (IH score H) as (d' & r & Hd & Hr & Hm).
    exists d', r. repeat split; [now right | exact Hr | exact Hm].
Qed.

Lemma process_scores_in_range (process_checklists : list (string * Config.Checklist))
      (document_types : list string) :
  Forall (fun entry =>
            0 <= score_of_process document_types (snd entry)
              <= Z.of_nat (List.length document_types))
         process_checklists.
Proof.
  apply Forall_forall. intros entry _. unfold score_of_process.
  pose proof (process_score_bounds (Classifier.required_of (snd entry))
                                   document_types 0).
  lia.
Qed.

Lemma detect_process_type_cases
      (process_checklists : list (string * Config.Checklist))
      (document_types : list string) :
  (Classifier.detect_process_type process_checklists document_types
   = "Unknown Process"
   /\ Forall (fun entry => score_of_process document_types (snd entry) = 0)
             process_checklists)
  \/ (exists before process_name checklist after,
        process_checklists = before ++ (process_name, checklist) :: after
        /\ Classifier.detect_process_type process_checklists document_types
           = process_name
        /\ 0 < score_of_process document_types checklist
        /\ Forall (fun entry => score_of_process document_types (snd entry)
                                < score_of_process document_types checklist)
                  before
        /\ Forall (fun entry => score_of_process document_types (snd entry)
                                <= score_of_process document_types checklist)
                  after).
Proof.
  rename process_checklists into table. rename document_types into docs.
  pose proof (process_scores_in_range table docs) as B.
  unfold Classifier.detect_process_type.
  set (f := fun '(process_name, checklist) =>
              (process_name : string,
               Classifier.process_score (Classifier.required_of checklist) docs 0)).
  assert (Hf : forall e, snd (f e) = score_of_process docs (snd e))
    by (intros [n c]; reflexivity).
  assert (Hn : forall e, fst (f e) = fst e) by (intros [n c]; reflexivity).
  destruct table as [|e0 table]; [left; split; [reflexivity | constructor]|].
  cbn [map Dict.max_by].
  destruct (max_from_first (fun score : Z => score) (map f table) (f e0))
    as (before' & after' & Heq & Hb & Ha).
  change (f e0 :: map f table) with (map f (e0 :: table)) in Heq.
  apply map_eq_app in Heq. destruct Heq as (before & rest & Ht & Hmb & Hmr).
  apply map_eq_cons in Hmr. destruct Hmr as (w & after & Hrest & Hw & Hma).
  subst rest before' after'.
  rewrite <- Hw in Hb, Ha |- *. rewrite Hf in Hb, Ha.
  destruct (f w) as [best_process score] eqn:Efw.
  assert (Hscore : score = score_of_process docs (snd w))
    by (rewrite <- Hf, Efw; reflexivity).
  assert (Hname : best_process = fst w) by (rewrite <- Hn, Efw; reflexivity).
  destruct (0 <? score) eqn:Epos.
  - right. apply Z.ltb_lt in Epos. destruct w as [wn wc].
    cbn [fst snd] in *. subst best_process.
    exists before, wn, wc, after. repeat split.
    + exact Ht.
    + lia.
    + rewrite Forall_map in Hb. eapply Forall_impl; [|exact Hb].
      intros e He. cbv beta in He. rewrite Hf in He. exact He.
    + rewrite Forall_map in Ha. eapply Forall_impl; [|exact Ha].
      intros e He. cbv beta in He. rewrite Hf in He. exact He.
  - left. split; [reflexivity|]. apply Z.ltb_ge in Epos.
    rewrite Forall_map in Hb, Ha. rewrite Ht.
    rewrite Forall_forall in B.
    apply Forall_app. split; [|constructor].
    + apply Forall_forall. intros e He. rewrite Forall_forall in Hb.
      specialize (Hb e He). cbv beta in Hb. rewrite Hf in Hb.
      assert (In e (e0 :: table)) by (rewrite Ht; apply in_or_app; now left).
      specialize (B e H). lia.
    + assert (In w (e0 :: table))
        by (rewrite Ht; apply in_or_app; right; now left).
      specialize (B w H). lia.
    + apply Forall_forall. intros e He. rewrite Forall_forall in Ha.
      specialize (Ha e He). cbv beta in Ha. rewrite Hf in Ha.
      assert (In e (e0 :: table))
        by (rewrite Ht; apply in_or_app; right; now right).
      specialize (B e H). lia.
Qed.

(** X1. [detect_process_type] either answers "Unknown Process", and then no
    uploaded document matches a required document of any process, or it
    answers the name of an entry of the table whose score is positive, greater
    than the score of every entry before it and at least the score of every
    entry after it. A score counts uploaded documents, so it lies between 0
    and their number; with nothing uploaded the answer is "Unknown Process". *)
Theorem X1_detect_process_type_picks_first_best :
  forall (process_checklists : list (string * Config.Checklist))
         (document_types : list string),
    ((Classifier.detect_process_type process_checklists document_types
      = "Unknown Process"
      /\ Forall (fun entry => score_of_process document_types (snd entry) = 0)
                process_checklists)
     \/ (exists before process_name checklist after,
           process_checklists = before ++ (process_name, checklist) :: after
           /\ Classifier.detect_process_type process_checklists document_types
              = process_name
           /\ 0 < score_of_process document_types checklist
           /\ Forall (fun entry => score_of_process document_types (snd entry)
                                   < score_of_process document_types checklist)
                     before
           /\ Forall (fun entry => score_of_process document_types (snd entry)
                                   <= score_of_process document_types checklist)
                     after))
    /\ Forall (fun entry =>
                 0 <= score_of_process document_types (snd entry)
                   <= Z.of_nat (List.length document_types))
              process_checklists
    /\ (document_types = [] ->
        Classifier.detect_process_type process_checklists document_types
        = "Unknown Process").
Proof.
  intros table docs.
  pose proof (detect_process_type_cases table docs) as D.
  split; [exact D|]. split; [apply process_scores_in_range|].
  intros ->. destruct D as [[H _]|(before & n & c & after & _ & _ & Hpos & _)];
    [exact H|].
  unfold score_of_process in Hpos. cbn in Hpos. lia.
Qed.

Lemma configured_process_names_distinct :
  NoDup (map fst Config.PROCESS_CHECKLISTS).
Proof.
  cbn [map fst Config.PROCESS_CHECKLISTS].
  repeat (constructor; [simpl; intuition discriminate|]). constructor.
Qed.

(** X2. In the engine as it is configured, process detection and the checklist
    report agree: when the detected process is "Unknown Process" the report is
    the one for an unknown process (nothing found, nothing missing, 0 per
    cent); otherwise the detected process is a configured one and the report
    for it lists at least one found document. *)
Theorem X2_detected_process_has_a_found_document :
  forall (document_types : list string),
    (Classifier.detect_process document_types = "Unknown Process"
     /\ Classifier.status
          (Classifier.checklist_report document_types
             (Classifier.detect_process document_types))
        = "Unknown process type"
     /\ Classifier.found_documents
          (Classifier.checklist_report document_types
             (Classifier.detect_process document_types)) = None
     /\ Classifier.missing_documents
          (Classifier.checklist_report document_types
             (Classifier.detect_process document_types)) = []
     /\ Classifier.completeness_percentage
          (Classifier.checklist_report document_types
             (Classifier.detect_process document_types)) = PyNum.PyInt 0)
    \/ (exists checklist found,
          In (Classifier.detect_process document_types, checklist)
             Config.PROCESS_CHECKLISTS
          /\ Classifier.found_documents
               (Classifier.checklist_report document_types
                  (Classifier.detect_process document_types)) = Some found
          /\ found <> []
          /\ Classifier.required_documents
               (Classifier.checklist_report document_types
                  (Classifier.detect_process document_types))
             = Some (Z.of_nat (List.length (Classifier.required_of checklist)))).
Proof.
  intros docs. unfold Classifier.detect_process, Classifier.checklist_report.
  destruct (detect_process_type_cases Config.PROCESS_CHECKLISTS docs)
    as [[-> _] | (before & n & c & after & Ht & -> & Hpos & _)].
  - left. repeat split.
  - right. exists c.
    assert (Hin : In (n, c) Config.PROCESS_CHECKLISTS)
      by (rewrite Ht; apply in_or_app; right; now left).
    pose proof (get_of_distinct_keys _ n c configured_process_names_distinct Hin)
      as Hget.
    unfold Classifier.generate_checklist_report. rewrite Hget.
    rewrite sort_required_filter. cbn [app].
    eexists. split; [exact Hin|]. split; [reflexivity|]. split; [|reflexivity].
    unfold score_of_process in Hpos.
    destruct (process_score_positive _ _ _ Hpos) as (d & r & Hd & Hr & Hm).
    intros Hempty.
    assert (Hfound : In r (filter
              (fun r0 => existsb (fun u => Classifier._documents_match u r0)
                           (map Classifier._convert_doc_type_to_readable docs))
              (Classifier.required_of c))).
    { apply filter_In. split; [exact Hr|]. apply existsb_exists.
      exists (Classifier._convert_doc_type_to_readable d). split; [|exact Hm].
      now apply in_map. }
    rewrite Hempty in Hfound. destruct Hfound.
Qed.

(* ------------------------------------------------------------------------- *)
(** ** Further properties: classification *)

Lemma specific_patterns_closed (text_content : string) :
  In (Classifier.specific_patterns text_content) (cascade_types ++ ["unknown"]).
Proof.
  unfold Classifier.specific_patterns, cascade_types.
  repeat match goal with
         | |- context [if ?b then _ else _] => destruct b
         end; simpl; tauto.
Qed.

Lemma max_by_key_in {W : Type} (score : W -> Z) (g : list string -> W)
      (mappings : list (string * list string)) (k : string) (w : W) :
  Dict.max_by score
    (map (fun '(doc_type, keywords) => (doc_type, g keywords)) mappings)
  = Some (k, w) ->
  exists keywords, In (k, keywords) mappings /\ w = g keywords.
Proof.
  destruct mappings as [|[t0 kws0] mappings]; [discriminate|].
  cbn [map Dict.max_by]. intros H. injection H as H.
  pose proof (max_from_in score
                (map (fun '(doc_type, keywords) => (doc_type, g keywords)) mappings)
                (t0, g kws0)) as Hin.
  rewrite H in Hin. destruct Hin as [Heq | Hin].
  - injection Heq as Ht Hw. subst k w. exists kws0.
    split; [now left | reflexivity].
  - apply in_map_iff in Hin. destruct Hin as ([t kws] & Heq & Hin).
    injection Heq as Ht Hw. subst k w. exists kws.
    split; [now right | reflexivity].
Qed.

(** X3. Whatever the file and its name, the result of
    [classify_document_type] is a document type of the keyword table, one of
    the six types of the closing cascade, or "unknown". *)
Theorem X3_classification_stays_in_the_closed_set :
  forall (mappings : list (string * list string)) (file : Docx.File)
         (filename : string),
    In (Classifier.classify_document_type mappings file filename)
       (map fst mappings ++ cascade_types ++ ["unknown"]).
Proof.
  intros mappings file filename. unfold Classifier.classify_document_type.
  destruct (Dict.max_by fst _) as [[best_doc_type [score best_match]]|] eqn:E1.
  - destruct (0 <? score).
    + apply max_by_key_in in E1. destruct E1 as (kws & Hin & _).
      apply in_or_app. left. apply (in_map fst) in Hin. exact Hin.
    + destruct (String.eqb (Classifier.extract_text_from_docx file) "").
      * apply in_or_app. right. apply in_or_app. right. now left.
      * destruct (Dict.max_by (fun score0 : Z => score0) _)
          as [[best score2]|] eqn:E2.
        -- destruct (0 <? score2).
           ++ apply max_by_key_in in E2. destruct E2 as (kws & Hin & _).
              apply in_or_app. left. apply (in_map fst) in Hin. exact Hin.
           ++ apply in_or_app. right. apply specific_patterns_closed.
        -- apply in_or_app. right. apply specific_patterns_closed.
  - destruct (String.eqb (Classifier.extract_text_from_docx file) "").
    + apply in_or_app. right. apply in_or_app. right. now left.
    + destruct (Dict.max_by (fun score0 : Z => score0) _)
        as [[best score2]|] eqn:E2.
      * destruct (0 <? score2).
        -- apply max_by_key_in in E2. destruct E2 as (kws & Hin & _).
           apply in_or_app. left. apply (in_map fst) in Hin. exact Hin.
        -- apply in_or_app. right. apply specific_patterns_closed.
      * apply in_or_app. right. apply specific_patterns_closed.
Qed.

Lemma best_keyword_attained (filename_lower : string) (keywords : list string) :
  forall score best_match,
    Classifier.best_keyword filename_lower keywords score best_match
    = (score, best_match)
    \/ (In (snd (Classifier.best_keyword filename_lower keywords score best_match))
           keywords
        /\ contains
             (snd (Classifier.best_keyword filename_lower keywords score best_match))
             filename_lower = true
        /\ fst (Classifier.best_keyword filename_lower keywords score best_match)
           = len (replace " " ""
                    (snd (Classifier.best_keyword filename_lower keywords score
                                                  best_match)))).
Proof.
  induction keywords as [|keyword rest IH]; intros score best_match;
    cbn [Classifier.best_keyword]; [now left|].
  destruct (contains keyword filename_lower) eqn:Ec.
  - destruct (score <? len (replace " " "" keyword)).
    + destruct (IH (len (replace " " "" keyword)) keyword) as [-> | (H1 & H2 & H3)].
      * right. cbn [fst snd]. repeat split; [now left | exact Ec].
      * right. repeat split; [now right | exact H2 | exact H3].
    + destruct (IH score best_match) as [-> | (H1 & H2 & H3)]; [now left|].
      right. repeat split; [now right | exact H2 | exact H3].
  - destruct (IH score best_match) as [-> | (H1 & H2 & H3)]; [now left|].
    right. repeat split; [now right | exact H2 | exact H3].
Qed.

(** X4. When a keyword with a character other than the space occurs in the
    lower-cased file name, the document is given a type of the table that owns
    a keyword occurring in the file name and at least as long (spaces not
    counted) as that one: the longest keyword in the name decides. *)
Theorem X4_longest_keyword_in_the_filename_decides :
  forall (mappings : list (string * list string)) (file : Docx.File)
         (filename doc_type keyword : string) (keywords : list string),
    In (doc_type, keywords) mappings ->
    In keyword keywords ->
    contains keyword (lower filename) = true ->
    0 < len (replace " " "" keyword) ->
    exists keywords' keyword',
      In (Classifier.classify_document_type mappings file filename, keywords')
         mappings
      /\ In keyword' keywords'
      /\ contains keyword' (lower filename) = true
      /\ len (replace " " "" keyword) <= len (replace " " "" keyword').
Proof.
  intros mappings file filename doc_type keyword keywords Hty Hkw Hc Hpos.
  unfold Classifier.classify_document_type.
  set (g := fun kws => Classifier.best_keyword (lower filename) kws 0 "").
  change (map (fun '(doc_type0, keywords0) =>
                 (doc_type0,
                  Classifier.best_keyword (lower filename) keywords0 0 ""))
              mappings)
    with (map (fun '(doc_type0, keywords0) => (doc_type0, g keywords0)) mappings).
  assert (Hin : In (doc_type, g keywords)
                   (map (fun '(t, kws) => (t, g kws)) mappings)).
  { apply in_map_iff. exists (doc_type, keywords). split; [reflexivity | exact Hty]. }
  pose proof (best_keyword_reaches (lower filename) keyword keywords 0 "" Hkw Hc)
    as Hreach.
  destruct (Dict.max_by fst (map (fun '(t, kws) => (t, g kws)) mappings))
    as [[best_doc_type [score best_match]]|] eqn:E.
  - assert (Hmax : len (replace " " "" keyword) <= score).
    { destruct (map (fun '(t, kws) => (t, g kws)) mappings) as [|x rest];
        [destruct Hin|].
      cbn [Dict.max_by] in E. injection E as E.
      destruct (max_from_bounds fst rest x) as (B1 & B2). rewrite E in B1, B2.
      cbn [snd fst] in B1, B2.
      destruct Hin as [-> | Hin].
      - cbn [snd] in B1. unfold g in B1. lia.
      - rewrite Forall_forall in B2. specialize (B2 _ Hin). cbn [snd] in B2.
        unfold g in B2. lia. }
    assert (P : (0 <? score) = true) by (apply Z.ltb_lt; lia). rewrite P.
    apply max_by_key_in in E. destruct E as (kws' & Hin' & Hg).
    exists kws', best_match. split; [exact Hin'|].
    unfold g in Hg.
    destruct (best_keyword_attained (lower filename) kws' 0 "") as [H0 | (H1 & H2 & H3)].
    + rewrite H0 in Hg. injection Hg as -> _. lia.
    + rewrite <- Hg in H1, H2, H3. cbn [fst snd] in H1, H2, H3.
      repeat split; [exact H1 | exact H2 | lia].
  - destruct (map (fun '(t, kws) => (t, g kws)) mappings); [destruct Hin | discriminate].
Qed.

(** The theorem of X4 at the file name [UBO_Declaration.docx]: both "ubo" and
    "declaration" occur in it, and the type given owns a keyword at least as
    long as "declaration". *)
Lemma X4_witness :
  exists keywords' keyword',
    In (Classifier.classify_document_type Config.DOCUMENT_TYPE_MAPPINGS
          (Docx.Unreadable "missing") "UBO_Declaration.docx", keywords')
       Config.DOCUMENT_TYPE_MAPPINGS
    /\ In keyword' keywords'
    /\ contains keyword' (lower "UBO_Declaration.docx") = true
    /\ len (replace " " "" "declaration") <= len (replace " " "" keyword').
Proof.
  apply (X4_longest_keyword_in_the_filename_decides
           Config.DOCUMENT_TYPE_MAPPINGS (Docx.Unreadable "missing")
           "UBO_Declaration.docx" "ubo_declaration" "declaration"
           ["ubo"; "ubo_form"; "ultimate beneficial owner"; "beneficial owner";
            "declaration"]).
  - simpl. tauto.
  - simpl. tauto.
  - reflexivity.
  - reflexivity.
Defined.

Lemma occurrences_grows (text_content : string) (keywords : list string) :
  forall score, score <= Classifier.occurrences text_content keywords score.
Proof.
  assert (C : forall kw prev skip s, 0 <= count_from kw prev skip s).
  { intros kw prev skip s. revert prev skip.
    induction s as [|c s IH]; intros prev skip; cbn [count_from]; [lia|].
    destruct skip; [|apply IH].
    destruct (word_match kw prev (String c s)).
    - specialize (IH (Some c) (String.length kw - 1)%nat). lia.
    - apply IH. }
  induction keywords as [|keyword rest IH]; intros score;
    cbn [Classifier.occurrences]; [lia|].
  specialize (IH (score + count_words keyword text_content)).
  pose proof (C keyword None 0%nat text_content). unfold count_words in *. lia.
Qed.

(** X5. When the file name contains no keyword and the file yields some text,
    the content decides: if some type has a keyword occurring as a whole word,
    the document is given a type of the table whose keywords occur at least as
    often as those of any other type; if no keyword occurs as a whole word,
    the result is that of the cascade of fixed phrases. *)
Theorem X5_content_phase_picks_the_most_frequent_type :
  forall (mappings : list (string * list string)) (file : Docx.File)
         (filename : string),
    filename_has_keyword mappings filename = false ->
    Classifier.extract_text_from_docx file <> "" ->
    (forall doc_type keywords,
       In (doc_type, keywords) mappings ->
       0 < Classifier.occurrences (Classifier.extract_text_from_docx file) keywords 0 ->
       exists keywords',
         In (Classifier.classify_document_type mappings file filename, keywords')
            mappings
         /\ Classifier.occurrences (Classifier.extract_text_from_docx file) keywords 0
            <= Classifier.occurrences (Classifier.extract_text_from_docx file)
                                      keywords' 0)
    /\ ((forall doc_type keywords,
           In (doc_type, keywords) mappings ->
           Classifier.occurrences (Classifier.extract_text_from_docx file) keywords 0
           = 0) ->
        Classifier.classify_document_type mappings file filename
        = Classifier.specific_patterns (Classifier.extract_text_from_docx file)).
Proof.
  intros mappings file filename Hname Htext.
  set (text_content := Classifier.extract_text_from_docx file) in *.
  assert (Hneq : String.eqb text_content "" = false)
    by (apply String.eqb_neq; exact Htext).
  assert (Hclass :
    Classifier.classify_document_type mappings file filename
    = match Dict.max_by (fun score : Z => score)
              (map (fun '(doc_type, keywords) =>
                      (doc_type, Classifier.occurrences text_content keywords 0))
                   mappings) with
      | Some (best_match, score) =>
          if 0 <? score then best_match
          else Classifier.specific_patterns text_content
      | None => Classifier.specific_patterns text_content
      end).
  { unfold Classifier.classify_document_type.
    pose proof (filename_scores_all_zero mappings filename Hname) as Z0.
    destruct (map (fun '(doc_type, keywords) =>
                     (doc_type,
                      Classifier.best_keyword (lower filename) keywords 0 ""))
                  mappings) as [|x rest] eqn:E; cbn [Dict.max_by].
    - fold text_content. now rewrite Hneq.
    - inversion Z0 as [|? ? Hx Hrest]; subst.
      pose proof (max_from_all_zero fst rest x Hx Hrest) as M.
      destruct (Dict.max_from fst x rest) as [best_doc_type [score best]].
      cbn [snd fst] in M. subst score. cbn [Z.ltb Z.compare].
      fold text_content. now rewrite Hneq. }
  rewrite Hclass. clear Hclass.
  set (g := fun kws => Classifier.occurrences text_content kws 0).
  change (map (fun '(doc_type, keywords) =>
                 (doc_type, Classifier.occurrences text_content keywords 0))
              mappings)
    with (map (fun '(doc_type, keywords) => (doc_type, g keywords)) mappings).
  split.
  - intros doc_type keywords Hin Hpos.
    assert (Hin' : In (doc_type, g keywords)
                      (map (fun '(t, kws) => (t, g kws)) mappings)).
    { apply in_map_iff. exists (doc_type, keywords). split; [reflexivity | exact Hin]. }
    destruct (Dict.max_by (fun score : Z => score)
                (map (fun '(t, kws) => (t, g kws)) mappings))
      as [[best_match score]|] eqn:E.
    + assert (Hmax : g keywords <= score).
      { destruct (map (fun '(t, kws) => (t, g kws)) mappings) as [|x rest];
          [destruct Hin'|].
        cbn [Dict.max_by] in E. injection E as E.
        destruct (max_from_bounds (fun score0 : Z => score0) rest x) as (B1 & B2).
        rewrite E in B1, B2. cbn [snd] in B1, B2.
        destruct Hin' as [-> | Hin'].
        - cbn [snd] in B1. lia.
        - rewrite Forall_forall in B2. specialize (B2 _ Hin'). cbn [snd] in B2. lia. }
      assert (P : (0 <? score) = true) by (apply Z.ltb_lt; unfold g in Hmax; lia).
      rewrite P. apply max_by_key_in in E. destruct E as (kws' & Hk & Hg).
      exists kws'. split; [exact Hk|]. unfold g in Hg, Hmax. lia.
    + destruct (map (fun '(t, kws) => (t, g kws)) mappings);
        [destruct Hin' | discriminate].
  - intros Hzero.
    destruct (Dict.max_by (fun score : Z => score)
                (map (fun '(t, kws) => (t, g kws)) mappings))
      as [[best_match score]|] eqn:E; [|reflexivity].
    apply max_by_key_in in E. destruct E as (kws' & Hk & Hg).
    rewrite Hg. unfold g. rewrite (Hzero _ _ Hk). reflexivity.
Qed.

(** The theorem of X5 at a document named [scan_001.docx] whose only paragraph
    is "Register of Members": the type given owns keywords that occur at
    least as often as those of the register of members. *)
Lemma X5_witness :
  exists keywords',
    In (Classifier.classify_document_type Config.DOCUMENT_TYPE_MAPPINGS
          (Docx.Readable (document_of ["Register of Members"])) "scan_001.docx",
        keywords')
       Config.DOCUMENT_TYPE_MAPPINGS
    /\ Classifier.occurrences
         (Classifier.extract_text_from_docx
            (Docx.Readable (document_of ["Register of Members"])))
         ["register of members"; "members register"; "register of directors";
          "directors register"] 0
       <= Classifier.occurrences
            (Classifier.extract_text_from_docx
               (Docx.Readable (document_of ["Register of Members"])))
            keywords' 0.
Proof.
  assert (Htext : Classifier.extract_text_from_docx
                    (Docx.Readable (document_of ["Register of Members"])) <> "")
    by (vm_compute; discriminate).
  apply (proj1 (X5_content_phase_picks_the_most_frequent_type
                  Config.DOCUMENT_TYPE_MAPPINGS
                  (Docx.Readable (document_of ["Register of Members"]))
                  "scan_001.docx" eq_refl Htext) "register_members").
  - simpl. tauto.
  - vm_compute. reflexivity.
Defined.

(* ------------------------------------------------------------------------- *)
(** ** Further properties: the checklist report *)

(** X6. For a process of the table, the report says "Complete" exactly when
    every required label is matched by some uploaded document, and
    "Incomplete" otherwise; the numbers of found and of missing labels add up
    to the number of required documents that the report states, and the number
    of uploaded documents is that of the upload. *)
Theorem X6_report_is_complete_when_nothing_is_missing :
  forall (process_checklists : list (string * Config.Checklist))
         (document_types : list string) (process_type : string)
         (checklist : Config.Checklist),
    Dict.get process_checklists process_type = Some checklist ->
    (Classifier.status
       (Classifier.generate_checklist_report process_checklists document_types
                                             process_type) = "Complete"
     <-> forall label, In label (Classifier.required_of checklist) ->
                       satisfied document_types label = true)
    /\ (Classifier.status
          (Classifier.generate_checklist_report process_checklists document_types
                                                process_type) = "Incomplete"
        <-> exists label, In label (Classifier.required_of checklist)
                          /\ satisfied document_types label = false)
    /\ (exists found,
          Classifier.found_documents
            (Classifier.generate_checklist_report process_checklists
                                                  document_types process_type)
          = Some found
          /\ Classifier.required_documents
               (Classifier.generate_checklist_report process_checklists
                                                     document_types process_type)
             = Some (Z.of_nat (List.length found)
                     + Z.of_nat (List.length
                         (Classifier.missing_documents
                            (Classifier.generate_checklist_report
                               process_checklists document_types process_type)))))
    /\ Classifier.uploaded_documents
         (Classifier.generate_checklist_report process_checklists document_types
                                               process_type)
       = Z.of_nat (List.length document_types).
Proof.
  intros table docs p checklist Hget.
  unfold Classifier.generate_checklist_report. rewrite Hget.
  rewrite sort_required_filter. cbn [app].
  set (required := Classifier.required_of checklist).
  change (filter (fun r => negb (existsb
            (fun u => Classifier._documents_match u r)
            (map Classifier._convert_doc_type_to_readable docs))) required)
    with (filter (fun r => negb (satisfied docs r)) required).
  change (filter (fun r => existsb
            (fun u => Classifier._documents_match u r)
            (map Classifier._convert_doc_type_to_readable docs)) required)
    with (filter (satisfied docs) required).
  cbn [Classifier.status Classifier.found_documents Classifier.required_documents
       Classifier.missing_documents Classifier.uploaded_documents].
  assert (Hm : forall label,
             In label (filter (fun r => negb (satisfied docs r)) required)
             <-> In label required /\ satisfied docs label = false).
  { intros label. rewrite filter_In, negb_true_iff. reflexivity. }
  split; [|split; [|split]].
  - destruct (filter (fun r => negb (satisfied docs r)) required) as [|m ms] eqn:E.
    + split; [|reflexivity]. intros _ label Hin.
      destruct (satisfied docs label) eqn:Es; [reflexivity|].
      destruct (proj2 (Hm label) (conj Hin Es)).
    + split; [discriminate|]. intros Hall.
      assert (Hin : In m (m :: ms)) by now left.
      apply Hm in Hin. destruct Hin as (Hin & Hs). rewrite (Hall m Hin) in Hs.
      discriminate.
  - destruct (filter (fun r => negb (satisfied docs r)) required) as [|m ms] eqn:E.
    + split; [discriminate|]. intros (label & Hin & Hs).
      destruct (proj2 (Hm label) (conj Hin Hs)).
    + split; [|reflexivity]. intros _. exists m. apply Hm. now left.
  - eexists. split; [reflexivity|]. f_equal.
    rewrite <- Nat2Z.inj_add. f_equal.
    rewrite <- length_app.
    apply Permutation_length. symmetry. apply filter_split_permutation.
  - reflexivity.
Qed.

(** The theorem of X6 at the process Employment Setup with an employment
    contract and a data protection policy uploaded: the report is complete. *)
Lemma X6_witness :
  Classifier.status
    (Classifier.generate_checklist_report Config.PROCESS_CHECKLISTS
       ["employment_contract"; "data_protection_policy"] "Employment Setup")
  = "Complete".
Proof.
  apply (proj1 (X6_report_is_complete_when_nothing_is_missing
                  Config.PROCESS_CHECKLISTS
                  ["employment_contract"; "data_protection_policy"]
                  "Employment Setup"
                  (Config.mkChecklist
                     (Some ["Employment Contract"; "Data Protection Policy"]) None)
                  eq_refl)).
  intros label Hin. simpl in Hin.
  destruct Hin as [<- | [<- | []]]; vm_compute; reflexivity.
Defined.

(* ------------------------------------------------------------------------- *)
(** ** Further properties: the scorer *)

Lemma number_of_high_and_medium_le (issues : list Issue) :
  number_of "High" issues + number_of "Medium" issues
  <= Z.of_nat (List.length issues).
Proof.
  induction issues as [|i rest IH]; cbn [number_of List.length]; [lia|].
  rewrite Nat2Z.inj_succ.
  destruct (String.eqb (severity i) "High") eqn:E1;
    destruct (String.eqb (severity i) "Medium") eqn:E2; try lia.
  apply String.eqb_eq in E1. apply String.eqb_eq in E2. congruence.
Qed.

(** X7. The score is 100 exactly when there is no issue of severity High or
    Medium; the status is Compliant exactly when there is no High issue and at
    most one Medium issue, and Non-Compliant exactly when the deductions
    exceed 50 points; the counters of the result count all issues, the High
    ones and the Medium ones, and the two never exceed the total. *)
Theorem X7_full_score_means_no_high_or_medium_issue :
  forall (analysis : Analysis),
    (compliance_score (_calculate_compliance_metrics analysis) = 100
     <-> number_of "High" (issues_found analysis) = 0
         /\ number_of "Medium" (issues_found analysis) = 0)
    /\ (compliance_status (_calculate_compliance_metrics analysis) = Some "Compliant"
        <-> number_of "High" (issues_found analysis) = 0
            /\ number_of "Medium" (issues_found analysis) <= 1)
    /\ (compliance_status (_calculate_compliance_metrics analysis)
        = Some "Non-Compliant"
        <-> 50 < 20 * number_of "High" (issues_found analysis)
                 + 10 * number_of "Medium" (issues_found analysis))
    /\ total_flags (_calculate_compliance_metrics analysis)
       = Some (Z.of_nat (List.length (issues_found analysis)))
    /\ critical_issues (_calculate_compliance_metrics analysis)
       = Some (number_of "High" (issues_found analysis))
    /\ warnings (_calculate_compliance_metrics analysis)
       = Some (number_of "Medium" (issues_found analysis))
    /\ number_of "High" (issues_found analysis)
       + number_of "Medium" (issues_found analysis)
       <= Z.of_nat (List.length (issues_found analysis)).
Proof.
  intros analysis.
  change (compliance_score (_calculate_compliance_metrics analysis))
    with (score_of (issues_found analysis)).
  change (compliance_status (_calculate_compliance_metrics analysis))
    with (Some (_get_compliance_status (score_of (issues_found analysis)))).
  cbn [total_flags critical_issues warnings _calculate_compliance_metrics].
  rewrite !count_severity_number_of.
  destruct (status_bands (score_of (issues_found analysis))) as (B1 & _ & _ & B4).
  rewrite score_of_formula in *.
  pose proof (number_of_nonneg "High" (issues_found analysis)) as Hh.
  pose proof (number_of_nonneg "Medium" (issues_found analysis)) as Hm.
  pose proof (number_of_high_and_medium_le (issues_found analysis)) as Hsum.
  split; [split; [intros H | intros [H1 H2]]; lia|].
  split.
  { split.
    - intros H. injection H as H. apply B1 in H. lia.
    - intros [H1 H2]. f_equal. apply B1. lia. }
  split.
  { split.
    - intros H. injection H as H. apply B4 in H. lia.
    - intros H. f_equal. apply B4. lia. }
  repeat split; try reflexivity. exact Hsum.
Qed.

(* ------------------------------------------------------------------------- *)
(** ** Further properties: what the detector reports *)

Lemma collect_paragraphs_origin (paragraphs : list Docx.Paragraph) :
  forall k pd,
    In pd (collect_paragraphs k paragraphs) ->
    exists paragraph,
      nth_error paragraphs (Z.to_nat (index pd - k)) = Some paragraph
      /\ k <= index pd
      /\ text pd = Docx.text paragraph
      /\ text_lower pd = lower (Docx.text paragraph)
      /\ strip_nonempty (Docx.text paragraph) = true.
Proof.
  induction paragraphs as [|p rest IH]; intros k pd Hin;
    cbn [collect_paragraphs] in Hin; [destruct Hin|].
  assert (Later : In pd (collect_paragraphs (k + 1) rest) ->
                  exists paragraph,
                    nth_error (p :: rest) (Z.to_nat (index pd - k)) = Some paragraph
                    /\ k <= index pd
                    /\ text pd = Docx.text paragraph
                    /\ text_lower pd = lower (Docx.text paragraph)
                    /\ strip_nonempty (Docx.text paragraph) = true).
  { intros H. destruct (IH (k + 1) pd H) as (q & Hn & Hk & Ht & Hl & Hs).
    exists q. repeat split; try assumption; try lia.
    replace (Z.to_nat (index pd - k)) with (S (Z.to_nat (index pd - (k + 1))))
      by lia.
    exact Hn. }
  destruct (strip_nonempty (Docx.text p)) eqn:Es; [|now apply Later].
  destruct Hin as [<- | Hin]; [|now apply Later].
  exists p. cbn [index text text_lower]. rewrite Z.sub_diag.
  repeat split; try reflexivity; try lia. exact Es.
Qed.

Lemma view_pattern_issues (red_flags : list (string * Config.FlagConfig))
      (doc : Docx.Document) (doc_type : string) :
  Forall
    (fun i =>
       match pattern_found i with
       | None => True
       | Some pattern =>
           exists paragraph flag_config,
             0 <= paragraph_index i
             /\ nth_error (Docx.paragraphs doc) (Z.to_nat (paragraph_index i))
                = Some paragraph
             /\ strip_nonempty (Docx.text paragraph) = true
             /\ contains pattern (lower (Docx.text paragraph)) = true
             /\ In (flag_type i, flag_config) red_flags
             /\ In pattern (Config.patterns flag_config)
             /\ severity i = Config.severity flag_config
             /\ paragraph_text i = excerpt (Docx.text paragraph)
       end)
    (scan_view (collect_paragraphs 0 (Docx.paragraphs doc)) red_flags
     ++ signature_view (collect_paragraphs 0 (Docx.paragraphs doc))
     ++ specific_view (collect_paragraphs 0 (Docx.paragraphs doc)) doc_type).
Proof.
  rewrite !Forall_app. repeat split.
  - apply Forall_forall. intros i Hi. unfold scan_view in Hi.
    apply in_flat_map in Hi. destruct Hi as ([ft cfg] & Hflag & Hi).
    unfold flag_view in Hi. apply in_flat_map in Hi.
    destruct Hi as (pd & Hpd & Hi).
    apply in_map_iff in Hi. destruct Hi as (pattern & <- & Hp).
    apply filter_In in Hp. destruct Hp as (Hp & Hc).
    destruct (collect_paragraphs_origin _ _ _ Hpd)
      as (paragraph & Hn & Hk & Ht & Hl & Hs).
    cbn [pattern_found pattern_issue paragraph_index flag_type severity
         paragraph_text].
    exists paragraph, cfg. rewrite Z.sub_0_r in Hn. rewrite <- Hl, <- Ht.
    repeat split; try assumption; try reflexivity. rewrite Ht. exact Hs.
  - unfold signature_view. destruct (has_signature _); repeat constructor.
  - apply Forall_forall. intros i Hi. unfold specific_view in Hi.
    apply in_map_iff in Hi. destruct Hi as ([item description] & <- & _).
    exact I.
Qed.

(** X8. Every issue of the pattern scan points at a paragraph of the document:
    its index is a position of [doc.paragraphs], the paragraph there is not
    blank, its lower-cased text contains the recorded pattern, the pattern is
    one of the flag table, and the stored excerpt is the excerpt of that
    paragraph. *)
Theorem X8_pattern_issues_point_at_a_matching_paragraph :
  forall (RagState : Type)
         (guide : string -> string -> RagState -> option string * RagState)
         (red_flags : list (string * Config.FlagConfig))
         (doc : Docx.Document) (doc_type : string) (s : RagState),
    Forall
      (fun i =>
         match pattern_found i with
         | None => True
         | Some pattern =>
             exists paragraph flag_config,
               0 <= paragraph_index i
               /\ nth_error (Docx.paragraphs doc) (Z.to_nat (paragraph_index i))
                  = Some paragraph
               /\ strip_nonempty (Docx.text paragraph) = true
               /\ contains pattern (lower (Docx.text paragraph)) = true
               /\ In (flag_type i, flag_config) red_flags
               /\ In pattern (Config.patterns flag_config)
               /\ severity i = Config.severity flag_config
               /\ paragraph_text i = excerpt (Docx.text paragraph)
         end)
      (issues_found
         (fst (analyze_document RagState guide red_flags (Docx.Readable doc)
                                doc_type s))).
Proof.
  intros.
  pose proof (view_pattern_issues red_flags doc doc_type) as V.
  rewrite <- (analyze_document_view RagState guide red_flags doc doc_type s) in V.
  rewrite Forall_map in V. exact V.
Qed.

Lemma view_indices_bounds (red_flags : list (string * Config.FlagConfig))
      (doc : Docx.Document) (doc_type : string) :
  Forall
    (fun i =>
       -1 <= paragraph_index i
       /\ (paragraph_index i < Z.of_nat (List.length (Docx.paragraphs doc))
           \/ paragraph_index i = 0))
    (scan_view (collect_paragraphs 0 (Docx.paragraphs doc)) red_flags
     ++ signature_view (collect_paragraphs 0 (Docx.paragraphs doc))
     ++ specific_view (collect_paragraphs 0 (Docx.paragraphs doc)) doc_type).
Proof.
  rewrite !Forall_app. repeat split.
  - apply Forall_forall. intros i Hi. unfold scan_view in Hi.
    apply in_flat_map in Hi. destruct Hi as ([ft cfg] & _ & Hi).
    unfold flag_view in Hi. apply in_flat_map in Hi.
    destruct Hi as (pd & Hpd & Hi).
    apply in_map_iff in Hi. destruct Hi as (pattern & <- & _).
    destruct (collect_paragraphs_origin _ _ _ Hpd)
      as (paragraph & Hn & Hk & _).
    cbn [paragraph_index pattern_issue].
    assert (Hlt : (Z.to_nat (index pd - 0)
                   < List.length (Docx.paragraphs doc))%nat)
      by (apply nth_error_Some; rewrite Hn; discriminate).
    lia.
  - unfold signature_view. destruct (has_signature _); constructor;
      [|constructor].
    cbn [paragraph_index signature_issue].
    pose proof (collect_paragraphs_length (Docx.paragraphs doc) 0). lia.
  - apply Forall_forall. intros i Hi. unfold specific_view in Hi.
    apply in_map_iff in Hi. destruct Hi as ([item description] & <- & _).
    cbn [paragraph_index]. lia.
Qed.

(** X9. Every issue of a document carries an index that is at least -1 and
    that is either a position of [doc.paragraphs] or 0: the pattern issues
    point into the document, the signature issue carries the number of
    non-blank paragraphs less one (-1 when there is none), and the
    type-specific issues carry 0 even for a document without paragraphs. *)
Theorem X9_issue_indices_stay_within_the_document :
  forall (RagState : Type)
         (guide : string -> string -> RagState -> option string * RagState)
         (red_flags : list (string * Config.FlagConfig))
         (doc : Docx.Document) (doc_type : string) (s : RagState),
    Forall
      (fun i =>
         -1 <= paragraph_index i
         /\ (paragraph_index i < Z.of_nat (List.length (Docx.paragraphs doc))
             \/ paragraph_index i = 0))
      (issues_found
         (fst (analyze_document RagState guide red_flags (Docx.Readable doc)
                                doc_type s))).
Proof.
  intros.
  pose proof (view_indices_bounds red_flags doc doc_type) as V.
  rewrite <- (analyze_document_view RagState guide red_flags doc doc_type s) in V.
  rewrite Forall_map in V. exact V.
Qed.

Lemma requirements_severity (doc_type : string) :
  req_items (requirements_of doc_type) = []
  \/ req_severity (requirements_of doc_type) = "High"
  \/ req_severity (requirements_of doc_type) = "Medium".
Proof.
  unfold requirements_of.
  destruct (String.eqb doc_type "articles_of_association"); [right; now left|].
  destruct (String.eqb doc_type "memorandum_of_association"); [right; now left|].
  destruct (String.eqb doc_type "employment_contract"); [right; now right|].
  now left.
Qed.

Lemma number_of_high_or_medium (issues : list Issue) :
  Forall (fun i => severity i = "High" \/ severity i = "Medium") issues ->
  number_of "High" issues + number_of "Medium" issues
  = Z.of_nat (List.length issues).
Proof.
  induction 1 as [|i rest Hi _ IH]; cbn [number_of List.length]; [reflexivity|].
  rewrite Nat2Z.inj_succ.
  destruct Hi as [E | E]; rewrite E.
  - change (String.eqb "High" "High") with true.
    change (String.eqb "High" "Medium") with false. lia.
  - change (String.eqb "Medium" "High") with false.
    change (String.eqb "Medium" "Medium") with true. lia.
Qed.

Lemma view_severities (red_flags : list (string * Config.FlagConfig))
      (doc : Docx.Document) (doc_type : string) :
  Forall (fun flag => Config.severity (snd flag) = "High"
                      \/ Config.severity (snd flag) = "Medium") red_flags ->
  Forall (fun i => severity i = "High" \/ severity i = "Medium")
         (scan_view (collect_paragraphs 0 (Docx.paragraphs doc)) red_flags
          ++ signature_view (collect_paragraphs 0 (Docx.paragraphs doc))
          ++ specific_view (collect_paragraphs 0 (Docx.paragraphs doc)) doc_type).
Proof.
  intros Hflags. rewrite !Forall_app. repeat split.
  - apply Forall_forall. intros i Hi. unfold scan_view in Hi.
    apply in_flat_map in Hi. destruct Hi as ([ft cfg] & Hflag & Hi).
    unfold flag_view in Hi. apply in_flat_map in Hi.
    destruct Hi as (pd & _ & Hi).
    apply in_map_iff in Hi. destruct Hi as (pattern & <- & _).
    rewrite Forall_forall in Hflags. exact (Hflags _ Hflag).
  - unfold signature_view. destruct (has_signature _); constructor;
      [now right | constructor].
  - apply Forall_forall. intros i Hi. unfold specific_view in Hi.
    apply in_map_iff in Hi. destruct Hi as ([item description] & <- & Hitem).
    apply filter_In in Hitem. destruct Hitem as (Hitem & _).
    cbn [severity].
    destruct (requirements_severity doc_type) as [E | [E | E]];
      [rewrite E in Hitem; destruct Hitem | now left | now right].
Qed.

Lemma configured_flag_severities :
  Forall (fun flag => Config.severity (snd flag) = "High"
                      \/ Config.severity (snd flag) = "Medium") Config.RED_FLAGS.
Proof. repeat constructor; cbn; tauto. Qed.

(** X10. When every flag of the table has severity High or Medium, as every
    configured flag has, each issue of a document is High or Medium, never
    Low, so that the total number of flags is the number of critical issues
    plus the number of warnings. *)
Theorem X10_every_issue_is_critical_or_a_warning :
  forall (RagState : Type)
         (guide : string -> string -> RagState -> option string * RagState)
         (red_flags : list (string * Config.FlagConfig))
         (doc : Docx.Document) (doc_type : string) (s : RagState),
    Forall (fun flag => Config.severity (snd flag) = "High"
                        \/ Config.severity (snd flag) = "Medium") red_flags ->
    Forall (fun i => severity i = "High" \/ severity i = "Medium")
           (issues_found
              (fst (analyze_document RagState guide red_flags (Docx.Readable doc)
                                     doc_type s)))
    /\ exists total critical warning,
         total_flags
           (fst (analyze_document RagState guide red_flags (Docx.Readable doc)
                                  doc_type s)) = Some total
         /\ critical_issues
              (fst (analyze_document RagState guide red_flags (Docx.Readable doc)
                                     doc_type s)) = Some critical
         /\ warnings
              (fst (analyze_document RagState guide red_flags (Docx.Readable doc)
                                     doc_type s)) = Some warning
         /\ total = critical + warning.
Proof.
  intros RagState guide red_flags doc doc_type s Hflags.
  pose proof (view_severities red_flags doc doc_type Hflags) as V.
  rewrite <- (analyze_document_view RagState guide red_flags doc doc_type s) in V.
  rewrite Forall_map in V. cbn [severity without_guidance] in V.
  split; [exact V|].
  pose proof (number_of_high_or_medium _ V) as N.
  revert V N. unfold analyze_document, bind, ret.
  destruct (detect_flags RagState guide _ red_flags s) as [scan s1].
  destruct (_perform_additional_checks RagState guide _ doc_type s1) as [more s2].
  cbn [fst issues_found total_flags critical_issues warnings
       _calculate_compliance_metrics].
  intros V N. eexists _, _, _. repeat split.
  rewrite !count_severity_number_of. lia.
Qed.

(** The theorem of X10 at the configured flag table. *)
Lemma X10_witness :
  Forall (fun i => severity i = "High" \/ severity i = "Medium")
         (issues_found
            (fst (analyze_document unit no_guidance Config.RED_FLAGS
                    (Docx.Readable (document_of ["Governed by UAE law"]))
                    "employment_contract" tt))).
Proof.
  apply (proj1 (X10_every_issue_is_critical_or_a_warning
                  unit no_guidance Config.RED_FLAGS
                  (document_of ["Governed by UAE law"]) "employment_contract" tt
                  ltac:(repeat constructor; cbn; tauto))).
Defined.

Lemma flat_map_nil {A B : Type} (f : A -> list B) (l : list A) :
  flat_map f l = [] <-> Forall (fun x => f x = []) l.
Proof.
  induction l as [|a l IH]; cbn [flat_map]; [split; [constructor | reflexivity]|].
  split.
  - intros H. apply app_eq_nil in H. destruct H as (Ha & Hl).
    constructor; [exact Ha | now apply IH].
  - intros H. inversion H as [|? ? Ha Hl]; subst.
    rewrite Ha. now apply IH.
Qed.

Lemma filter_nil {A : Type} (f : A -> bool) (l : list A) :
  filter f l = [] <-> existsb f l = false.
Proof.
  induction l as [|a l IH]; cbn [filter existsb]; [tauto|].
  destruct (f a); cbn [orb]; [split; discriminate | exact IH].
Qed.

Lemma existsb_false_forall {A : Type} (f : A -> bool) (l : list A) :
  existsb f l = false <-> Forall (fun x => f x = false) l.
Proof.
  induction l as [|a l IH]; cbn [existsb]; [split; [constructor | reflexivity]|].
  rewrite orb_false_iff, IH. split.
  - intros [Ha Hl]. now constructor.
  - intros H. inversion H; subst. now split.
Qed.

Lemma Forall_equiv {A : Type} (P Q : A -> Prop) (l : list A) :
  (forall x, P x <-> Q x) -> (Forall P l <-> Forall Q l).
Proof.
  intros H. split; apply Forall_impl; intros x; apply H.
Qed.

Lemma map_nil {A B : Type} (f : A -> B) (l : list A) :
  map f l = [] <-> l = [].
Proof.
  destruct l; cbn [map]; split; intros H; try reflexivity; discriminate.
Qed.

Lemma scan_view_nil (pds : list ParagraphData)
      (flags : list (string * Config.FlagConfig)) :
  scan_view pds flags = [] <-> has_flagged_pattern flags pds = false.
Proof.
  unfold scan_view, has_flagged_pattern.
  rewrite flat_map_nil, existsb_false_forall.
  apply Forall_equiv. intros [ft cfg].
  unfold flag_view. rewrite flat_map_nil, existsb_false_forall.
  apply Forall_equiv. intros pd.
  rewrite map_nil. apply filter_nil.
Qed.

Lemma no_specific_checks (doc_type : string) :
  has_specific_checks doc_type = false ->
  req_items (requirements_of doc_type) = [].
Proof.
  unfold has_specific_checks, requirements_of. intros H.
  apply orb_false_iff in H. destruct H as (H & H3).
  apply orb_false_iff in H. destruct H as (H1 & H2).
  now rewrite H1, H2, H3.
Qed.

(** X11. A document gets no issue at all exactly when no pattern of the flag
    table occurs in any of its non-blank paragraphs, some signature keyword
    occurs in the joined text, and every item required for its type occurs in
    the joined text; such a document scores 100 and is Compliant. *)
Theorem X11_no_issue_exactly_for_a_clean_document :
  forall (RagState : Type)
         (guide : string -> string -> RagState -> option string * RagState)
         (red_flags : list (string * Config.FlagConfig))
         (doc : Docx.Document) (doc_type : string) (s : RagState),
    (issues_found
       (fst (analyze_document RagState guide red_flags (Docx.Readable doc)
                              doc_type s)) = []
     <-> has_flagged_pattern red_flags
           (collect_paragraphs 0 (Docx.paragraphs doc)) = false
         /\ has_signature (collect_paragraphs 0 (Docx.paragraphs doc)) = true
         /\ Forall (fun item =>
                      contains (fst item)
                        (all_text_of (collect_paragraphs 0 (Docx.paragraphs doc)))
                      = true)
                   (req_items (requirements_of doc_type)))
    /\ (issues_found
          (fst (analyze_document RagState guide red_flags (Docx.Readable doc)
                                 doc_type s)) = []
        -> compliance_score
             (fst (analyze_document RagState guide red_flags (Docx.Readable doc)
                                    doc_type s)) = 100
           /\ compliance_status
                (fst (analyze_document RagState guide red_flags (Docx.Readable doc)
                                       doc_type s)) = Some "Compliant").
Proof.
  intros. split.
  - rewrite <- (map_nil without_guidance), analyze_document_view.
    set (pds := collect_paragraphs 0 (Docx.paragraphs doc)).
    rewrite <- scan_view_nil.
    assert (Hsig : signature_view pds = [] <-> has_signature pds = true).
    { unfold signature_view. destruct (has_signature pds);
        split; intros H; try reflexivity; discriminate. }
    assert (Hspec : specific_view pds doc_type = []
                    <-> Forall (fun item => contains (fst item) (all_text_of pds)
                                            = true)
                               (req_items (requirements_of doc_type))).
    { unfold specific_view. rewrite map_nil, filter_nil, existsb_false_forall.
      apply Forall_equiv. intros [item description]. cbn [fst].
      apply negb_false_iff. }
    rewrite <- Hsig, <- Hspec. split.
    + intros H. apply app_eq_nil in H. destruct H as (H1 & H).
      apply app_eq_nil in H. destruct H as (H2 & H3). auto.
    + intros (H1 & H2 & H3). now rewrite H1, H2, H3.
  - intros H.
    pose proof (analyze_document_score RagState guide red_flags
                  (Docx.Readable doc) doc_type s) as Hscore.
    cbv beta iota in Hscore. rewrite H in Hscore.
    rewrite analyze_document_status, Hscore. split; reflexivity.
Qed.

(** X12. A document of a type without type-specific checks in which no flag
    pattern occurs gets at most one issue, the missing signature, which costs
    10 points: its score is 90 or 100 and its status is Compliant. *)
Theorem X12_a_missing_signature_alone_stays_compliant :
  forall (RagState : Type)
         (guide : string -> string -> RagState -> option string * RagState)
         (red_flags : list (string * Config.FlagConfig))
         (doc : Docx.Document) (doc_type : string) (s : RagState),
    has_specific_checks doc_type = false ->
    has_flagged_pattern red_flags (collect_paragraphs 0 (Docx.paragraphs doc))
    = false ->
    compliance_score
      (fst (analyze_document RagState guide red_flags (Docx.Readable doc)
                             doc_type s))
    = (if has_signature (collect_paragraphs 0 (Docx.paragraphs doc))
       then 100 else 90)
    /\ compliance_status
         (fst (analyze_document RagState guide red_flags (Docx.Readable doc)
                                doc_type s)) = Some "Compliant"
    /\ map flag_type
           (issues_found
              (fst (analyze_document RagState guide red_flags (Docx.Readable doc)
                                     doc_type s)))
       = (if has_signature (collect_paragraphs 0 (Docx.paragraphs doc))
          then [] else ["missing_signature"]).
Proof.
  intros RagState guide red_flags doc doc_type s Hty Hclean.
  pose proof (analyze_document_view RagState guide red_flags doc doc_type s) as V.
  set (pds := collect_paragraphs 0 (Docx.paragraphs doc)) in *.
  apply scan_view_nil in Hclean. rewrite Hclean in V.
  assert (Hspec : specific_view pds doc_type = []).
  { unfold specific_view. now rewrite (no_specific_checks doc_type Hty). }
  rewrite Hspec, app_nil_r in V. cbn [app] in V.
  pose proof (analyze_document_score RagState guide red_flags
                (Docx.Readable doc) doc_type s) as Hscore.
  cbv beta iota in Hscore.
  rewrite <- score_of_without_guidance, V in Hscore.
  assert (Hflags : map flag_type
                       (issues_found
                          (fst (analyze_document RagState guide red_flags
                                  (Docx.Readable doc) doc_type s)))
                   = map flag_type (signature_view pds)).
  { rewrite <- V, map_map. reflexivity. }
  rewrite analyze_document_status, Hscore, Hflags.
  unfold signature_view. destruct (has_signature pds); repeat split.
Qed.

(** The theorem of X12 at a board resolution of one clean paragraph without a
    signature keyword: 90 points, Compliant. *)
Lemma X12_witness :
  compliance_score
    (fst (analyze_document unit no_guidance Config.RED_FLAGS
            (Docx.Readable (document_of ["Resolved to open a bank account"]))
            "board_resolution" tt))
  = 90.
Proof.
  apply (proj1 (X12_a_missing_signature_alone_stays_compliant
                  unit no_guidance Config.RED_FLAGS
                  (document_of ["Resolved to open a bank account"])
                  "board_resolution" tt eq_refl eq_refl)).
Defined.

(* ------------------------------------------------------------------------- *)
(** ** Further properties: the annotated copy of any document *)

Lemma subsequence_refl {A : Type} (l : list A) : subsequence l l.
Proof. induction l; constructor; assumption. Qed.

Lemma subsequence_trans {A : Type} (l1 l2 l3 : list A) :
  subsequence l1 l2 -> subsequence l2 l3 -> subsequence l1 l3.
Proof.
  intros H12 H23. revert l1 H12.
  induction H23 as [l | x l2 l3 H IH | x l2 l3 H IH]; intros l1 H12.
  - inversion H12; subst. constructor.
  - inversion H12; subst; constructor; now apply IH.
  - constructor. now apply IH.
Qed.

Lemma remove_at_insert_at {A : Type} (x : A) :
  forall (k : nat) (l : list A),
    (k <= List.length l)%nat -> Docx.remove_at k (Docx.insert_at k x l) = l.
Proof.
  induction k as [|k IH]; intros l Hk; [destruct l; reflexivity|].
  destruct l as [|a l]; [simpl in Hk; lia|].
  cbn [Docx.insert_at Docx.remove_at]. rewrite IH; [reflexivity | simpl in Hk; lia].
Qed.

Lemma update_at_insert_at {A : Type} (f : A -> A) (x : A) :
  forall (k : nat) (l : list A),
    (k <= List.length l)%nat ->
    Docx.update_at k f (Docx.insert_at k x l) = Docx.insert_at k (f x) l.
Proof.
  induction k as [|k IH]; intros l Hk; [destruct l; reflexivity|].
  destruct l as [|a l]; [simpl in Hk; lia|].
  cbn [Docx.insert_at Docx.update_at]. rewrite IH; [reflexivity | simpl in Hk; lia].
Qed.

Lemma length_insert_at {A : Type} (x : A) :
  forall (k : nat) (l : list A),
    (k <= List.length l)%nat ->
    List.length (Docx.insert_at k x l) = S (List.length l).
Proof.
  induction k as [|k IH]; intros l Hk; [reflexivity|].
  destruct l as [|a l]; [simpl in Hk; lia|].
  cbn [Docx.insert_at List.length]. rewrite IH; [reflexivity | simpl in Hk; lia].
Qed.

Lemma insert_at_end {A : Type} (x : A) (l : list A) :
  Docx.insert_at (List.length l) x l = l ++ [x].
Proof.
  pose proof (insert_at_app x l []) as H. now rewrite app_nil_r in H.
Qed.

Lemma find_sectPr_bound (doc : Docx.Document) (k : nat) :
  Docx.find_sectPr doc = Some k -> (k < List.length doc)%nat.
Proof.
  revert k. induction doc as [|b doc IH]; intros k H; [discriminate|].
  cbn [Docx.find_sectPr] in H.
  destruct b; cbn [List.length];
    try (destruct (Docx.find_sectPr doc) as [k'|]; [|discriminate];
         injection H as <-; specialize (IH k' eq_refl); lia).
  injection H as <-. lia.
Qed.

(** [add_paragraph] inserts an empty paragraph somewhere in the body. *)
Lemma add_paragraph_is_insert (doc : Docx.Document) :
  exists j, (j <= List.length doc)%nat
            /\ Docx.add_paragraph doc
               = (Docx.insert_at j (Docx.BPara []) doc, j).
Proof.
  unfold Docx.add_paragraph.
  destruct (Docx.find_sectPr doc) as [k|] eqn:E.
  - exists k. split; [apply find_sectPr_bound in E; lia | reflexivity].
  - exists (List.length doc). split; [lia|]. now rewrite insert_at_end.
Qed.

(** Putting one paragraph into a body keeps the other paragraphs, in their
    order, and the tables. *)
Lemma insert_paragraph_keeps (q : Docx.Paragraph) :
  forall (k : nat) (doc : Docx.Document),
    subsequence (texts_of doc) (texts_of (Docx.insert_at k (Docx.BPara q) doc))
    /\ List.length (Docx.paragraphs (Docx.insert_at k (Docx.BPara q) doc))
       = S (List.length (Docx.paragraphs doc))
    /\ Docx.tables (Docx.insert_at k (Docx.BPara q) doc) = Docx.tables doc.
Proof.
  unfold texts_of.
  induction k as [|k IH]; intros doc.
  - destruct doc; cbn [Docx.insert_at Docx.paragraphs Docx.tables map List.length];
      repeat split; constructor; apply subsequence_refl.
  - destruct doc as [|b doc].
    + cbn. repeat split. constructor.
    + destruct (IH doc) as (H1 & H2 & H3).
      cbn [Docx.insert_at]. destruct b;
        cbn [Docx.paragraphs Docx.tables map List.length];
        repeat split;
        first [assumption | constructor; exact H1
              | now rewrite H2 | now rewrite H3].
Qed.

Lemma text_highlight (severity : string) (p : Docx.Paragraph) :
  Docx.text (Processor._highlight_paragraph severity p) = Docx.text p.
Proof.
  unfold Docx.text, Processor._highlight_paragraph.
  rewrite map_map. reflexivity.
Qed.

(** Changing the formatting of one paragraph keeps all texts and tables. *)
Lemma update_paragraph_keeps (f : Docx.Paragraph -> Docx.Paragraph) :
  (forall p, Docx.text (f p) = Docx.text p) ->
  forall (k : nat) (doc : Docx.Document),
    texts_of (Docx.update_paragraph k f doc) = texts_of doc
    /\ List.length (Docx.paragraphs (Docx.update_paragraph k f doc))
       = List.length (Docx.paragraphs doc)
    /\ Docx.tables (Docx.update_paragraph k f doc) = Docx.tables doc.
Proof.
  intros Hf. unfold texts_of, Docx.update_paragraph.
  induction k as [|k IH]; intros [|b doc]; cbn [Docx.update_at];
    try (repeat split; reflexivity).
  - destruct b; cbn [Docx.paragraphs Docx.tables map List.length];
      repeat split; try reflexivity. now rewrite Hf.
  - destruct (IH doc) as (H1 & H2 & H3).
    destruct b; cbn [Docx.paragraphs Docx.tables map List.length];
      repeat split;
      first [assumption | now rewrite H1 | now rewrite H2 | now rewrite H3].
Qed.

Lemma insert_at_own_place {A : Type} :
  forall (j : nat) (l : list A) (b : A),
    nth_error l j = Some b -> Docx.insert_at j b (Docx.remove_at j l) = l.
Proof.
  induction j as [|j IH]; intros [|a l] b H; cbn [nth_error] in H;
    try discriminate.
  - injection H as ->. cbn [Docx.remove_at]. destruct l; reflexivity.
  - cbn [Docx.remove_at Docx.insert_at]. now rewrite IH.
Qed.

(** Moving a child of the body puts it back somewhere among the others. *)
Lemma insert_child_is_insert (doc : Docx.Document) (index : Z) (j : nat)
      (b : Docx.Block) :
  nth_error doc j = Some b ->
  exists k, Docx.insert_child doc index j
            = Docx.insert_at k b (Docx.remove_at j doc).
Proof.
  intros H. unfold Docx.insert_child. rewrite H.
  destruct (Docx.py_index (List.length doc) index) as [i|].
  - destruct (Nat.eqb i j) eqn:E.
    + exists j. symmetry. now apply insert_at_own_place.
    + eexists. reflexivity.
  - exists (List.length (Docx.remove_at j doc)). now rewrite insert_at_end.
Qed.

Lemma update_paragraph_insert (f : Docx.Paragraph -> Docx.Paragraph)
      (q : Docx.Paragraph) (j : nat) (doc : Docx.Document) :
  (j <= List.length doc)%nat ->
  Docx.update_paragraph j f (Docx.insert_at j (Docx.BPara q) doc)
  = Docx.insert_at j (Docx.BPara (f q)) doc.
Proof.
  intros Hj. unfold Docx.update_paragraph. now rewrite update_at_insert_at.
Qed.

(** [_add_comment_paragraph] puts the comment paragraph somewhere into the
    body and changes nothing else. *)
Lemma add_comment_paragraph_is_insert (doc : Docx.Document) (insert_index : Z)
      (comment_text severity : string) :
  exists k,
    Processor._add_comment_paragraph doc insert_index comment_text severity
    = Docx.insert_at k (Docx.BPara (comment_paragraph comment_text severity)) doc.
Proof.
  unfold Processor._add_comment_paragraph.
  destruct (add_paragraph_is_insert doc) as (j & Hj & ->). cbv beta iota.
  rewrite !update_paragraph_insert by assumption.
  change (Docx.update_first_run _ (Docx.set_text comment_text))
    with (comment_paragraph comment_text severity).
  set (c := Docx.BPara (comment_paragraph comment_text severity)).
  destruct (insert_index <? _).
  - destruct (insert_child_is_insert (Docx.insert_at j c doc) insert_index j c
                (nth_error_insert_at_here c j doc Hj)) as (k & ->).
    exists k. now rewrite remove_at_insert_at.
  - exists j. reflexivity.
Qed.

Lemma body_index_some (doc : Docx.Document) :
  forall i, (i < List.length (Docx.paragraphs doc))%nat ->
            exists b, Docx.body_index doc i = Some b.
Proof.
  induction doc as [|blk doc IH]; intros i Hi; [simpl in Hi; lia|].
  destruct blk; cbn [Docx.paragraphs Docx.body_index List.length] in *.
  - destruct i as [|i]; [now exists 0%nat|].
    destruct (IH i) as (b & ->); [lia|]. now eexists.
  - destruct (IH i Hi) as (b & ->). now eexists.
  - destruct (IH i Hi) as (b & ->). now eexists.
Qed.

(** The loop over the issues keeps every paragraph text and every table, and
    adds at most one paragraph per issue. *)
Lemma annotate_issues_keeps (issues : list Issue) :
  forall doc out,
    Processor.annotate_issues doc issues = Some out ->
    subsequence (texts_of doc) (texts_of out)
    /\ Docx.tables out = Docx.tables doc
    /\ (List.length (Docx.paragraphs doc) <= List.length (Docx.paragraphs out)
        <= List.length (Docx.paragraphs doc) + List.length issues)%nat.
Proof.
  induction issues as [|i rest IH]; intros doc out H;
    cbn [Processor.annotate_issues] in H.
  - injection H as <-.
    repeat split; first [apply subsequence_refl | simpl; lia].
  - destruct (paragraph_index i <? Z.of_nat (List.length (Docx.paragraphs doc))).
    + destruct (Docx.py_index _ _) as [n|]; [|discriminate].
      destruct (Docx.body_index doc n) as [b|]; [|discriminate].
      destruct (add_comment_paragraph_is_insert
                  (Docx.update_paragraph b
                     (Processor._highlight_paragraph (severity i)) doc)
                  (paragraph_index i + 1) (Processor._format_comment i)
                  (severity i)) as (k & E).
      rewrite E in H. apply IH in H. destruct H as (H1 & H2 & H3).
      destruct (insert_paragraph_keeps
                  (comment_paragraph (Processor._format_comment i) (severity i))
                  k (Docx.update_paragraph b
                       (Processor._highlight_paragraph (severity i)) doc))
        as (K1 & K2 & K3).
      destruct (update_paragraph_keeps
                  (Processor._highlight_paragraph (severity i))
                  (text_highlight (severity i)) b doc) as (U1 & U2 & U3).
      rewrite U1 in K1. rewrite K3, U3 in H2. rewrite K2, U2 in H3.
      split; [eapply subsequence_trans; eassumption|].
      split; [exact H2|]. cbn [List.length]. lia.
    + apply IH in H. destruct H as (H1 & H2 & H3).
      split; [exact H1|]. split; [exact H2|]. cbn [List.length]. lia.
Qed.

(** The loop succeeds and adds exactly one paragraph per issue when the
    document has a paragraph and every index is at least -1 and below the
    number of paragraphs. *)
Lemma annotate_issues_all (issues : list Issue) :
  forall doc,
    (0 < List.length (Docx.paragraphs doc))%nat ->
    Forall (fun i => -1 <= paragraph_index i
                     < Z.of_nat (List.length (Docx.paragraphs doc))) issues ->
    exists out,
      Processor.annotate_issues doc issues = Some out
      /\ List.length (Docx.paragraphs out)
         = (List.length (Docx.paragraphs doc) + List.length issues)%nat.
Proof.
  induction issues as [|i rest IH]; intros doc Hpos Hall;
    cbn [Processor.annotate_issues].
  - exists doc. split; [reflexivity | simpl; lia].
  - inversion Hall as [|? ? Hi Hrest]; subst.
    replace (paragraph_index i <? Z.of_nat (List.length (Docx.paragraphs doc)))
      with true by (symmetry; apply Z.ltb_lt; lia).
    assert (Hpy : exists n, Docx.py_index (List.length (Docx.paragraphs doc))
                                          (paragraph_index i) = Some n
                            /\ (n < List.length (Docx.paragraphs doc))%nat).
    { unfold Docx.py_index.
      destruct (0 <=? paragraph_index i) eqn:E0.
      - apply Z.leb_le in E0.
        replace (paragraph_index i <? Z.of_nat (List.length (Docx.paragraphs doc)))
          with true by (symmetry; apply Z.ltb_lt; lia).
        cbn [andb]. eexists. split; [reflexivity | lia].
      - apply Z.leb_gt in E0. cbn [andb].
        replace (paragraph_index i <? 0) with true
          by (symmetry; apply Z.ltb_lt; lia).
        replace (0 <=? Z.of_nat (List.length (Docx.paragraphs doc))
                       + paragraph_index i)
          with true by (symmetry; apply Z.leb_le; lia).
        cbn [andb]. eexists. split; [reflexivity | lia]. }
    destruct Hpy as (n & -> & Hn).
    destruct (body_index_some doc n Hn) as (b & ->).
    destruct (add_comment_paragraph_is_insert
                (Docx.update_paragraph b
                   (Processor._highlight_paragraph (severity i)) doc)
                (paragraph_index i + 1) (Processor._format_comment i)
                (severity i)) as (k & ->).
    destruct (insert_paragraph_keeps
                (comment_paragraph (Processor._format_comment i) (severity i))
                k (Docx.update_paragraph b
                     (Processor._highlight_paragraph (severity i)) doc))
      as (_ & K2 & _).
    destruct (update_paragraph_keeps
                (Processor._highlight_paragraph (severity i))
                (text_highlight (severity i)) b doc) as (_ & U2 & _).
    destruct (IH (Docx.insert_at k
                    (Docx.BPara (comment_paragraph (Processor._format_comment i)
                                                   (severity i)))
                    (Docx.update_paragraph b
                       (Processor._highlight_paragraph (severity i)) doc)))
      as (out & Hout & Hlen).
    { rewrite K2, U2. lia. }
    { eapply Forall_impl; [|exact Hrest]. intros i' Hi'. cbv beta in *.
      rewrite K2, U2. lia. }
    exists out. split; [exact Hout|]. rewrite Hlen, K2, U2. cbn [List.length]. lia.
Qed.

Lemma grown_by_insert (q : Docx.Paragraph) (k : nat) (doc : Docx.Document) :
  grown_by 1 doc (Docx.insert_at k (Docx.BPara q) doc).
Proof.
  destruct (insert_paragraph_keeps q k doc) as (H1 & H2 & H3).
  repeat split; [exact H1 | exact H3 | lia].
Qed.

Lemma grown_by_trans (n m : nat) (a b c : Docx.Document) :
  grown_by n a b -> grown_by m b c -> grown_by (n + m) a c.
Proof.
  intros (A1 & A2 & A3) (B1 & B2 & B3). repeat split.
  - eapply subsequence_trans; eassumption.
  - congruence.
  - lia.
Qed.

Section AnnotatedCopyOfAnyDocument.

Variable _get_current_date : nat -> string.
Variable set_order : list string -> list string.

(** The header is written exactly when the document has a paragraph; it adds
    four paragraphs. *)
Lemma add_review_header_grows (doc : Docx.Document) (analysis : Analysis) :
  (Docx.paragraphs doc = []
   /\ Processor._add_review_header _get_current_date doc analysis = None)
  \/ (Docx.paragraphs doc <> []
      /\ exists out,
           Processor._add_review_header _get_current_date doc analysis = Some out
           /\ grown_by 4 doc out).
Proof.
  unfold Processor._add_review_header.
  destruct (Docx.paragraphs doc) as [|p ps] eqn:E; [left; now split|].
  right. split; [discriminate|].
  destruct doc as [|c doc]; [discriminate|].
  rewrite insert_new_front.
  match goal with
  | |- context [Docx.update_paragraph 0 ?f (Docx.BPara [] :: ?r)] =>
      change (Docx.update_paragraph 0 f (Docx.BPara [] :: r))
        with (Docx.insert_at 0 (Docx.BPara (f [])) r)
  end.
  cbv beta.
  match goal with
  | |- context [Docx.insert_at 0 (Docx.BPara ?h) (c :: doc)] =>
      pose proof (grown_by_insert h 0 (c :: doc)) as G0;
      set (d0 := Docx.insert_at 0 (Docx.BPara h) (c :: doc)) in *
  end.
  destruct (add_paragraph_is_insert d0) as (j1 & Hj1 & ->). cbv beta iota.
  rewrite update_paragraph_insert by assumption.
  match goal with
  | |- context [Docx.insert_at j1 (Docx.BPara ?q) d0] =>
      pose proof (grown_by_insert q j1 d0) as G1;
      set (d1 := Docx.insert_at j1 (Docx.BPara q) d0) in *
  end.
  destruct (add_paragraph_is_insert d1) as (j2 & Hj2 & ->). cbv beta iota.
  rewrite update_paragraph_insert by assumption.
  match goal with
  | |- context [Docx.insert_at j2 (Docx.BPara ?q) d1] =>
      pose proof (grown_by_insert q j2 d1) as G2;
      set (d2 := Docx.insert_at j2 (Docx.BPara q) d1) in *
  end.
  destruct (add_paragraph_is_insert d2) as (j3 & Hj3 & ->). cbv beta iota.
  pose proof (grown_by_insert [] j3 d2) as G3.
  eexists. split; [reflexivity|].
  exact (grown_by_trans 3 1 _ _ _
           (grown_by_trans 2 1 _ _ _ (grown_by_trans 1 1 _ _ _ G0 G1) G2) G3).
Qed.

(** The closing summary adds four paragraphs. *)
Lemma add_compliance_summary_grows (doc : Docx.Document) (analysis : Analysis) :
  grown_by 4 doc
    (Processor._add_compliance_summary _get_current_date set_order doc analysis).
Proof.
  unfold Processor._add_compliance_summary.
  destruct (add_paragraph_is_insert doc) as (j0 & Hj0 & ->). cbv beta iota.
  pose proof (grown_by_insert [] j0 doc) as G0.
  set (d0 := Docx.insert_at j0 (Docx.BPara []) doc) in *.
  destruct (add_paragraph_is_insert d0) as (j1 & Hj1 & ->). cbv beta iota.
  rewrite update_paragraph_insert by assumption.
  match goal with
  | |- context [Docx.insert_at j1 (Docx.BPara ?q) d0] =>
      pose proof (grown_by_insert q j1 d0) as G1;
      set (d1 := Docx.insert_at j1 (Docx.BPara q) d0) in *
  end.
  destruct (add_paragraph_is_insert d1) as (j2 & Hj2 & ->). cbv beta iota.
  rewrite update_paragraph_insert by assumption.
  match goal with
  | |- context [Docx.insert_at j2 (Docx.BPara ?q) d1] =>
      pose proof (grown_by_insert q j2 d1) as G2;
      set (d2 := Docx.insert_at j2 (Docx.BPara q) d1) in *
  end.
  destruct (add_paragraph_is_insert d2) as (j3 & Hj3 & ->). cbv beta iota.
  rewrite update_paragraph_insert by assumption.
  match goal with
  | |- context [Docx.insert_at j3 (Docx.BPara ?q) d2] =>
      pose proof (grown_by_insert q j3 d2) as G3
  end.
  exact (grown_by_trans 3 1 _ _ _
           (grown_by_trans 2 1 _ _ _ (grown_by_trans 1 1 _ _ _ G0 G1) G2) G3).
Qed.

Lemma reviewed_copy_keeps (doc : Docx.Document) (filename : string)
      (analysis : Analysis) (saved_as : string) (out : Docx.Document) :
  Processor._create_reviewed_document _get_current_date set_order
    (Docx.Readable doc) filename analysis
  = Some (saved_as, out) ->
  saved_as = ("reviewed_" ++ filename)%string
  /\ subsequence (texts_of doc) (texts_of out)
  /\ Docx.tables out = Docx.tables doc
  /\ (List.length (Docx.paragraphs doc) + 8
      <= List.length (Docx.paragraphs out)
      <= List.length (Docx.paragraphs doc) + 8
         + List.length (issues_found analysis))%nat.
Proof.
  intros H. unfold Processor._create_reviewed_document in H.
  destruct (add_review_header_grows doc analysis)
    as [(_ & E) | (_ & d1 & E & (H1 & H2 & H3))]; rewrite E in H; [discriminate|].
  destruct (Processor.annotate_issues d1 (issues_found analysis)) as [d2|] eqn:E2;
    [|discriminate].
  injection H as <- <-.
  destruct (annotate_issues_keeps _ _ _ E2) as (A1 & A2 & A3).
  destruct (add_compliance_summary_grows d2 analysis) as (S1 & S2 & S3).
  split; [reflexivity|]. split; [|split].
  - eapply subsequence_trans; [exact H1|].
    eapply subsequence_trans; [exact A1 | exact S1].
  - congruence.
  - lia.
Qed.

(** X13. Whenever a reviewed copy is produced, the file was readable, the copy
    is saved under "reviewed_" and the file name, every paragraph text of the
    original is in the copy, unchanged and in the original order, the tables
    are the original ones, and the copy has eight paragraphs more (header and
    summary) plus at most one comment per issue. *)
Theorem X13_reviewed_copy_keeps_the_original_text :
  forall (file : Docx.File) (filename : string) (analysis : Analysis)
         (saved_as : string) (out : Docx.Document),
    Processor._create_reviewed_document _get_current_date set_order file filename
                                        analysis
    = Some (saved_as, out) ->
    exists doc,
      file = Docx.Readable doc
      /\ saved_as = ("reviewed_" ++ filename)%string
      /\ subsequence (texts_of doc) (texts_of out)
      /\ Docx.tables out = Docx.tables doc
      /\ (List.length (Docx.paragraphs doc) + 8
          <= List.length (Docx.paragraphs out)
          <= List.length (Docx.paragraphs doc) + 8
             + List.length (issues_found analysis))%nat.
Proof.
  intros file filename analysis saved_as out H.
  destruct file as [doc|e]; [|discriminate].
  exists doc. split; [reflexivity|].
  now apply reviewed_copy_keeps.
Qed.

Lemma reviewed_copy_none (doc : Docx.Document) (filename : string)
      (analysis : Analysis) :
  Docx.paragraphs doc = [] ->
  Processor._create_reviewed_document _get_current_date set_order
    (Docx.Readable doc) filename analysis = None.
Proof.
  intros Hnone. unfold Processor._create_reviewed_document.
  destruct (add_review_header_grows doc analysis)
    as [(_ & E) | (Hsome & _)]; [now rewrite E | contradiction].
Qed.

Lemma reviewed_copy_some (doc : Docx.Document) (filename : string)
      (analysis : Analysis) :
  Docx.paragraphs doc <> [] ->
  Forall (fun i =>
            -1 <= paragraph_index i
            /\ (paragraph_index i < Z.of_nat (List.length (Docx.paragraphs doc))
                \/ paragraph_index i = 0))
         (issues_found analysis) ->
  exists out,
    Processor._create_reviewed_document _get_current_date set_order
      (Docx.Readable doc) filename analysis
    = Some (("reviewed_" ++ filename)%string, out)
    /\ List.length (Docx.paragraphs out)
       = (List.length (Docx.paragraphs doc) + 8
          + List.length (issues_found analysis))%nat.
Proof.
  intros Hsome B. unfold Processor._create_reviewed_document.
  destruct (add_review_header_grows doc analysis)
    as [(Hnone & _) | (_ & d1 & E & (H1 & H2 & H3))]; [contradiction|].
  rewrite E.
  assert (Hpos : (0 < List.length (Docx.paragraphs doc))%nat)
    by (destruct (Docx.paragraphs doc); [congruence | simpl; lia]).
  destruct (annotate_issues_all (issues_found analysis) d1) as (d2 & E2 & L2).
  - lia.
  - eapply Forall_impl; [|exact B]. intros i (Hlow & Hup). cbv beta.
    rewrite H3. lia.
  - rewrite E2.
    destruct (add_compliance_summary_grows d2 analysis) as (_ & _ & S3).
    eexists. split; [reflexivity|]. rewrite S3, L2, H3. lia.
Qed.


End AnnotatedCopyOfAnyDocument.

(** The theorem of X13 at the document "Preamble", "in the Dubai Court",
    "signature" reviewed as a board resolution: the copy is produced and keeps
    the three texts in order. *)
Lemma X13_witness :
  exists out,
    Processor._create_reviewed_document
      (fun _ => "2025-01-01 00:00:00"%string) (fun categories => categories)
      (Docx.Readable (document_of ["Preamble"; "in the Dubai Court"; "signature"]))
      "resolution.docx"
      (fst (analyze_document unit no_guidance Config.RED_FLAGS
              (Docx.Readable
                 (document_of ["Preamble"; "in the Dubai Court"; "signature"]))
              "board_resolution" tt))
    = Some ("reviewed_resolution.docx"%string, out)
    /\ subsequence ["Preamble"; "in the Dubai Court"; "signature"]%string
                   (texts_of out).
Proof.
  destruct (Processor._create_reviewed_document
              (fun _ => "2025-01-01 00:00:00"%string)
              (fun categories => categories)
              (Docx.Readable
                 (document_of ["Preamble"; "in the Dubai Court"; "signature"]))
              "resolution.docx"
              (fst (analyze_document unit no_guidance Config.RED_FLAGS
                      (Docx.Readable
                         (document_of
                            ["Preamble"; "in the Dubai Court"; "signature"]))
                      "board_resolution" tt)))
    as [[saved_as out]|] eqn:E; [|vm_compute in E; discriminate].
  destruct (X13_reviewed_copy_keeps_the_original_text
              _ _ _ _ _ _ _ E) as (doc & Hdoc & -> & Hsub & _).
  injection Hdoc as <-.
  exists out. split; [reflexivity | exact Hsub].
Defined.

(* ------------------------------------------------------------------------- *)
(** ** The batch: [process_documents] *)

Lemma path_join_nonempty (a : string) (c : ascii) (b : string) :
  PyText.path_join a (String c b) <> ""%string.
Proof.
  unfold PyText.path_join.
  destruct (String.prefix "/" (String c b)); [discriminate|].
  destruct (String.eqb a ""); [discriminate|].
  destruct (String.eqb _ "/"); destruct a; discriminate.
Qed.

Lemma issues_view_indices (file : Docx.File) (doc_type : string)
      (doc : Docx.Document) :
  file = Docx.Readable doc ->
  Forall
    (fun i =>
       -1 <= paragraph_index i
       /\ (paragraph_index i < Z.of_nat (List.length (Docx.paragraphs doc))
           \/ paragraph_index i = 0))
    (issues_view file doc_type).
Proof. intros ->. apply view_indices_bounds. Qed.

Lemma issues_view_severities (file : Docx.File) (doc_type : string) :
  Forall (fun i => severity i = "High" \/ severity i = "Medium")
         (issues_view file doc_type).
Proof.
  destruct file as [doc|e]; [|constructor].
  apply view_severities, configured_flag_severities.
Qed.

Lemma length_concat_sum {A B : Type} (f : A -> list B) (l : list A) :
  Z.of_nat (List.length (concat (map f l)))
  = fold_right Z.add 0 (map (fun a => Z.of_nat (List.length (f a))) l).
Proof.
  induction l as [|a l IH]; [reflexivity|].
  cbn [map concat fold_right]. rewrite length_app, Nat2Z.inj_add, IH.
  reflexivity.
Qed.

Section BatchFacts.

Variable World : Type.
Variable get_compliance_guidance :
  string -> string -> World -> option string * World.
Variable Enhanced : Type.
Variable generate_enhanced_analysis :
  string -> string -> list Issue -> World -> option Enhanced * World.
Variable _get_current_date : nat -> nat -> string.
Variable set_order : list string -> list string.

(** The loop writes one record per uploaded file, in the order of the upload,
    and one reviewed copy for every record with a path. *)
Lemma process_files_records (output_dir : string)
      (uploaded_files : list Batch.FileInfo) :
  forall (n : nat) (w : World),
    Forall2 (record_of output_dir) uploaded_files
            (fst (fst (Batch.process_files World get_compliance_guidance Enhanced
                   generate_enhanced_analysis _get_current_date set_order
                   output_dir n uploaded_files w)))
    /\ map fst (snd (fst (Batch.process_files World get_compliance_guidance Enhanced
                   generate_enhanced_analysis _get_current_date set_order
                   output_dir n uploaded_files w)))
       = filter (fun p => negb (String.eqb p ""))
                (map (Batch.reviewed_document_path Enhanced)
                     (fst (fst (Batch.process_files World get_compliance_guidance Enhanced
                   generate_enhanced_analysis _get_current_date set_order
                   output_dir n uploaded_files w))))
    /\ Forall (copy_of_upload output_dir uploaded_files)
              (snd (fst (Batch.process_files World get_compliance_guidance Enhanced
                   generate_enhanced_analysis _get_current_date set_order
                   output_dir n uploaded_files w))).
Proof.
  induction uploaded_files as [|file_info rest IH]; intros n w.
  - cbn. repeat split; constructor.
  - cbn [Batch.process_files]. unfold bind, ret.
    destruct file_info as [file filename]. cbn [Batch.path Batch.name].
    set (doc_type := Classifier.classify file filename).
    pose proof (analyze_document_score World get_compliance_guidance
                  Config.RED_FLAGS file doc_type w) as Hscore.
    assert (Hview : map without_guidance
                        (issues_found
                           (fst (analyze_document World get_compliance_guidance
                                   Config.RED_FLAGS file doc_type w)))
                    = issues_view file doc_type).
    { destruct file as [doc|e]; [apply analyze_document_view | reflexivity]. }
    destruct (analyze_document World get_compliance_guidance Config.RED_FLAGS
                               file doc_type w) as [analysis w1].
    cbn [fst] in Hscore, Hview.
    destruct (generate_enhanced_analysis _ doc_type (issues_found analysis) w1)
      as [enhanced w2].
    specialize (IH (S n) w2).
    destruct (Batch.process_files World get_compliance_guidance Enhanced
                   generate_enhanced_analysis _get_current_date set_order
                   output_dir (S n) rest w2) as [[records written] w3].
    cbn [fst snd] in IH |- *. destruct IH as (IH1 & IH2 & IH3).
    assert (Hweak : Forall (copy_of_upload output_dir
                              (Batch.mkFileInfo file filename :: rest)) written).
    { eapply Forall_impl; [|exact IH3].
      intros c (f & doc & Hin & Hrest). exists f, doc. split; [now right|].
      exact Hrest. }
    assert (Hrecord :
              forall path_written,
                path_written = reviewed_path output_dir
                                 (Batch.mkFileInfo file filename) ->
                record_of output_dir (Batch.mkFileInfo file filename)
                  (Batch.mkDocResult Enhanced filename doc_type path_written
                     (Batch.mkAnalysisRecord Enhanced analysis enhanced)
                     (compliance_score analysis)
                     (Z.of_nat (List.length (issues_found analysis))))).
    { intros path_written ->. unfold record_of, issues_of.
      cbn [Batch.original_filename Batch.document_type Batch.analysis
           Batch.detector_analysis Batch.compliance_score Batch.issues_count
           Batch.reviewed_document_path Batch.path Batch.name].
      repeat split; try reflexivity; [exact Hview | exact Hscore]. }
    unfold reviewed_path, has_paragraph in Hrecord. cbn [Batch.path Batch.name] in Hrecord.
    destruct file as [doc|e].
    + destruct (Docx.paragraphs doc) as [|p ps] eqn:Eps.
      * rewrite (reviewed_copy_none (_get_current_date n) set_order doc filename
                   analysis Eps).
        cbn [map filter Batch.reviewed_document_path String.eqb negb]. repeat split.
        -- constructor; [now apply Hrecord | exact IH1].
        -- exact IH2.
        -- exact Hweak.
      * destruct (reviewed_copy_some (_get_current_date n) set_order doc filename
                    analysis) as (out & Eout & _).
        { rewrite Eps. discriminate. }
        { pose proof (issues_view_indices (Docx.Readable doc) doc_type doc
                        eq_refl) as B.
          rewrite <- Hview, Forall_map in B. exact B. }
        rewrite Eout. cbn [map filter fst Batch.reviewed_document_path].
        destruct (String.eqb (PyText.path_join output_dir
                                ("reviewed_" ++ filename)) "") eqn:Eempty.
        { apply String.eqb_eq in Eempty.
          now apply path_join_nonempty in Eempty. }
        cbn [negb]. repeat split.
        -- constructor; [now apply Hrecord | exact IH1].
        -- cbn [map fst]. now rewrite IH2.
        -- constructor; [|exact Hweak].
           destruct (reviewed_copy_keeps _ _ _ _ _ _ _ Eout)
             as (_ & Hsub & Htab & _).
           exists (Batch.mkFileInfo (Docx.Readable doc) filename), doc.
           cbn [fst snd Batch.path Batch.name].
           split; [now left|]. repeat split; [exact Hsub | exact Htab].
    + cbn [Processor._create_reviewed_document map filter
         Batch.reviewed_document_path String.eqb negb].
      repeat split.
      * constructor; [now apply Hrecord | exact IH1].
      * exact IH2.
      * exact Hweak.
Qed.

Lemma process_documents_documents (uploaded_files : list Batch.FileInfo)
      (output_dir : string) (w : World) :
  Batch.documents Enhanced (fst (Batch.process_documents World get_compliance_guidance Enhanced
                   generate_enhanced_analysis _get_current_date set_order
                   uploaded_files output_dir w))
  = fst (fst (Batch.process_files World get_compliance_guidance Enhanced
                   generate_enhanced_analysis _get_current_date set_order
                   output_dir 0 uploaded_files w))
  /\ Batch.written_documents Enhanced
       (fst (Batch.process_documents World get_compliance_guidance Enhanced
                   generate_enhanced_analysis _get_current_date set_order
                   uploaded_files output_dir w))
     = snd (fst (Batch.process_files World get_compliance_guidance Enhanced
                   generate_enhanced_analysis _get_current_date set_order
                   output_dir 0 uploaded_files w)).
Proof.
  unfold Batch.process_documents, bind, ret.
  destruct (Batch.process_files World get_compliance_guidance Enhanced
                   generate_enhanced_analysis _get_current_date set_order
                   output_dir 0 uploaded_files w) as [[records written] w1].
  split; reflexivity.
Qed.

End BatchFacts.




Lemma records_of_names (Enhanced : Type) (output_dir : string)
      (uploaded_files : list Batch.FileInfo)
      (records : list (Batch.DocResult Enhanced)) :
  Forall2 (record_of output_dir) uploaded_files records ->
  map (Batch.original_filename Enhanced) records = map Batch.name uploaded_files
  /\ List.length records = List.length uploaded_files
  /\ map (Batch.issues_count Enhanced) records
     = map (fun d => Z.of_nat (List.length (issues_of d))) records
  /\ Forall (fun i => severity i = "High" \/ severity i = "Medium")
            (concat (map issues_of records)).
Proof.
  induction 1 as [|f d files records (A & B & C & D & E & G) _ IH].
  - repeat split. constructor.
  - destruct IH as (I1 & I2 & I3 & I4). cbn [map List.length concat].
    rewrite I1, I2, <- I3, A, E. repeat split.
    apply Forall_app. split; [|exact I4].
    pose proof (issues_view_severities (Batch.path f)
                  (Batch.document_type Enhanced d)) as V.
    rewrite <- C, Forall_map in V. exact V.
Qed.


Section BatchReport.

Variable World : Type.
Variable get_compliance_guidance :
  string -> string -> World -> option string * World.
Variable Enhanced : Type.
Variable generate_enhanced_analysis :
  string -> string -> list Issue -> World -> option Enhanced * World.
Variable _get_current_date : nat -> nat -> string.
Variable set_order : list string -> list string.

(** X16. The counts of a batch report agree with one another: there is one
    record per uploaded file, in the order of the upload and under its name;
    the total of the summary is the sum of the issue counts of the records,
    the number of issues written to compliance_summary.json, and the critical
    issues plus the warnings; the overall compliance is "No documents"
    exactly for an empty upload and otherwise repeats the total of the issues
    and the number of documents. *)
Theorem X16_counts_of_the_batch_report_agree :
  forall (uploaded_files : list Batch.FileInfo) (output_dir : string) (w : World),
    let r := fst (Batch.process_documents World get_compliance_guidance Enhanced
                    generate_enhanced_analysis _get_current_date set_order
                    uploaded_files output_dir w) in
    map (Batch.original_filename Enhanced) (Batch.documents Enhanced r)
    = map Batch.name uploaded_files
    /\ Batch.total_documents (Batch.summary Enhanced r)
       = Z.of_nat (List.length (Batch.documents Enhanced r))
    /\ Batch.document_types_found (Batch.summary Enhanced r)
       = map (Batch.document_type Enhanced) (Batch.documents Enhanced r)
    /\ Batch.total_issues (Batch.summary Enhanced r)
       = fold_right Z.add 0
           (map (Batch.issues_count Enhanced) (Batch.documents Enhanced r))
    /\ Batch.total_issues (Batch.summary Enhanced r)
       = Z.of_nat (List.length
                     (Batch.issues_found (snd (Batch.written_summary Enhanced r))))
    /\ Batch.total_issues (Batch.summary Enhanced r)
       = Batch.critical_issues (Batch.summary Enhanced r)
         + Batch.warnings (Batch.summary Enhanced r)
    /\ match Batch.overall_compliance Enhanced r with
       | Batch.NoDocuments => uploaded_files = []
       | Batch.OverallOf _ _ total_issues documents_reviewed =>
           uploaded_files <> []
           /\ total_issues = Batch.total_issues (Batch.summary Enhanced r)
           /\ documents_reviewed
              = Batch.total_documents (Batch.summary Enhanced r)
       end.
Proof.
  intros. subst r. unfold Batch.process_documents, bind, ret.
  destruct (process_files_records World get_compliance_guidance Enhanced
              generate_enhanced_analysis _get_current_date set_order
              output_dir uploaded_files 0%nat w) as (R & _ & _).
  destruct (Batch.process_files World get_compliance_guidance Enhanced
              generate_enhanced_analysis _get_current_date set_order
              output_dir 0 uploaded_files w) as [[records written] w'].
  cbn [fst snd] in *.
  destruct (records_of_names _ _ _ _ R) as (N1 & N2 & N3 & N4).
  cbn [Batch.summary Batch.documents Batch.written_summary
       Batch.overall_compliance Batch.total_documents
       Batch.document_types_found Batch.total_issues Batch.critical_issues
       Batch.warnings Batch._save_summary_json snd Batch.issues_found].
  change (fun doc : Batch.DocResult Enhanced =>
            issues_found (Batch.detector_analysis Enhanced
                            (Batch.analysis Enhanced doc)))
    with (@issues_of Enhanced).
  assert (Hsum : Z.of_nat (List.length (concat (map issues_of records)))
                 = fold_right Z.add 0 (map (Batch.issues_count Enhanced) records))
    by (rewrite N3; apply length_concat_sum).
  split; [exact N1|]. split; [now rewrite N2|]. split; [reflexivity|].
  split; [exact Hsum|]. split; [|split].
  - rewrite !length_concat_sum. f_equal. apply map_ext. intros d.
    unfold Batch.simplified_issues, issues_of. now rewrite length_map.
  - rewrite !count_severity_number_of.
    symmetry. apply number_of_high_or_medium. exact N4.
  - unfold Batch._calculate_overall_compliance.
    destruct records as [|d rest].
    + destruct uploaded_files; [reflexivity | discriminate N2].
    + split; [destruct uploaded_files; [discriminate N2 | discriminate]|].
      split; [now rewrite Hsum | now rewrite N2].
Qed.


(** X18. An uploaded file that cannot be opened is not left out of the batch:
    it has its record, with compliance score 0, no issue, the error of the
    detector and no reviewed copy, and its type is what its name alone says. *)
Theorem X18_unreadable_upload_is_reported_with_score_zero :
  forall (uploaded_files : list Batch.FileInfo) (output_dir : string) (w : World),
    Forall2
      (fun file_info d =>
         forall e,
           Batch.path file_info = Docx.Unreadable e ->
           Batch.original_filename Enhanced d = Batch.name file_info
           /\ Batch.document_type Enhanced d
              = Classifier.classify (Docx.Unreadable "") (Batch.name file_info)
           /\ Batch.compliance_score Enhanced d = 0
           /\ Batch.issues_count Enhanced d = 0
           /\ issues_of d = []
           /\ Batch.reviewed_document_path Enhanced d = ""%string)
      uploaded_files
      (Batch.documents Enhanced
         (fst (Batch.process_documents World get_compliance_guidance Enhanced
                 generate_enhanced_analysis _get_current_date set_order
                 uploaded_files output_dir w))).
Proof.
  intros.
  destruct (process_documents_documents World get_compliance_guidance Enhanced
              generate_enhanced_analysis _get_current_date set_order
              uploaded_files output_dir w) as (-> & _).
  destruct (process_files_records World get_compliance_guidance Enhanced
              generate_enhanced_analysis _get_current_date set_order
              output_dir uploaded_files 0%nat w) as (R & _ & _).
  eapply Forall2_impl; [|exact R].
  intros f d (A & B & C & D & E & G) e He.
  unfold reviewed_path in G. rewrite He in B, C, D, G. cbn in C, G.
  apply map_eq_nil in C.
  rewrite E, C. repeat split; assumption.
Qed.

End BatchReport.

(* ------------------------------------------------------------------------- *)
(** ** The clause validators of rag_system.py *)

Lemma string_app_assoc (a b c : string) :
  ((a ++ b) ++ c)%string = (a ++ b ++ c)%string.
Proof. induction a as [|x a IH]; cbn; [reflexivity | now rewrite IH]. Qed.

Lemma lower_app (a b : string) :
  lower (a ++ b) = (lower a ++ lower b)%string.
Proof. induction a as [|x a IH]; cbn; [reflexivity | now rewrite IH]. Qed.

Lemma prefix_iff (sub s : string) :
  String.prefix sub s = true <-> exists rest, s = (sub ++ rest)%string.
Proof.
  revert s. induction sub as [|c sub IH]; intros s.
  - split; [exists s; reflexivity | destruct s; reflexivity].
  - destruct s as [|d s]; cbn [String.prefix].
    + split; [discriminate | intros (rest & H); discriminate H].
    + destruct (ascii_dec c d) as [->|Hne].
      * rewrite IH. split; intros (rest & H); exists rest.
        -- cbn. now rewrite H.
        -- cbn in H. now injection H.
      * split; [discriminate|]. intros (rest & H). cbn in H.
        injection H as H _. congruence.
Qed.

Lemma contains_iff (sub s : string) :
  contains sub s = true
  <-> exists before after, s = (before ++ sub ++ after)%string.
Proof.
  induction s as [|c s IH].
  - cbn [contains]. rewrite orb_false_r, prefix_iff. split.
    + intros (rest & H). exists ""%string, rest. exact H.
    + intros ([|x before] & after & H); [now exists after | discriminate H].
  - cbn [contains]. rewrite orb_true_iff, prefix_iff, IH. split.
    + intros [(rest & H) | (before & after & H)].
      * exists ""%string, rest. exact H.
      * exists (String c before), after. cbn. now rewrite H.
    + intros ([|x before] & after & H).
      * left. now exists after.
      * right. cbn in H. injection H as _ H. now exists before, after.
Qed.

Lemma contains_trans (a b c : string) :
  contains a b = true -> contains b c = true -> contains a c = true.
Proof.
  rewrite !contains_iff. intros (x & y & ->) (u & v & ->).
  exists (u ++ x)%string, (y ++ v)%string.
  now rewrite !string_app_assoc.
Qed.

Lemma contains_in_context (sub before after : string) :
  contains sub (before ++ sub ++ after) = true.
Proof. apply contains_iff. now exists before, after. Qed.

(** The loop over the incorrect phrases adds one issue and one suggestion for
    every phrase that occurs in the text, in the order of the phrases. *)
Lemma check_incorrect_view (text_lower what suggestion : string)
      (incorrect_phrases : list string) :
  forall issues suggestions,
    Rag.check_incorrect text_lower what suggestion incorrect_phrases
                        issues suggestions
    = (issues
       ++ map (fun incorrect => (what ++ incorrect)%string)
              (filter (fun incorrect => contains incorrect text_lower)
                      incorrect_phrases),
       suggestions
       ++ map (fun _ => suggestion)
              (filter (fun incorrect => contains incorrect text_lower)
                      incorrect_phrases)).
Proof.
  induction incorrect_phrases as [|p rest IH]; intros issues suggestions;
    cbn [Rag.check_incorrect filter map].
  - now rewrite !app_nil_r.
  - destruct (contains p text_lower); [|apply IH].
    rewrite IH. cbn [map]. now rewrite <- !app_assoc.
Qed.

Lemma filter_nil_iff {A : Type} (f : A -> bool) (l : list A) :
  filter f l = [] <-> forall x, In x l -> f x = false.
Proof.
  induction l as [|a l IH]; cbn [filter]; [now split|].
  destruct (f a) eqn:E; split.
  - discriminate.
  - intros H. specialize (H a (or_introl eq_refl)). congruence.
  - intros H x [<- | Hx]; [exact E | now apply IH].
  - intros H. apply IH. intros x Hx. apply H. now right.
Qed.

Lemma length_zero_app {A : Type} (l more : list A) :
  Nat.eqb (List.length (l ++ more)) 0 = true <-> l = [] /\ more = [].
Proof.
  rewrite Nat.eqb_eq, length_app. split.
  - intros H. split; [destruct l | destruct more]; cbn in H;
      first [reflexivity | lia].
  - intros (-> & ->). reflexivity.
Qed.

Lemma validate_jurisdiction_clause_view (text : string) :
  Rag.issues (Rag.validate_jurisdiction_clause text)
  = map (fun incorrect =>
           ("References incorrect jurisdiction: " ++ incorrect)%string)
        (filter (fun incorrect => contains incorrect (lower text))
                Rag.incorrect_jurisdictions)
    ++ (if (negb (existsb (fun pattern => contains pattern (lower text))
                          Rag.adgm_jurisdiction_patterns)
            && (contains "jurisdiction" (lower text)
                || contains "court" (lower text)))%bool
        then ["Missing ADGM Courts jurisdiction specification"%string]
        else [])
  /\ List.length (Rag.suggestions (Rag.validate_jurisdiction_clause text))
     = List.length (Rag.issues (Rag.validate_jurisdiction_clause text))
  /\ Rag.compliant (Rag.validate_jurisdiction_clause text)
     = Nat.eqb (List.length (Rag.issues (Rag.validate_jurisdiction_clause text))) 0.
Proof.
  unfold Rag.validate_jurisdiction_clause. rewrite check_incorrect_view.
  cbn [app].
  destruct (negb _ && _)%bool; cbn [Rag.issues Rag.suggestions Rag.compliant];
    rewrite ?app_nil_r, ?length_app, !length_map; repeat split.
Qed.

Lemma validate_governing_law_view (text : string) :
  Rag.issues (Rag.validate_governing_law text)
  = map (fun incorrect =>
           ("References incorrect governing law: " ++ incorrect)%string)
        (filter (fun incorrect => contains incorrect (lower text))
                Rag.incorrect_laws)
    ++ (if (negb (existsb (fun pattern => contains pattern (lower text))
                          Rag.adgm_law_patterns)
            && (contains "governing law" (lower text)
                || contains "governed by" (lower text)))%bool
        then ["Missing ADGM law as governing law"%string]
        else [])
  /\ List.length (Rag.suggestions (Rag.validate_governing_law text))
     = List.length (Rag.issues (Rag.validate_governing_law text))
  /\ Rag.compliant (Rag.validate_governing_law text)
     = Nat.eqb (List.length (Rag.issues (Rag.validate_governing_law text))) 0.
Proof.
  unfold Rag.validate_governing_law. rewrite check_incorrect_view.
  cbn [app].
  destruct (negb _ && _)%bool; cbn [Rag.issues Rag.suggestions Rag.compliant];
    rewrite ?app_nil_r, ?length_app, !length_map; repeat split.
Qed.

Lemma map_nil_iff {A B : Type} (f : A -> B) (l : list A) :
  map f l = [] <-> l = [].
Proof. destruct l; cbn; split; congruence. Qed.

(** X19. The jurisdiction validator gives as many suggestions as issues, and
    it calls a text compliant in exactly two cases: the lower-cased text
    mentions neither "court" nor "jurisdiction"; or it contains "adgm court"
    or "abu dhabi global market court" and none of the six incorrect
    jurisdictions. *)
Theorem X19_jurisdiction_validator_verdict :
  forall text : string,
    List.length (Rag.suggestions (Rag.validate_jurisdiction_clause text))
    = List.length (Rag.issues (Rag.validate_jurisdiction_clause text))
    /\ (Rag.compliant (Rag.validate_jurisdiction_clause text) = true
        <-> (contains "court" (lower text) = false
             /\ contains "jurisdiction" (lower text) = false)
            \/ (existsb (fun pattern => contains pattern (lower text))
                        Rag.adgm_jurisdiction_patterns = true
                /\ forall incorrect,
                     In incorrect Rag.incorrect_jurisdictions ->
                     contains incorrect (lower text) = false)).
Proof.
  intros text.
  destruct (validate_jurisdiction_clause_view text) as (Hi & Hs & Hc).
  split; [exact Hs|]. rewrite Hc, Hi, length_zero_app, map_nil_iff, filter_nil_iff.
  assert (Hcourt : forall incorrect,
             In incorrect Rag.incorrect_jurisdictions ->
             contains incorrect (lower text) = true ->
             contains "court" (lower text) = true).
  { intros incorrect Hin. apply contains_trans.
    cbn in Hin. repeat destruct Hin as [<- | Hin]; try reflexivity.
    destruct Hin. }
  assert (Hadgm : existsb (fun pattern => contains pattern (lower text))
                          Rag.adgm_jurisdiction_patterns = true ->
                  contains "court" (lower text) = true).
  { intros H. apply existsb_exists in H. destruct H as (pattern & Hin & H).
    revert H. apply contains_trans.
    cbn in Hin. repeat destruct Hin as [<- | Hin]; try reflexivity.
    destruct Hin. }
  destruct (existsb _ Rag.adgm_jurisdiction_patterns) eqn:Ea; cbn [negb andb].
  - split.
    + intros (H & _). right. split; [reflexivity | exact H].
    + intros [(Hc1 & _) | (_ & H)]; [|now split].
      rewrite Hadgm in Hc1 by reflexivity. discriminate.
  - destruct (contains "jurisdiction" (lower text)) eqn:Ej; cbn [orb].
    + split; [intros (_ & H); discriminate H|].
      intros [(_ & H) | (H & _)]; discriminate H.
    + destruct (contains "court" (lower text)) eqn:Ec.
      * split; [intros (_ & H); discriminate H|].
        intros [(H & _) | (H & _)]; discriminate H.
      * split; [intros _; left; now split|].
        intros _. split; [|reflexivity].
        intros incorrect Hin.
        destruct (contains incorrect (lower text)) eqn:E; [|reflexivity].
        discriminate (Hcourt incorrect Hin E).
Qed.

(** X20. The governing-law validator gives as many suggestions as issues, and
    it calls a text compliant exactly when the lower-cased text contains none
    of the four incorrect laws and either one of "adgm law", "abu dhabi global
    market law", "laws of adgm", or neither "governing law" nor "governed by".
    The clause that the validator itself suggests contains none of the three,
    so a text that holds the suggested clause passes only when one of the
    three occurs elsewhere in it. *)
Theorem X20_governing_law_validator_verdict :
  forall text : string,
    List.length (Rag.suggestions (Rag.validate_governing_law text))
    = List.length (Rag.issues (Rag.validate_governing_law text))
    /\ (Rag.compliant (Rag.validate_governing_law text) = true
        <-> (forall incorrect,
                In incorrect Rag.incorrect_laws ->
                contains incorrect (lower text) = false)
            /\ (existsb (fun pattern => contains pattern (lower text))
                        Rag.adgm_law_patterns = true
                \/ (contains "governing law" (lower text) = false
                    /\ contains "governed by" (lower text) = false)))
    /\ existsb (fun pattern =>
                  contains pattern
                    (lower "governed by the laws of Abu Dhabi Global Market"))
               Rag.adgm_law_patterns = false
    /\ forall before after : string,
         Rag.compliant
           (Rag.validate_governing_law
              (before ++ "governed by the laws of Abu Dhabi Global Market"
                      ++ after)) = true ->
         existsb (fun pattern =>
                    contains pattern
                      (lower (before
                              ++ "governed by the laws of Abu Dhabi Global Market"
                              ++ after)))
                 Rag.adgm_law_patterns = true.
Proof.
  assert (Hiff : forall text,
             Rag.compliant (Rag.validate_governing_law text) = true
             <-> (forall incorrect,
                     In incorrect Rag.incorrect_laws ->
                     contains incorrect (lower text) = false)
                 /\ (existsb (fun pattern => contains pattern (lower text))
                             Rag.adgm_law_patterns = true
                     \/ (contains "governing law" (lower text) = false
                         /\ contains "governed by" (lower text) = false))).
  { intros text.
    destruct (validate_governing_law_view text) as (Hi & _ & Hc).
    rewrite Hc, Hi, length_zero_app, map_nil_iff, filter_nil_iff.
    destruct (existsb _ Rag.adgm_law_patterns),
             (contains "governing law" (lower text)),
             (contains "governed by" (lower text)); cbn [negb andb orb];
      (split;
       [ intros (H & H');
         first [ discriminate H'
               | split; [exact H|];
                 first [left; reflexivity | right; split; reflexivity] ]
       | intros (H & Hor); split; [exact H|];
         first [ reflexivity
               | destruct Hor as [Hx | (Hx & Hy)]; congruence ] ]). }
  intros text.
  destruct (validate_governing_law_view text) as (_ & Hs & _).
  split; [exact Hs|]. split; [apply Hiff|]. split; [reflexivity|].
  intros before after H. apply Hiff in H. destruct H as (_ & [H | (_ & H)]);
    [exact H|].
  rewrite !lower_app in H.
  change (lower "governed by the laws of Abu Dhabi Global Market")
    with ("governed by" ++ " the laws of abu dhabi global market")%string in H.
  rewrite string_app_assoc, contains_in_context in H. discriminate H.
Qed.

Lemma incorrect_jurisdiction_rejected (text pattern : string) :
  In pattern Rag.incorrect_jurisdictions ->
  contains pattern (lower text) = true ->
  Rag.compliant (Rag.validate_jurisdiction_clause text) = false.
Proof.
  intros Hin Hc.
  destruct (validate_jurisdiction_clause_view text) as (Hi & _ & ->).
  apply Nat.eqb_neq. intros H.
  rewrite Hi, length_app, length_map in H.
  assert (Hf : In pattern (filter (fun incorrect => contains incorrect (lower text))
                                  Rag.incorrect_jurisdictions))
    by (apply filter_In; now split).
  destruct (filter _ Rag.incorrect_jurisdictions); [destruct Hf | discriminate H].
Qed.

Lemma incorrect_law_rejected (text pattern : string) :
  In pattern Rag.incorrect_laws ->
  contains pattern (lower text) = true ->
  Rag.compliant (Rag.validate_governing_law text) = false.
Proof.
  intros Hin Hc.
  destruct (validate_governing_law_view text) as (Hi & _ & ->).
  apply Nat.eqb_neq. intros H.
  rewrite Hi, length_app, length_map in H.
  assert (Hf : In pattern (filter (fun incorrect => contains incorrect (lower text))
                                  Rag.incorrect_laws))
    by (apply filter_In; now split).
  destruct (filter _ Rag.incorrect_laws); [destruct Hf | discriminate H].
Qed.

(** X21. The detector and the validators agree in one direction: whenever the
    detector, with the configured flag table, reports a pattern issue of the
    flag "jurisdiction" (of the flag "governing_law") for a paragraph, the
    jurisdiction validator (the governing-law validator) calls the text of
    that paragraph non-compliant. *)
Theorem X21_flagged_paragraph_fails_the_validator :
  forall (RagState : Type)
         (guide : string -> string -> RagState -> option string * RagState)
         (doc : Docx.Document) (doc_type : string) (s : RagState)
         (i : Issue) (pattern : string),
    In i (issues_found
            (fst (analyze_document RagState guide Config.RED_FLAGS
                                   (Docx.Readable doc) doc_type s))) ->
    pattern_found i = Some pattern ->
    exists paragraph,
      nth_error (Docx.paragraphs doc) (Z.to_nat (paragraph_index i))
      = Some paragraph
      /\ (flag_type i = "jurisdiction"%string ->
          Rag.compliant (Rag.validate_jurisdiction_clause (Docx.text paragraph))
          = false)
      /\ (flag_type i = "governing_law"%string ->
          Rag.compliant (Rag.validate_governing_law (Docx.text paragraph))
          = false).
Proof.
  intros RagState guide doc doc_type s i pattern Hin Hp.
  pose proof (view_pattern_issues Config.RED_FLAGS doc doc_type) as V.
  rewrite <- (analyze_document_view RagState guide Config.RED_FLAGS doc doc_type s)
    in V.
  rewrite Forall_map, Forall_forall in V. specialize (V i Hin).
  change (pattern_found (without_guidance i)) with (pattern_found i) in V.
  rewrite Hp in V.
  destruct V as (paragraph & cfg & _ & Hn & _ & Hc & Hflag & Hpat & _).
  change (paragraph_index (without_guidance i)) with (paragraph_index i) in Hn.
  change (flag_type (without_guidance i)) with (flag_type i) in Hflag.
  exists paragraph. split; [exact Hn|].
  split; intros Hft; rewrite Hft in Hflag; cbn in Hflag;
    destruct Hflag as [H | [H | [H | [H | []]]]]; try discriminate H;
    injection H as <-; cbn in Hpat.
  - apply (incorrect_jurisdiction_rejected _ pattern); [|exact Hc].
    repeat destruct Hpat as [<- | Hpat]; try destruct Hpat; cbn; tauto.
  - apply (incorrect_law_rejected _ pattern); [|exact Hc].
    repeat destruct Hpat as [<- | Hpat]; try destruct Hpat; cbn; tauto.
Qed.

(** The theorem of X21 at the document "Preamble", "in the Dubai Court",
    "signature": the jurisdiction issue of the second paragraph. *)
Lemma X21_witness :
  exists paragraph,
    nth_error (Docx.paragraphs
                 (document_of ["Preamble"; "in the Dubai Court"; "signature"])) 1
    = Some paragraph
    /\ Rag.compliant (Rag.validate_jurisdiction_clause (Docx.text paragraph))
       = false.
Proof.
  destruct (X21_flagged_paragraph_fails_the_validator
              unit no_guidance
              (document_of ["Preamble"; "in the Dubai Court"; "signature"])
              "board_resolution" tt
              (pattern_issue (mkParagraphData 1 "in the Dubai Court"
                                              "in the dubai court")
                             "jurisdiction"
                             (Config.mkFlagConfig
                                ["uae federal court"; "dubai court";
                                 "sharjah court"; "federal court"]
                                "ADGM Courts" "High"
                                "Jurisdiction must be ADGM Courts, not UAE federal or other emirate courts")
                             "dubai court")
              "dubai court")
    as (paragraph & Hn & Hj & _).
  - vm_compute. left. reflexivity.
  - reflexivity.
  - exists paragraph. split; [exact Hn | apply Hj; reflexivity].
Defined.

(* ------------------------------------------------------------------------- *)
(** ** The text handed to the enhanced analysis *)

Lemma lstrip_head (s : string) :
  strip_nonempty s = true ->
  exists c rest, PyText.lstrip s = String c rest /\ is_space c = false.
Proof.
  induction s as [|c s IH]; cbn [strip_nonempty PyText.lstrip]; [discriminate|].
  destruct (is_space c) eqn:E; cbn [negb orb]; [exact IH|].
  intros _. now exists c, s.
Qed.

Lemma lstrip_blank (s : string) :
  strip_nonempty s = false -> PyText.lstrip s = ""%string.
Proof.
  induction s as [|c s IH]; cbn [strip_nonempty PyText.lstrip]; [reflexivity|].
  destruct (is_space c); cbn [negb orb]; [exact IH | discriminate].
Qed.

Lemma strip_empty_iff (s : string) :
  PyText.strip s = ""%string <-> strip_nonempty s = false.
Proof.
  unfold PyText.strip. split.
  - intros H. destruct (strip_nonempty s) eqn:E; [|reflexivity].
    destruct (lstrip_head s E) as (c & rest & Hl & Hc). rewrite Hl in H.
    cbn [PyText.rstrip] in H. rewrite Hc in H.
    destruct (PyText.rstrip rest); discriminate H.
  - intros H. now rewrite lstrip_blank.
Qed.

Lemma join_empty_iff (sep : string) (parts : list string) :
  Forall (fun p => p <> ""%string) parts ->
  (join sep parts = ""%string <-> parts = []).
Proof.
  intros H. destruct H as [|p rest Hp _]; [now split|].
  split; [|discriminate]. intros E. exfalso. apply Hp.
  cbn [join] in E. destruct rest; [exact E|].
  destruct p; [reflexivity | discriminate E].
Qed.

(** X22. The text that the processor extracts for the enhanced analysis is
    empty exactly when the file cannot be opened or every paragraph and every
    table cell of it is blank; and stripping a text leaves nothing exactly
    when the text has only white space. *)
Theorem X22_extracted_text_is_empty_only_without_text :
  forall file : Docx.File,
    (Batch._extract_document_text file = ""%string
     <-> match file with
         | Docx.Unreadable _ => True
         | Docx.Readable doc =>
             (forall paragraph,
                 In paragraph (Docx.paragraphs doc) ->
                 strip_nonempty (Docx.text paragraph) = false)
             /\ (forall table row cell,
                    In table (Docx.tables doc) -> In row table -> In cell row ->
                    strip_nonempty cell = false)
         end)
    /\ forall s : string, PyText.strip s = ""%string <-> strip_nonempty s = false.
Proof.
  intros file. split; [|exact strip_empty_iff].
  destruct file as [doc|e]; [|now split].
  unfold Batch._extract_document_text.
  rewrite join_empty_iff.
  - split.
    + intros H. apply app_eq_nil in H. destruct H as (H1 & H2).
      apply map_eq_nil in H1, H2.
      rewrite filter_nil_iff in H1, H2. split.
      * intros paragraph Hin. apply H1. now apply in_map.
      * intros table row cell Ht Hr Hc. apply H2.
        apply in_concat. exists (concat table). split.
        -- apply in_map_iff. exists table. now split.
        -- apply in_concat. exists row. now split.
    + intros (H1 & H2).
      assert (E1 : filter strip_nonempty (map Docx.text (Docx.paragraphs doc)) = []).
      { apply filter_nil_iff. intros t Hin. apply in_map_iff in Hin.
        destruct Hin as (paragraph & <- & Hin). now apply H1. }
      assert (E2 : filter strip_nonempty
                          (concat (map (fun table => concat table)
                                       (Docx.tables doc))) = []).
      { apply filter_nil_iff. intros cell Hin. apply in_concat in Hin.
        destruct Hin as (cells & Hcells & Hcell). apply in_map_iff in Hcells.
        destruct Hcells as (table & <- & Ht). apply in_concat in Hcell.
        destruct Hcell as (row & Hrow & Hcell).
        exact (H2 table row cell Ht Hrow Hcell). }
      now rewrite E1, E2.
  - apply Forall_app. split; apply Forall_forall; intros t Hin;
      apply in_map_iff in Hin; destruct Hin as (u & <- & Hu);
      apply filter_In in Hu; destruct Hu as (_ & Hu);
      intros E; apply strip_empty_iff in E; congruence.
Qed.
